(** * btc-hunter CRM bot: offer store, intent interpreter, dispatch service

    A shallow embedding of [src/database.py] (class [OfferRepository]),
    [src/openai_service.py] (class [OfferInterpreter]), [src/service.py]
    (class [BotService]), [src/config.py] ([SettingsFactory]) and of the
    phrase hunter [btc_v37.py], followed by the properties of the
    specification that concern them and by further properties of the code.

    Conventions.
    - A Python [str] and an SQLite TEXT value are a [string] holding the
      UTF-8 encoding of the text (a [str] with a lone surrogate has no
      encoding and is outside the model).
    - A Python [float] and an SQLite REAL value are a [spec_float] of the
      Standard Library (IEEE 754 binary64: precision 53, emax 1024).
    - A value of type [Any] is a [pyval]: the values [json.loads] produces.
    - An exception is a value [exn]; code that can raise returns an
      [outcome]; code that also reads or changes the database, the clock,
      the interpreter service or the chat is a computation [M] over a
      [World].  Only [Exception] subclasses are modelled (task cancellation
      and interpreter shutdown are not).
    - Library functions whose definition is a Unicode table or a printing
      algorithm ([str.lower], [float(str)], [int(str)], [json.loads], [str()],
      [repr()], SQLite's REAL-to-TEXT cast) are fields of the class [PyLib];
      the development is parametric in it and [AsciiLib.ascii_lib] is an
      instance used to run the model on concrete ASCII inputs.
    - The storage engine is modelled for the four statements the
      repository issues: parameter binding, column affinity, AUTOINCREMENT,
      NULL in comparisons, LOWER, LIKE, ORDER BY and LIMIT.
    - The creation of the schema ([init]) runs on a [Disk], the file with
      the columns of its table, in a computation [D].
    - Left out: logging, the wiring of the handlers ([main.py]), the threads
      and the scheduler of the hunter, and [bot.py], the earlier one-file
      version of the three classes. *)

From Stdlib Require Import ZArith String Ascii List Bool Lia.
From Stdlib Require Import Floats.SpecFloat.
From stdpp Require Import gmap strings list sorting pretty.

Set Warnings "-register-all".
Local Open Scope Z_scope.


(** ** Python values and exceptions *)

Definition float := spec_float.

Inductive pyval :=
| PyNone
| PyBool (b : bool)
| PyInt (n : Z)
| PyFloat (f : float)
| PyStr (s : string)
| PyList (l : list pyval)
| PyDict (d : gmap string pyval).

(** The exception classes that occur, with Python's subclass relation
    ([JSONDecodeError] and [UnicodeError] are [ValueError]s; the DB-API and
    HTTP client errors derive from [Exception] directly). *)
Inductive exn_class :=
| AttributeError | TypeError | ValueError | JSONDecodeError
| OverflowError | RuntimeError | SqliteError | OtherError.

Record exn := Exn { exn_cls : exn_class; exn_msg : string }.

(** [isinstance(e, ValueError)] *)
Definition is_ValueError (e : exn) : bool :=
  match exn_cls e with ValueError | JSONDecodeError => true | _ => false end.

(** [isinstance(e, (TypeError, ValueError))] *)
Definition is_TypeError_or_ValueError (e : exn) : bool :=
  match exn_cls e with
  | TypeError | ValueError | JSONDecodeError => true
  | _ => false
  end.

Inductive outcome (A : Type) :=
| Ok (a : A)
| Raise (e : exn).
Arguments Ok {A} a.
Arguments Raise {A} e.

#[global] Instance outcome_ret : MRet outcome := @Ok.
#[global] Instance outcome_bind : MBind outcome := fun A B f m =>
  match m with Ok a => f a | Raise e => Raise e end.

(** [type(v).__name__] *)
Definition type_name (v : pyval) : string :=
  match v with
  | PyNone => "NoneType" | PyBool _ => "bool" | PyInt _ => "int"
  | PyFloat _ => "float" | PyStr _ => "str" | PyList _ => "list"
  | PyDict _ => "dict"
  end.

Definition is_nan (f : float) : bool :=
  match f with S754_nan => true | _ => false end.

Definition is_zero (f : float) : bool :=
  match f with S754_zero _ => true | _ => false end.

Definition is_inf (f : float) : bool :=
  match f with S754_infinity _ => true | _ => false end.

Definition is_negative_zero (f : float) : bool :=
  match f with S754_zero true => true | _ => false end.

(** [bool(v)]: the test of [if v:] and of [v or w]. *)
Definition truthy (v : pyval) : bool :=
  match v with
  | PyNone => false
  | PyBool b => b
  | PyInt n => negb (n =? 0)
  | PyFloat f => negb (is_zero f)
  | PyStr s => negb (String.eqb s "")
  | PyList l => match l with [] => false | _ => true end
  | PyDict d => negb (bool_decide (d = ∅))
  end.

(** [v or w] *)
Definition py_or (v w : pyval) : pyval := if truthy v then v else w.

Definition is_None (v : pyval) : bool :=
  match v with PyNone => true | _ => false end.

Definition no_attribute (v : pyval) (attr : string) : exn :=
  Exn AttributeError
    ("'" +:+ type_name v +:+ "' object has no attribute '" +:+ attr +:+ "'").

(** The value of a key of a dict, [None] when the key is missing *)
Definition field (m : gmap string pyval) (key : string) : pyval :=
  default PyNone (m !! key).

(** [d.get(key)]; a value that is not a dict has no method [get]. *)
Definition dict_get (d : pyval) (key : string) : outcome pyval :=
  match d with
  | PyDict m => Ok (field m key)
  | _ => Raise (no_attribute d "get")
  end.

(** The nearest binary64 to an integer (round to nearest, ties to even). *)
Definition int_to_float (n : Z) : float := binary_normalize 53 1024 n 0 false.

Class PyLib := {
  (** [s.lower()] *)
  str_lower : string -> string;
  (** [float(s)] on a str; [None] is [ValueError] *)
  float_of_str : string -> option float;
  (** [int(s)] on a str; [None] is [ValueError] *)
  int_of_str : string -> option Z;
  (** [json.loads(content)] where [content] may be [None] *)
  json_loads : option string -> outcome pyval;
  (** [str(v)], which an f-string applies to a replacement field *)
  py_str : pyval -> string;
  (** [repr(s)] of a str *)
  str_repr : string -> string;
  (** SQLite's conversion of a REAL to TEXT (column affinity TEXT) *)
  sqlite_real_to_text : float -> string
}.

Section Python.
Context `{PyLib}.

(** The [ValueError] of [float(s)] for a str that is not a numeral *)
Definition cannot_convert (s : string) : exn :=
  Exn ValueError ("could not convert string to float: " +:+ str_repr s).

(** [float(v)] *)
Definition py_float (v : pyval) : outcome float :=
  match v with
  | PyFloat f => Ok f
  | PyBool b => Ok (int_to_float (if b then 1 else 0))
  | PyInt n =>
      if is_inf (int_to_float n)
      then Raise (Exn OverflowError "int too large to convert to float")
      else Ok (int_to_float n)
  | PyStr s =>
      match float_of_str s with
      | Some f => Ok f
      | None => Raise (cannot_convert s)
      end
  | _ => Raise (Exn TypeError
                  ("float() argument must be a string or a real number, not '"
                   +:+ type_name v +:+ "'"))
  end.

(** [v.lower()]: only a str has the method. *)
Definition py_lower (v : pyval) : outcome string :=
  match v with
  | PyStr s => Ok (str_lower s)
  | _ => Raise (no_attribute v "lower")
  end.

End Python.

(** ** The storage engine: values, parameter binding, LOWER and LIKE *)

Inductive sqlval :=
| SNull
| SInt (n : Z)
| SReal (f : float)
| SText (s : string).

Definition int64_min : Z := - 2 ^ 63.
Definition int64_max : Z := 2 ^ 63 - 1.

Definition int_too_large : exn :=
  Exn OverflowError "Python int too large to convert to SQLite INTEGER".

(** How the [sqlite3] module binds the [i]-th parameter of a statement:
    [None] is NULL, a bool is an int, an int must fit 64 bits, a NaN is
    stored as NULL, and a list or a dict is refused. *)
Definition bind_param (i : nat) (v : pyval) : outcome sqlval :=
  match v with
  | PyNone => Ok SNull
  | PyBool b => Ok (SInt (if b then 1 else 0))
  | PyInt n =>
      if (int64_min <=? n) && (n <=? int64_max) then Ok (SInt n)
      else Raise int_too_large
  | PyFloat f => Ok (if is_nan f then SNull else SReal f)
  | PyStr s => Ok (SText s)
  | PyList _ | PyDict _ =>
      Raise (Exn SqliteError
               ("Error binding parameter " +:+ pretty i +:+ ": type '"
                +:+ type_name v +:+ "' is not supported"))
  end.

(** [bind_params i vs] binds the parameters [vs], numbered from [i]. *)
Fixpoint bind_params (i : nat) (vs : list pyval) : outcome (list sqlval) :=
  match vs with
  | [] => Ok []
  | v :: vs' =>
      match bind_param i v with
      | Raise e => Raise e
      | Ok x =>
          match bind_params (S i) vs' with
          | Raise e => Raise e
          | Ok xs => Ok (x :: xs)
          end
      end
  end.

Definition ascii_fold (c : ascii) : ascii :=
  let n := N_of_ascii c in
  if ((65 <=? n) && (n <=? 90))%N then ascii_of_N (n + 32) else c.

(** SQLite's built-in LOWER: the letters A-Z only, byte by byte. *)
Definition sqlite_lower (s : string) : string :=
  string_of_list_ascii (map ascii_fold (list_ascii_of_string s)).

Definition is_continuation (c : ascii) : bool :=
  let n := N_of_ascii c in ((128 <=? n) && (n <? 192))%N.

Definition is_lead (c : ascii) : bool := (192 <=? N_of_ascii c)%N.

(** One character as the engine reads it: a byte, followed when the byte
    is 0xC0 or above by the continuation bytes (0x80-0xBF) after it. *)
Definition uchar := list ascii.

Fixpoint take_continuation (cs : list uchar) : list ascii * list uchar :=
  match cs with
  | [b] :: rest =>
      if is_continuation b
      then let '(t, r) := take_continuation rest in (b :: t, r)
      else ([], cs)
  | _ => ([], cs)
  end.

Fixpoint utf8_chars (s : list ascii) : list uchar :=
  match s with
  | [] => []
  | c :: s' =>
      if is_lead c
      then let '(t, r) := take_continuation (utf8_chars s') in (c :: t) :: r
      else [c] :: utf8_chars s'
  end.

Definition uchar_fold (c : uchar) : uchar := map ascii_fold c.

Definition uchar_eqb (c d : uchar) : bool :=
  bool_decide (uchar_fold c = uchar_fold d).

Definition percent : uchar := ["%"%char].
Definition underscore : uchar := ["_"%char].

(** The LIKE operator (no ESCAPE clause): [%] matches any run of
    characters, [_] exactly one character, any other character itself, the
    letters A-Z and a-z without regard to case. *)
Fixpoint like_chars (p : list uchar) : list uchar -> bool :=
  match p with
  | [] => fun t => match t with [] => true | _ => false end
  | c :: p' =>
      if bool_decide (c = percent) then
        fix star (t : list uchar) : bool :=
          like_chars p' t
          || match t with [] => false | _ :: t' => star t' end
      else if bool_decide (c = underscore) then
        fun t => match t with [] => false | _ :: t' => like_chars p' t' end
      else
        fun t => match t with
                 | [] => false
                 | d :: t' => uchar_eqb c d && like_chars p' t'
                 end
  end.

(** [text LIKE pattern] *)
Definition sql_like (text pattern : string) : bool :=
  like_chars (utf8_chars (list_ascii_of_string pattern))
             (utf8_chars (list_ascii_of_string text)).

Section Engine.
Context `{PyLib}.

(** A value as TEXT: what column affinity TEXT stores, and what [=] and
    LIKE compare a TEXT column with.  NULL stays NULL. *)
Definition as_text (v : sqlval) : option string :=
  match v with
  | SNull => None
  | SInt n => Some (pretty n)
  | SReal f => Some (sqlite_real_to_text f)
  | SText s => Some s
  end.

End Engine.

(** ** The table [offers], the chat, the interpreter service: the world *)

(** A row of the table created by [OfferRepository.init], without its key;
    the columns have the type their declared affinity gives what
    [save_offer] stores (TEXT columns hold text or NULL, [fee_percent]
    holds a REAL or NULL). *)
Record Offer := {
  raw_text : string;
  country : option string;
  method : option string;
  fee : option string;
  rate : option string;
  limits : option string;
  conditions : option string;
  status : string;
  created_at : string;
  updated_at : string;
  kind : option string;
  fee_percent : option float
}.

(** A message handed to the chat transport *)
Record Message := {
  msg_chat : Z;
  msg_text : string;
  msg_parse_mode : option string
}.

(** What [client.chat.completions.create] does for a user text: it raises,
    or it returns a response whose first choice has this content. *)
Inductive api_reply :=
| ApiRaises (e : exn)
| ApiContent (content : option string).

Record World := {
  (** the table, keyed by its INTEGER PRIMARY KEY *)
  offers : gmap Z Offer;
  (** the AUTOINCREMENT counter: the largest key ever used *)
  sqlite_sequence : Z;
  (** the insert of the open transaction, not yet committed *)
  txn : option (Z * Offer);
  (** storage faults to come: one entry is consumed by each call into the
      database (connect, execute, commit, fetch); [Some e] makes it raise *)
  faults : list (option exn);
  (** [datetime.utcnow().isoformat()] at the n-th reading of the clock *)
  clock : nat -> string;
  ticks : nat;
  (** the external classification service *)
  openai : string -> api_reply;
  (** the messages sent so far, the latest first *)
  outbox : list Message
}.

Definition M (A : Type) : Type := World -> outcome A * World.

#[global] Instance M_ret : MRet M := fun A a w => (Ok a, w).
#[global] Instance M_bind : MBind M := fun A B f m w =>
  match m w with
  | (Ok a, w') => f a w'
  | (Raise e, w') => (Raise e, w')
  end.

Definition lift {A} (o : outcome A) : M A := fun w => (o, w).

Definition raise {A} (e : exn) : M A := fun w => (Raise e, w).

(** [try: body  except <catches> as exc: handler exc] *)
Definition try_except {A} (body : M A) (catches : exn -> bool)
    (handler : exn -> M A) : M A := fun w =>
  match body w with
  | (Raise e, w') => if catches e then handler e w' else (Raise e, w')
  | r => r
  end.

(** [except Exception]: every modelled exception *)
Definition any_Exception (e : exn) : bool := true.

Definition set_offers (f : gmap Z Offer) (s : Z) (w : World) : World :=
  {| offers := f; sqlite_sequence := s; txn := txn w; faults := faults w;
     clock := clock w; ticks := ticks w; openai := openai w;
     outbox := outbox w |}.

Definition set_txn (t : option (Z * Offer)) (w : World) : World :=
  {| offers := offers w; sqlite_sequence := sqlite_sequence w; txn := t;
     faults := faults w; clock := clock w; ticks := ticks w;
     openai := openai w; outbox := outbox w |}.

Definition set_faults (l : list (option exn)) (w : World) : World :=
  {| offers := offers w; sqlite_sequence := sqlite_sequence w; txn := txn w;
     faults := l; clock := clock w; ticks := ticks w; openai := openai w;
     outbox := outbox w |}.

Definition set_ticks (n : nat) (w : World) : World :=
  {| offers := offers w; sqlite_sequence := sqlite_sequence w; txn := txn w;
     faults := faults w; clock := clock w; ticks := n; openai := openai w;
     outbox := outbox w |}.

Definition set_outbox (l : list Message) (w : World) : World :=
  {| offers := offers w; sqlite_sequence := sqlite_sequence w; txn := txn w;
     faults := faults w; clock := clock w; ticks := ticks w;
     openai := openai w; outbox := l |}.

(** [datetime.utcnow().isoformat()] *)
Definition utcnow_isoformat : M string := fun w =>
  (Ok (clock w (ticks w)), set_ticks (S (ticks w)) w).

(** One call into the database: it raises when a fault is due. *)
Definition db_io : M unit := fun w =>
  match faults w with
  | [] => (Ok tt, w)
  | None :: l => (Ok tt, set_faults l w)
  | Some e :: l => (Raise e, set_faults l w)
  end.

(** [async with aiosqlite.connect(db_path) as db: body]: the connection is
    opened, the body runs, and the connection is closed whether the body
    returns or raises; closing it drops a transaction left open. *)
Definition with_connection {A} (body : M A) : M A := fun w =>
  match db_io w with
  | (Raise e, w') => (Raise e, w')
  | (Ok _, w') => let '(r, w'') := body w' in (r, set_txn None w'')
  end.

(** [await db.commit()] *)
Definition commit : M unit := fun w =>
  match db_io w with
  | (Raise e, w') => (Raise e, w')
  | (Ok _, w') =>
      match txn w' with
      | None => (Ok tt, w')
      | Some (i, o) =>
          (Ok tt, set_txn None (set_offers (<[i := o]> (offers w')) i w'))
      end
  end.

(** The result of [db.execute]: the key of the row an INSERT made (read
    only after an INSERT) and the rows a SELECT produced, each a tuple of
    Python values. *)
Record Cursor := {
  lastrowid : Z;
  result_rows : list (list pyval)
}.

(** [await cursor.fetchall()] *)
Definition fetchall (c : Cursor) : M (list (list pyval)) :=
  db_io;; mret (result_rows c).

(** [await cursor.fetchone()]: the first row, or [None] *)
Definition fetchone (c : Cursor) : M (option (list pyval)) :=
  db_io;; mret (head (result_rows c)).

(** ** The statements the repository issues *)

Definition insert_sql : string :=
"
                INSERT INTO offers (
                    raw_text, country, method, fee, rate, limits,
                    conditions, status, created_at, updated_at,
                    kind, fee_percent
                )
                VALUES (?, ?, ?, ?, ?, ?, ?, ?, ?, ?, ?, ?)
                ".

Definition list_last_sql : string :=
"
                SELECT id, country, method, fee, rate, status, created_at, kind, fee_percent
                FROM offers
                ORDER BY id DESC
                LIMIT ?
                ".

Definition get_by_id_sql : string :=
"
                SELECT id, raw_text, country, method, fee, rate,
                       limits, conditions, status, created_at, updated_at,
                       kind, fee_percent
                FROM offers
                WHERE id = ?
                ".

Definition search_sql_head : string :=
"
                SELECT id, country, method, fee, rate, status, kind, fee_percent
                FROM offers
                WHERE ".

Definition search_sql_tail : string :=
"
                ORDER BY id DESC
                LIMIT ?
                ".

(** The f-string of [search_offers] *)
Definition search_sql (where_clause : string) : string :=
  search_sql_head +:+ where_clause +:+ search_sql_tail.

(** The six predicates a WHERE clause of [search_offers] is made of *)
Inductive predicate :=
| CountryLike | MethodLike | StatusEq | KindEq | FeeGe | FeeLe.

Definition predicate_sql (p : predicate) : string :=
  match p with
  | CountryLike => "LOWER(country) LIKE ?"
  | MethodLike => "LOWER(method) LIKE ?"
  | StatusEq => "status = ?"
  | KindEq => "kind = ?"
  | FeeGe => "fee_percent >= ?"
  | FeeLe => "fee_percent <= ?"
  end.

Definition all_predicates : list predicate :=
  [CountryLike; MethodLike; StatusEq; KindEq; FeeGe; FeeLe].

Fixpoint strip_prefix (p s : list ascii) : option (list ascii) :=
  match p, s with
  | [], _ => Some s
  | a :: p', b :: s' => if Ascii.eqb a b then strip_prefix p' s' else None
  | _ :: _, [] => None
  end.

Definition strip_suffix (p s : list ascii) : option (list ascii) :=
  reverse <$> strip_prefix (reverse p) (reverse s).

(** The predicate whose text the clause starts with, and the rest *)
Definition read_predicate (s : list ascii)
    : option (predicate * list ascii) :=
  head (omap (fun p =>
               (fun r => (p, r)) <$>
                 strip_prefix (list_ascii_of_string (predicate_sql p)) s)
             all_predicates).

(** How the engine reads the text of a WHERE clause: [1=1], or predicates
    joined by [AND]. *)
Fixpoint read_conjunction (fuel : nat) (s : list ascii)
    : option (list predicate) :=
  match fuel with
  | O => None
  | S fuel' =>
      match read_predicate s with
      | None => None
      | Some (p, []) => Some [p]
      | Some (p, r) =>
          match strip_prefix (list_ascii_of_string " AND ") r with
          | None => None
          | Some r' => (fun ps => p :: ps) <$> read_conjunction fuel' r'
          end
      end
  end.

Definition read_where (clause : string) : option (list predicate) :=
  if String.eqb clause "1=1" then Some []
  else read_conjunction (String.length clause)
                        (list_ascii_of_string clause).

(** The WHERE clause of a statement that has the shape of [search_sql] *)
Definition read_search_sql (sql : string) : option (list predicate) :=
  match strip_prefix (list_ascii_of_string search_sql_head)
                     (list_ascii_of_string sql) with
  | None => None
  | Some r =>
      match strip_suffix (list_ascii_of_string search_sql_tail) r with
      | None => None
      | Some c => read_where (string_of_list_ascii c)
      end
  end.

(** Rows as the tuples of Python values a cursor yields *)
Definition opt_text (o : option string) : pyval := from_option PyStr PyNone o.
Definition opt_real (o : option float) : pyval := from_option PyFloat PyNone o.

Definition full_row (r : Z * Offer) : list pyval :=
  let '(i, o) := r in
  [PyInt i; PyStr (raw_text o); opt_text (country o); opt_text (method o);
   opt_text (fee o); opt_text (rate o); opt_text (limits o);
   opt_text (conditions o); PyStr (status o); PyStr (created_at o);
   PyStr (updated_at o); opt_text (kind o); opt_real (fee_percent o)].

Definition recent_row (r : Z * Offer) : list pyval :=
  let '(i, o) := r in
  [PyInt i; opt_text (country o); opt_text (method o); opt_text (fee o);
   opt_text (rate o); PyStr (status o); PyStr (created_at o);
   opt_text (kind o); opt_real (fee_percent o)].

Definition search_row (r : Z * Offer) : list pyval :=
  let '(i, o) := r in
  [PyInt i; opt_text (country o); opt_text (method o); opt_text (fee o);
   opt_text (rate o); PyStr (status o); opt_text (kind o);
   opt_real (fee_percent o)].

(** [ORDER BY id DESC] *)
Definition by_id_desc (x y : Z * Offer) : Prop := y.1 <= x.1.

#[global] Instance by_id_desc_dec : RelDecision by_id_desc.
Proof. intros x y. unfold by_id_desc. apply _. Defined.

Definition order_by_id_desc (l : list (Z * Offer)) : list (Z * Offer) :=
  merge_sort by_id_desc l.

(** [LIMIT n]: a negative [n] is no limit. *)
Definition sql_limit {A} (n : Z) (l : list A) : list A :=
  if n <? 0 then l else take (Z.to_nat n) l.

(** The largest key of the table, 0 for an empty one *)
Definition max_key (t : gmap Z Offer) : Z :=
  foldr Z.max 0 (map fst (map_to_list t)).

(** The key AUTOINCREMENT gives the next row: one more than every key in
    the table and every key used before. *)
Definition next_rowid (w : World) : Z :=
  Z.max (sqlite_sequence w) (max_key (offers w)) + 1.

Definition sqlite_error (msg : string) : exn := Exn SqliteError msg.

Section Repository.
Context `{PyLib}.

(** ** How the engine runs the statements *)

(** [holds p x o]: the predicate [p], its [?] bound to [x], is true of the
    row [o] (a comparison with NULL is not true).  The fee bounds are
    compared as REALs; a bound that is not a REAL, which [search_offers]
    never binds ([float()] returns a float and a NaN is bound as NULL),
    selects no row in this model. *)
Definition holds (p : predicate) (x : sqlval) (o : Offer) : bool :=
  match p with
  | CountryLike =>
      match country o, as_text x with
      | Some c, Some pat => sql_like (sqlite_lower c) pat
      | _, _ => false
      end
  | MethodLike =>
      match method o, as_text x with
      | Some c, Some pat => sql_like (sqlite_lower c) pat
      | _, _ => false
      end
  | StatusEq =>
      match as_text x with
      | Some s => String.eqb (status o) s
      | None => false
      end
  | KindEq =>
      match kind o, as_text x with
      | Some k, Some s => String.eqb k s
      | _, _ => false
      end
  | FeeGe =>
      match fee_percent o, x with
      | Some f, SReal b => SFleb b f
      | _, _ => false
      end
  | FeeLe =>
      match fee_percent o, x with
      | Some f, SReal b => SFleb f b
      | _, _ => false
      end
  end.

(** The conjunction of the predicates [ps] with the parameters [xs] *)
Fixpoint where_holds (ps : list predicate) (xs : list sqlval) (o : Offer)
    : bool :=
  match ps, xs with
  | p :: ps', x :: xs' => holds p x o && where_holds ps' xs' o
  | _, _ => true
  end.

Definition bindings_error : exn :=
  sqlite_error "Incorrect number of bindings supplied".

(** A column declared TEXT NOT NULL *)
Definition not_null (col : string) (x : sqlval) : outcome string :=
  match as_text x with
  | Some s => Ok s
  | None => Raise (sqlite_error ("NOT NULL constraint failed: offers." +:+ col))
  end.

(** A REAL as the table keeps it: the sign of a zero is not kept. *)
Definition plus_zero (f : float) : float :=
  if is_zero f then S754_zero false else f.

(** The column [fee_percent REAL].  A TEXT value, which [save_offer] never
    binds to it, does not fit the typed table and is refused here. *)
Definition as_real (x : sqlval) : outcome (option float) :=
  match x with
  | SNull => Ok None
  | SReal f => Ok (Some (plus_zero f))
  | SInt n => Ok (Some (int_to_float n))
  | SText _ => Raise (sqlite_error "datatype mismatch")
  end.

(** The new row gets its key and joins the open transaction. *)
Definition stage_row (o : Offer) : M Cursor := fun w =>
  let i := next_rowid w in
  if int64_max <? i
  then (Raise (sqlite_error "database or disk is full"), w)
  else (Ok {| lastrowid := i; result_rows := [] |}, set_txn (Some (i, o)) w).

(** The rows a SELECT yields, computed from the table *)
Definition select_rows (rows : gmap Z Offer -> list (list pyval)) : M Cursor :=
  fun w => (Ok {| lastrowid := 0; result_rows := rows (offers w) |}, w).

(** [INSERT INTO offers (...) VALUES (?, ..., ?)]: the row is part of the
    open transaction until [commit]. *)
Definition run_insert (xs : list sqlval) : M Cursor :=
  match xs with
  | [x_raw; x_country; x_method; x_fee; x_rate; x_limits; x_conditions;
     x_status; x_created; x_updated; x_kind; x_fee_percent] =>
      r ← lift (not_null "raw_text" x_raw);
      s ← lift (not_null "status" x_status);
      c ← lift (not_null "created_at" x_created);
      u ← lift (not_null "updated_at" x_updated);
      fp ← lift (as_real x_fee_percent);
      stage_row {| raw_text := r; country := as_text x_country;
                   method := as_text x_method; fee := as_text x_fee;
                   rate := as_text x_rate; limits := as_text x_limits;
                   conditions := as_text x_conditions; status := s;
                   created_at := c; updated_at := u;
                   kind := as_text x_kind; fee_percent := fp |}
  | _ => raise bindings_error
  end.

(** The LIMIT operand.  [list_last_offers] and [search_offers] bind an
    int; another value is refused in this model. *)
Definition as_limit (x : sqlval) : outcome Z :=
  match x with
  | SInt n => Ok n
  | _ => Raise (sqlite_error "datatype mismatch")
  end.

(** [SELECT ... FROM offers ORDER BY id DESC LIMIT ?] *)
Definition run_list_last (xs : list sqlval) : M Cursor :=
  match xs with
  | [x] =>
      n ← lift (as_limit x);
      select_rows (fun t =>
        recent_row <$> sql_limit n (order_by_id_desc (map_to_list t)))
  | _ => raise bindings_error
  end.

(** [SELECT ... FROM offers WHERE id = ?].  [get_offer_by_id] binds an
    int; another value selects no row in this model. *)
Definition run_get_by_id (xs : list sqlval) : M Cursor :=
  match xs with
  | [x] =>
      select_rows (fun t =>
        match x with
        | SInt i =>
            match t !! i with
            | Some o => [full_row (i, o)]
            | None => []
            end
        | _ => []
        end)
  | _ => raise bindings_error
  end.

(** [SELECT ... FROM offers WHERE <ps> ORDER BY id DESC LIMIT ?]: the last
    parameter is the limit, the others belong to the predicates in order. *)
Definition run_search (ps : list predicate) (xs : list sqlval) : M Cursor :=
  if bool_decide (length xs = S (length ps)) then
    n ← lift (as_limit (default SNull (last xs)));
    select_rows (fun t =>
      search_row <$>
        sql_limit n
          (order_by_id_desc
             (filter (fun r => where_holds ps xs r.2 = true)
                     (map_to_list t))))
  else raise bindings_error.

(** [await db.execute(sql, params)]: the parameters are bound, then the
    statement runs.  The engine knows the statements of this repository;
    any other text is an error. *)
Definition execute (sql : string) (params : list pyval) : M Cursor :=
  xs ← lift (bind_params 1 params);
  db_io;;
  if String.eqb sql insert_sql then run_insert xs
  else if String.eqb sql list_last_sql then run_list_last xs
  else if String.eqb sql get_by_id_sql then run_get_by_id xs
  else match read_search_sql sql with
       | Some ps => run_search ps xs
       | None => raise (sqlite_error "syntax error")
       end.

(** ** [database.py]: class [OfferRepository] *)

(** The local function [safe_float] of [save_offer] *)
Definition safe_float (value : pyval) : outcome pyval :=
  if is_None value then Ok PyNone
  else match py_float value with
       | Ok f => Ok (PyFloat f)
       | Raise e => if is_TypeError_or_ValueError e then Ok PyNone else Raise e
       end.

Definition save_offer (parsed : pyval) (raw_text : string) : M Z :=
  now ← utcnow_isoformat;
  with_connection (
    country ← lift (dict_get parsed "country");
    method ← lift (dict_get parsed "method");
    fee ← lift (dict_get parsed "fee");
    rate ← lift (dict_get parsed "rate");
    limits ← lift (dict_get parsed "limits");
    conditions ← lift (dict_get parsed "conditions");
    kind ← lift (dict_get parsed "kind");
    fee_percent ← lift (dict_get parsed "fee_percent");
    fee_percent ← lift (safe_float fee_percent);
    cursor ← execute insert_sql
      [PyStr raw_text; country; method; fee; rate; limits; conditions;
       PyStr "new"; PyStr now; PyStr now; kind; fee_percent];
    commit;;
    mret (lastrowid cursor)).

Definition list_last_offers (limit : Z) : M (list (list pyval)) :=
  with_connection (
    cursor ← execute list_last_sql [PyInt limit];
    fetchall cursor).

Definition get_offer_by_id (offer_id : Z) : M (option (list pyval)) :=
  with_connection (
    cursor ← execute get_by_id_sql [PyInt offer_id];
    fetchone cursor).

(** The part of [search_offers] before the connection is opened: the text
    of the statement and its parameters. *)
Definition search_offers_query (filters : pyval) (limit : Z)
    : outcome (string * list pyval) :=
  country ← dict_get filters "country";
  method ← dict_get filters "method";
  status ← dict_get filters "status";
  kind ← dict_get filters "kind";
  min_fee ← dict_get filters "min_fee_percent";
  max_fee ← dict_get filters "max_fee_percent";
  let acc : list string * list pyval := ([], []) in
  acc ← (if truthy country
         then l ← py_lower country;
              mret (acc.1 ++ ["LOWER(country) LIKE ?"],
                    acc.2 ++ [PyStr ("%" +:+ l +:+ "%")])
         else mret acc);
  acc ← (if truthy method
         then l ← py_lower method;
              mret (acc.1 ++ ["LOWER(method) LIKE ?"],
                    acc.2 ++ [PyStr ("%" +:+ l +:+ "%")])
         else mret acc);
  acc ← (if truthy status
         then mret (acc.1 ++ ["status = ?"], acc.2 ++ [status])
         else mret acc);
  acc ← (if truthy kind
         then mret (acc.1 ++ ["kind = ?"], acc.2 ++ [kind])
         else mret acc);
  acc ← (if negb (is_None min_fee)
         then f ← py_float min_fee;
              mret (acc.1 ++ ["fee_percent >= ?"], acc.2 ++ [PyFloat f])
         else mret acc);
  acc ← (if negb (is_None max_fee)
         then f ← py_float max_fee;
              mret (acc.1 ++ ["fee_percent <= ?"], acc.2 ++ [PyFloat f])
         else mret acc);
  let '(conditions, params) := acc in
  let where_clause :=
    match conditions with
    | [] => "1=1"
    | _ => String.concat " AND " conditions
    end in
  let params := params ++ [PyInt limit] in
  mret (search_sql where_clause, params).

Definition search_offers (filters : pyval) (limit : Z)
    : M (list (list pyval)) :=
  q ← lift (search_offers_query filters limit);
  with_connection (
    cursor ← execute q.1 q.2;
    fetchall cursor).

End Repository.

(** ** [openai_service.py]: class [OfferInterpreter] *)

Definition nl : string := String "010"%char EmptyString.

(** [f"{content}"] for the optional content of a response *)
Definition content_str (content : option string) : string :=
  default "None" content.

(** The [RuntimeError] of [interpret]: the reason and the raw content *)
Definition parse_failure (reason : string) (content : option string) : exn :=
  Exn RuntimeError
    ("Не удалось распарсить JSON OpenAI: " +:+ reason +:+ nl +:+ "Ответ: "
     +:+ content_str content).

Section Interpreter.
Context `{PyLib}.

(** The [try] block of [interpret]: decode, and insist on an object. *)
Definition parse_content (content : option string) : outcome pyval :=
  parsed ← json_loads content;
  match parsed with
  | PyDict _ => mret parsed
  | _ => Raise (Exn ValueError "JSON is not an object")
  end.

Definition interpret (text : string) : M pyval := fun w =>
  match openai w text with
  | ApiRaises e => (Raise e, w)
  | ApiContent content =>
      match parse_content content with
      | Ok parsed => (Ok parsed, w)
      | Raise exc => (Raise (parse_failure (exn_msg exc) content), w)
      end
  end.

End Interpreter.

(** ** [service.py]: class [BotService] *)

(** What the handlers read of a Telegram update that carries a message *)
Record Update := {
  message_text : option string;
  effective_chat_id : Z
}.

(** [context.bot.send_message(chat_id, text, parse_mode)].  The transport
    is taken to deliver: its own failures are not modelled. *)
Definition send_message (chat_id : Z) (text : string)
    (parse_mode : option string) : M unit := fun w =>
  (Ok tt,
   set_outbox ({| msg_chat := chat_id; msg_text := text;
                  msg_parse_mode := parse_mode |} :: outbox w) w).

(** [update.message.reply_text(text, parse_mode)] *)
Definition reply_text (update : Update) (text : string)
    (parse_mode : option string) : M unit :=
  send_message (effective_chat_id update) text parse_mode.

Definition Markdown : option string := Some "Markdown".

Definition dash : pyval := PyStr "—".

(** [v == s] for a str literal [s] *)
Definition py_eq_str (v : pyval) (s : string) : bool :=
  match v with PyStr t => String.eqb t s | _ => false end.

Definition unpack_error (n : nat) : exn :=
  Exn ValueError ("not enough values to unpack (expected " +:+ pretty n +:+ ")").

(** [m.mapM] over a list, in [outcome] *)
Fixpoint map_outcome {A B} (f : A -> outcome B) (l : list A)
    : outcome (list B) :=
  match l with
  | [] => Ok []
  | a :: l' =>
      match f a with
      | Raise e => Raise e
      | Ok b =>
          match map_outcome f l' with
          | Raise e => Raise e
          | Ok bs => Ok (b :: bs)
          end
      end
  end.

Section Service.
Context `{PyLib}.

(** [fee or (f"{fee_percent}%" if fee_percent is not None else "—")] *)
Definition fee_str (fee fee_percent : pyval) : string :=
  if truthy fee then py_str fee
  else if negb (is_None fee_percent) then py_str fee_percent +:+ "%"
  else "—".

(** The line of one offer in a listing *)
Definition offer_line (oid kind country method fee rate status fee_percent
    : pyval) : string :=
  "ID *" +:+ py_str oid +:+ "* — [" +:+ py_str (py_or kind dash) +:+ "] "
  +:+ py_str (py_or country dash) +:+ " / " +:+ py_str (py_or method dash)
  +:+ " / " +:+ fee_str fee fee_percent +:+ " / "
  +:+ py_str (py_or rate (PyStr "курс ?")) +:+ " — _" +:+ py_str status +:+ "_".

Definition _handle_offer_mode (data : pyval) (user_text : string)
    (chat_id : Z) : M unit :=
  offer ← lift (dict_get data "offer");
  let parsed := py_or offer (PyDict ∅) in
  offer_id ← save_offer parsed user_text;
  kind ← lift (dict_get parsed "kind");
  country ← lift (dict_get parsed "country");
  method ← lift (dict_get parsed "method");
  fee ← lift (dict_get parsed "fee");
  rate ← lift (dict_get parsed "rate");
  limits ← lift (dict_get parsed "limits");
  conditions ← lift (dict_get parsed "conditions");
  let lines :=
    ["✅ Оффер сохранён. ID: *" +:+ pretty offer_id +:+ "*";
     "";
     "*Тип:* " +:+ py_str (py_or kind dash);
     "*Страна:* " +:+ py_str (py_or country dash);
     "*Метод:* " +:+ py_str (py_or method dash);
     "*Комиссия:* " +:+ py_str (py_or fee dash);
     "*Курс:* " +:+ py_str (py_or rate dash);
     "*Лимиты:* " +:+ py_str (py_or limits dash);
     "*Условия:* " +:+ py_str (py_or conditions dash)] in
  fee_percent ← lift (dict_get parsed "fee_percent");
  let lines :=
    if negb (is_None fee_percent)
    then lines ++ ["*Комиссия, %:* " +:+ py_str fee_percent]
    else lines in
  short_summary ← lift (dict_get parsed "short_summary");
  let lines :=
    if truthy short_summary
    then lines ++ [""; "_Краткое резюме:_ " +:+ py_str short_summary]
    else lines in
  send_message chat_id (String.concat nl lines) Markdown.

Definition search_line (row : list pyval) : outcome string :=
  match row with
  | [oid; country; method; fee; rate; status; kind; fee_percent] =>
      Ok (offer_line oid kind country method fee rate status fee_percent)
  | _ => Raise (unpack_error 8)
  end.

Definition nothing_found_reply : string :=
  "Ничего не нашёл по этому запросу 🤷‍♂️".

Definition _handle_search_mode (data : pyval) (update : Update) : M unit :=
  search ← lift (dict_get data "search");
  let filters := py_or search (PyDict ∅) in
  rows ← search_offers filters 20;
  match rows with
  | [] => reply_text update nothing_found_reply None
  | _ =>
      found ← lift (map_outcome search_line rows);
      reply_text update
        (String.concat nl (["📋 *Результаты поиска:*"; ""] ++ found)) Markdown
  end.

Definition thinking_reply : string := "⏳ Думаю над запросом...".

Definition unrecognized_reply : string :=
  "Я не понял, это оффер или поиск 🤔" +:+ nl +:+
  "Попробуй переформулировать или начни с чего-то вроде:" +:+ nl +:+
  "— 'дай офферы по ...'" +:+ nl +:+
  "— или просто пришли оффер.".

(** The reply of the [except] clause: the text of the exception follows
    the heading. *)
Definition error_reply (exc : exn) : string :=
  "❌ Ошибка при обработке:" +:+ nl +:+ exn_msg exc.

(** The [try] block of [handle_text] *)
Definition dispatch (update : Update) : M unit :=
  let user_text := default "" (message_text update) in
  let chat_id := effective_chat_id update in
  data ← interpret user_text;
  mode ← lift (dict_get data "mode");
  if py_eq_str mode "offer" then
    _handle_offer_mode data user_text chat_id
  else if py_eq_str mode "search" then
    _handle_search_mode data update
  else
    reply_text update unrecognized_reply None.

Definition handle_text (update : Update) : M unit :=
  reply_text update thinking_reply None;;
  try_except (dispatch update) any_Exception
    (fun exc => reply_text update (error_reply exc) None).

Definition recent_line (row : list pyval) : outcome string :=
  match row with
  | [oid; country; method; fee; rate; status; created_at; kind; fee_percent] =>
      Ok (offer_line oid kind country method fee rate status fee_percent)
  | _ => Raise (unpack_error 9)
  end.

Definition handle_offers (update : Update) : M unit :=
  rows ← list_last_offers 10;
  match rows with
  | [] => reply_text update "Пока офферов нет. Отправь первый текст оффера." None
  | _ =>
      shown ← lift (map_outcome recent_line rows);
      reply_text update
        (String.concat nl (["📋 *Последние офферы:*"; ""] ++ shown)) Markdown
  end.

Definition offer_card (row : list pyval) : outcome string :=
  match row with
  | [oid; raw_text; country; method; fee; rate; limits; conditions; status;
     created_at; updated_at; kind; fee_percent] =>
      Ok (String.concat nl
            ["📄 *Оффер ID " +:+ py_str oid +:+ "*";
             "Тип: _" +:+ py_str (py_or kind dash) +:+ "_";
             "Статус: _" +:+ py_str status +:+ "_";
             "";
             "*Страна:* " +:+ py_str (py_or country dash);
             "*Метод:* " +:+ py_str (py_or method dash);
             "*Комиссия:* " +:+ fee_str fee fee_percent;
             "*Курс:* " +:+ py_str (py_or rate dash);
             "*Лимиты:* " +:+ py_str (py_or limits dash);
             "*Условия:* " +:+ py_str (py_or conditions dash);
             "";
             "*Создан:* " +:+ py_str created_at;
             "*Обновлён:* " +:+ py_str updated_at;
             "";
             "*Исходный текст:*";
             py_str raw_text])
  | _ => Raise (unpack_error 13)
  end.

(** [int(context.args[0])] inside [try ... except ValueError] *)
Definition parse_id (arg : string) : outcome Z :=
  match int_of_str arg with
  | Some n => Ok n
  | None => Raise (Exn ValueError
                     ("invalid literal for int() with base 10: "
                      +:+ str_repr arg))
  end.

Definition usage_reply : string := "Использование: /offer <id>".
Definition not_a_number_reply : string :=
  "ID должен быть числом, пример: /offer 12".
Definition not_found_reply (offer_id : Z) : string :=
  "Оффер с ID " +:+ pretty offer_id +:+ " не найден.".

(** [args] is [context.args], the words after the command. *)
Definition handle_offer (update : Update) (args : list string) : M unit :=
  match args with
  | [] => reply_text update usage_reply None
  | arg :: _ =>
      match parse_id arg with
      | Raise e =>
          if is_ValueError e
          then reply_text update not_a_number_reply None
          else raise e
      | Ok offer_id =>
          row ← get_offer_by_id offer_id;
          match row with
          | None | Some [] => reply_text update (not_found_reply offer_id) None
          | Some row =>
              card ← lift (offer_card row);
              reply_text update card Markdown
          end
      end
  end.

End Service.

(** ** Vocabulary of the statements *)

(** A text field of a well-typed offer payload: a str, or absent *)
Definition text_or_absent (v : pyval) : Prop :=
  match v with PyNone | PyStr _ => True | _ => False end.

(** Its [fee_percent]: a float that is a number, or absent.  The engine
    keeps neither a NaN nor the sign of a zero, so a number here is a float
    other than these two. *)
Definition number_or_absent (v : pyval) : Prop :=
  match v with
  | PyNone => True
  | PyFloat f => is_nan f = false /\ is_negative_zero f = false
  | _ => False
  end.

Definition well_typed_offer (d : gmap string pyval) : Prop :=
  text_or_absent (field d "country") /\ text_or_absent (field d "method") /\
  text_or_absent (field d "fee") /\ text_or_absent (field d "rate") /\
  text_or_absent (field d "limits") /\ text_or_absent (field d "conditions") /\
  text_or_absent (field d "kind") /\ number_or_absent (field d "fee_percent").

(** What a bound parameter keeps of a float: a NaN is bound as NULL. *)
Definition drop_nan (o : option float) : option float :=
  match o with
  | Some f => if is_nan f then None else Some f
  | None => None
  end.

(** What the column [fee_percent] keeps of a float *)
Definition kept_real (o : option float) : option float :=
  plus_zero <$> drop_nan o.

(** Which of the six criteria of a filter [search_offers] takes up: the
    tests of its six [if]s, in order. *)
Definition criteria (d : gmap string pyval) : list bool :=
  [truthy (field d "country"); truthy (field d "method");
   truthy (field d "status"); truthy (field d "kind");
   negb (is_None (field d "min_fee_percent"));
   negb (is_None (field d "max_fee_percent"))].

Definition no_criteria : list bool := [false; false; false; false; false; false].

Fixpoint select_by {A} (flags : list bool) (l : list A) : list A :=
  match flags, l with
  | b :: flags', a :: l' =>
      if b then a :: select_by flags' l' else select_by flags' l'
  | _, _ => []
  end.

(** The predicates of the criteria taken up *)
Definition predicates_for (flags : list bool) : list predicate :=
  select_by flags all_predicates.

(** The WHERE clause of the criteria taken up *)
Definition where_for (flags : list bool) : string :=
  match predicates_for flags with
  | [] => "1=1"
  | ps => String.concat " AND " (predicate_sql <$> ps)
  end.

(** The three shapes of the [if]s of [search_offers], each yielding the
    condition and the parameter it appends, if any *)
Definition like_clause `{PyLib} (sql : string) (v : pyval)
    : outcome (list (string * pyval)) :=
  if truthy v
  then match py_lower v with
       | Ok l => Ok [(sql, PyStr ("%" +:+ l +:+ "%"))]
       | Raise e => Raise e
       end
  else Ok [].

Definition eq_clause (sql : string) (v : pyval)
    : outcome (list (string * pyval)) :=
  if truthy v then Ok [(sql, v)] else Ok [].

Definition fee_clause `{PyLib} (sql : string) (v : pyval)
    : outcome (list (string * pyval)) :=
  if negb (is_None v)
  then match py_float v with
       | Ok f => Ok [(sql, PyFloat f)]
       | Raise e => Raise e
       end
  else Ok [].

(** A fee bound of a filter as a float, [None] when the filter has none *)
Definition fee_bound `{PyLib} (v : pyval) : outcome (option float) :=
  if is_None v then Ok None
  else match py_float v with
       | Ok f => Ok (Some f)
       | Raise e => Raise e
       end.

(** [lo <= fee_percent <= hi] for a row whose [fee_percent] is present,
    each bound only if given; a comparison with a NaN is false. *)
Definition fee_within (lo hi : option float) (o : Offer) : bool :=
  match fee_percent o with
  | None => false
  | Some f =>
      from_option (fun b => SFleb b f) true lo
      && from_option (fun b => SFleb f b) true hi
  end.





(** The WHERE clause of the conditions accumulated *)
Definition conds_sql (cs : list (string * pyval)) : string :=
  match cs.*1 with
  | [] => "1=1"
  | l => String.concat " AND " l
  end.

(** The database calls of one SELECT: connect, execute, fetch *)
Definition select_calls : M unit := with_connection (db_io;; db_io).



(** The first column of a row: its id *)
Definition row_id (row : list pyval) : option pyval := head row.

(** The world after a message went out *)
Definition sent (update : Update) (text : string) (parse_mode : option string)
    (w : World) : World :=
  set_outbox ({| msg_chat := effective_chat_id update; msg_text := text;
                 msg_parse_mode := parse_mode |} :: outbox w) w.

(** ** An instance of the library functions for ASCII text

    [ascii_lib] computes what Python computes when the text is ASCII (for
    [str.lower] also Russian text), a string escape in JSON is not a lone
    surrogate, and a printed value is a scalar; it serves to run the model
    on concrete inputs. *)
Module AsciiLib.

Definition chars (s : string) : list ascii := list_ascii_of_string s.

(** Lowercasing of UTF-8 text: the letters A-Z, and the Cyrillic capitals
    U+0400-U+042F (the bytes D0 80-AF), each to its small letter *)
Fixpoint lower_bytes (s : list ascii) : list ascii :=
  match s with
  | a :: ((b :: s') as rest) =>
      if (N_of_ascii a =? 208)%N then
        let n := N_of_ascii b in
        if ((128 <=? n) && (n <=? 143))%N
        then ascii_of_N 209 :: ascii_of_N (n + 16) :: lower_bytes s'
        else if ((144 <=? n) && (n <=? 159))%N
        then a :: ascii_of_N (n + 32) :: lower_bytes s'
        else if ((160 <=? n) && (n <=? 175))%N
        then ascii_of_N 209 :: ascii_of_N (n - 32) :: lower_bytes s'
        else a :: lower_bytes rest
      else ascii_fold a :: lower_bytes rest
  | [a] => [ascii_fold a]
  | [] => []
  end.

Definition lower (s : string) : string :=
  string_of_list_ascii (lower_bytes (chars s)).

Definition is_space (c : ascii) : bool :=
  let n := N_of_ascii c in ((9 <=? n) && (n <=? 13) || (n =? 32))%N.

Fixpoint lstrip (s : list ascii) : list ascii :=
  match s with
  | c :: s' => if is_space c then lstrip s' else s
  | [] => []
  end.

Definition strip (s : list ascii) : list ascii :=
  reverse (lstrip (reverse (lstrip s))).

Definition digit_val (c : ascii) : option Z :=
  let n := N_of_ascii c in
  if ((48 <=? n) && (n <=? 57))%N then Some (Z.of_N n - 48) else None.

Definition is_digit (c : ascii) : bool := bool_decide (is_Some (digit_val c)).

(** A run of digits: its value continuing [acc], how many digits, and the
    rest.  With [us] a single underscore between two digits is skipped. *)
Fixpoint read_digits (us : bool) (s : list ascii) (acc : Z) (n : nat)
    : Z * nat * list ascii :=
  match s with
  | c :: s' =>
      match digit_val c with
      | Some d => read_digits us s' (10 * acc + d) (S n)
      | None =>
          if us && Ascii.eqb c "_" && negb (Nat.eqb n 0)
          then match s' with
               | d :: _ => if is_digit d then read_digits us s' acc n
                           else (acc, n, s)
               | [] => (acc, n, s)
               end
          else (acc, n, s)
      end
  | [] => (acc, n, s)
  end.

(** An optional sign: whether it is a minus, and the rest *)
Definition read_sign (plus : bool) (s : list ascii) : bool * list ascii :=
  match s with
  | c :: s' =>
      if Ascii.eqb c "-" then (true, s')
      else if plus && Ascii.eqb c "+" then (false, s')
      else (false, s)
  | [] => (false, s)
  end.

(** [int(s)] in base 10 (without CPython's limit on the number of digits) *)
Definition parse_int (s : string) : option Z :=
  let '(neg, r) := read_sign true (strip (chars s)) in
  match read_digits true r 0 0 with
  | (v, S _, []) => Some (if neg then - v else v)
  | _ => None
  end.

(** The binary64 nearest to [m * 10 ^ e], with the sign [neg], for [0 <= m] *)
Definition float_of_decimal (neg : bool) (m e : Z) : float :=
  if m =? 0 then S754_zero neg
  else if 0 <=? e
  then binary_normalize 53 1024 ((if neg then - m else m) * 10 ^ e) 0 false
  else SFdiv 53 1024 (S754_finite neg (Z.to_pos m) 0)
                     (S754_finite false (Z.to_pos (10 ^ (- e))) 0).

(** The exponent part of a numeral, if there is one *)
Definition read_exponent (us : bool) (s : list ascii)
    : option (Z * list ascii) :=
  match s with
  | c :: s' =>
      if Ascii.eqb c "e" || Ascii.eqb c "E" then
        let '(neg, r) := read_sign true s' in
        match read_digits us r 0 0 with
        | (v, S _, rest) => Some (if neg then - v else v, rest)
        | _ => None
        end
      else Some (0, s)
  | [] => Some (0, s)
  end.

(** A decimal numeral without sign: digits, a fraction, an exponent.
    [bare] allows the digits before or after the point to be missing. *)
Definition read_decimal (us bare : bool) (s : list ascii)
    : option (Z * Z * bool * list ascii) :=
  let '(i, ni, r) := read_digits us s 0 0 in
  let after_point :=
    match r with
    | c :: r' =>
        if Ascii.eqb c "."
        then let '(f, nf, r'') := read_digits us r' i 0 in
             if bare || negb (Nat.eqb nf 0) then Some (f, nf, true, r'')
             else None
        else Some (i, O, false, r)
    | [] => Some (i, O, false, r)
    end in
  match after_point with
  | None => None
  | Some (m, nf, pt, r1) =>
      if Nat.eqb (ni + nf) 0 || (negb bare && Nat.eqb ni 0) then None
      else
        match read_exponent us r1 with
        | None => None
        | Some (x, r2) =>
            Some (m, x - Z.of_nat nf,
                  pt || negb (bool_decide (r1 = r2)), r2)
        end
  end.

Definition word_is (w : string) (s : list ascii) : bool :=
  bool_decide (map ascii_fold s = chars w).

(** [float(s)] *)
Definition parse_float (s : string) : option float :=
  let '(neg, r) := read_sign true (strip (chars s)) in
  if word_is "inf" r || word_is "infinity" r then Some (S754_infinity neg)
  else if word_is "nan" r then Some S754_nan
  else match read_decimal true true r with
       | Some (m, e, _, []) => Some (float_of_decimal neg m e)
       | _ => None
       end.

(** *** Printing a float *)

(** Whether [n / d < 10 ^ k] *)
Definition below_pow10 (n d k : Z) : bool :=
  if 0 <=? k then n <? d * 10 ^ k else n * 10 ^ (- k) <? d.

Fixpoint find_decpt (fuel : nat) (n d k : Z) : Z :=
  match fuel with
  | O => k
  | S fuel' => if below_pow10 n d k then k else find_decpt fuel' n d (k + 1)
  end.

(** The least [k] with [n / d < 10 ^ k], for positive [n] and [d] *)
Definition decpt (n d : Z) : Z :=
  find_decpt 8 n d ((Z.log2 n - Z.log2 d) * 30103 / 100000 - 2).

(** [n / d] rounded to [p] significant digits, ties to even: the digits as
    a number and the decimal point position *)
Definition round_digits (n d : Z) (p : Z) : Z * Z :=
  let k := decpt n d in
  let '(a, b) := if 0 <=? k - p then (n, d * 10 ^ (k - p))
                 else (n * 10 ^ (p - k), d) in
  let q := a / b in
  let r := a mod b in
  let q := if (b <? 2 * r) || ((b =? 2 * r) && Z.odd q) then q + 1 else q in
  if q =? 10 ^ p then (10 ^ (p - 1), k + 1) else (q, k).

(** A positive finite float as a fraction *)
Definition fraction (m : positive) (e : Z) : Z * Z :=
  if 0 <=? e then (Zpos m * 2 ^ e, 1) else (Zpos m, 2 ^ (- e)).

Fixpoint shortest (fuel : nat) (p : Z) (m : positive) (e : Z) : Z * Z * Z :=
  let '(n, d) := fraction m e in
  let '(q, k) := round_digits n d p in
  match fuel with
  | O => (q, k, p)
  | S fuel' =>
      match float_of_decimal false q (k - p) with
      | S754_finite _ m' e' =>
          if bool_decide (m' = m /\ e' = e) then (q, k, p)
          else shortest fuel' (p + 1) m e
      | _ => shortest fuel' (p + 1) m e
      end
  end.

Fixpoint drop_zeros (fuel : nat) (q p : Z) : Z * Z :=
  match fuel with
  | O => (q, p)
  | S fuel' =>
      if (1 <? p) && (q mod 10 =? 0) then drop_zeros fuel' (q / 10) (p - 1)
      else (q, p)
  end.

Definition zeros (n : Z) : string :=
  string_of_list_ascii (replicate (Z.to_nat n) "0"%char).

Definition two_digits (x : Z) : string :=
  if x <? 10 then "0" +:+ pretty x else pretty x.

(** The digits [q] ([p] of them) with the decimal point after the first
    [k]: positional when [lo < k <= hi], with an exponent otherwise.
    [dot0] writes [.0] after a mantissa of one digit. *)
Definition layout (lo hi : Z) (dot0 : bool) (q p k : Z) : string :=
  let ds := pretty q in
  if (lo <? k) && (k <=? hi) then
    if k <=? 0 then "0." +:+ zeros (- k) +:+ ds
    else if p <=? k then ds +:+ zeros (k - p) +:+ ".0"
    else String.substring 0 (Z.to_nat k) ds +:+ "." +:+
         String.substring (Z.to_nat k) (Z.to_nat (p - k)) ds
  else
    String.substring 0 1 ds
    +:+ (if 1 <? p then "." +:+ String.substring 1 (Z.to_nat (p - 1)) ds
         else if dot0 then ".0" else "")
    +:+ "e" +:+ (if k - 1 <? 0 then "-" else "+") +:+ two_digits (Z.abs (k - 1)).

(** [repr(f)]: the shortest digits that read back as [f] *)
Definition float_repr (f : float) : string :=
  match f with
  | S754_nan => "nan"
  | S754_infinity neg => if neg then "-inf" else "inf"
  | S754_zero neg => if neg then "-0.0" else "0.0"
  | S754_finite neg m e =>
      let '(q, k, p) := shortest 17 1 m e in
      (if neg then "-" else "") +:+ layout (-4) 16 false q p k
  end.

(** SQLite's cast of a REAL to TEXT: 15 significant digits *)
Definition real_to_text (f : float) : string :=
  match f with
  | S754_nan => "NaN"
  | S754_infinity neg => if neg then "-Inf" else "Inf"
  | S754_zero _ => "0.0"
  | S754_finite neg m e =>
      let '(n, d) := fraction m e in
      let '(q, k) := round_digits n d 15 in
      let '(q, p) := drop_zeros 15 q 15 in
      (if neg then "-" else "") +:+ layout (-4) 15 true q p k
  end.

Definition quoted (s : string) : string := "'" +:+ s +:+ "'".

(** [str(v)]; the elements of a list or a dict are not printed. *)
Definition to_str (v : pyval) : string :=
  match v with
  | PyNone => "None"
  | PyBool b => if b then "True" else "False"
  | PyInt n => pretty n
  | PyFloat f => float_repr f
  | PyStr s => s
  | PyList _ => "[...]"
  | PyDict _ => "{...}"
  end.

(** *** Decoding JSON *)

Definition is_json_space (c : ascii) : bool :=
  let n := N_of_ascii c in ((n =? 32) || (n =? 9) || (n =? 10) || (n =? 13))%N.

Fixpoint skip_ws (s : list ascii) : list ascii :=
  match s with
  | c :: s' => if is_json_space c then skip_ws s' else s
  | [] => []
  end.

Definition hex_val (c : ascii) : option Z :=
  let n := Z.of_N (N_of_ascii c) in
  if (48 <=? n) && (n <=? 57) then Some (n - 48)
  else if (97 <=? n) && (n <=? 102) then Some (n - 87)
  else if (65 <=? n) && (n <=? 70) then Some (n - 55)
  else None.

Definition hex4 (a b c d : ascii) : option Z :=
  x ← hex_val a; y ← hex_val b; z ← hex_val c; t ← hex_val d;
  Some (((x * 16 + y) * 16 + z) * 16 + t).

Definition byte (n : Z) : ascii := ascii_of_N (Z.to_N n).

(** The UTF-8 encoding of a code point *)
Definition utf8_encode (u : Z) : list ascii :=
  if u <? 128 then [byte u]
  else if u <? 2048 then [byte (192 + u / 64); byte (128 + u mod 64)]
  else if u <? 65536 then
    [byte (224 + u / 4096); byte (128 + u / 64 mod 64); byte (128 + u mod 64)]
  else
    [byte (240 + u / 262144); byte (128 + u / 4096 mod 64);
     byte (128 + u / 64 mod 64); byte (128 + u mod 64)].

Definition is_high_surrogate (u : Z) : bool := (55296 <=? u) && (u <=? 56319).
Definition is_low_surrogate (u : Z) : bool := (56320 <=? u) && (u <=? 57343).

Definition simple_escape (e : ascii) : option ascii :=
  if Ascii.eqb e "034" then Some "034"%char
  else if Ascii.eqb e "\" then Some "\"%char
  else if Ascii.eqb e "/" then Some "/"%char
  else if Ascii.eqb e "b" then Some "008"%char
  else if Ascii.eqb e "f" then Some "012"%char
  else if Ascii.eqb e "n" then Some "010"%char
  else if Ascii.eqb e "r" then Some "013"%char
  else if Ascii.eqb e "t" then Some "009"%char
  else None.

(** The rest of a string literal after its opening quote ([acc] holds the
    bytes read, the last first) *)
Fixpoint read_string (s acc : list ascii) : option (string * list ascii) :=
  match s with
  | [] => None
  | c :: s1 =>
      if Ascii.eqb c "034" then Some (string_of_list_ascii (reverse acc), s1)
      else if Ascii.eqb c "\" then
        match s1 with
        | [] => None
        | e :: s2 =>
            if Ascii.eqb e "u" then
              match s2 with
              | h1 :: h2 :: h3 :: h4 :: s3 =>
                  match hex4 h1 h2 h3 h4 with
                  | None => None
                  | Some u =>
                      if is_high_surrogate u then
                        match s3 with
                        | b :: v :: g1 :: g2 :: g3 :: g4 :: s4 =>
                            if Ascii.eqb b "\" && Ascii.eqb v "u" then
                              match hex4 g1 g2 g3 g4 with
                              | Some lo =>
                                  if is_low_surrogate lo then
                                    read_string s4
                                      (reverse (utf8_encode
                                         (65536 + (u - 55296) * 1024
                                          + (lo - 56320))) ++ acc)
                                  else None
                              | None => None
                              end
                            else None
                        | _ => None
                        end
                      else if is_low_surrogate u then None
                      else read_string s3 (reverse (utf8_encode u) ++ acc)
                  end
              | _ => None
              end
            else
              match simple_escape e with
              | Some x => read_string s2 (x :: acc)
              | None => None
              end
        end
      else if (N_of_ascii c <? 32)%N then None
      else read_string s1 (c :: acc)
  end.

(** A number: an int without fraction and exponent, a float otherwise *)
Definition read_number (s : list ascii) : option (pyval * list ascii) :=
  let '(neg, r) := read_sign false s in
  match r with
  | z :: d :: _ =>
      if Ascii.eqb z "0" && is_digit d then None
      else
        match read_decimal false false r with
        | Some (m, e, true, rest) => Some (PyFloat (float_of_decimal neg m e), rest)
        | Some (m, _, false, rest) => Some (PyInt (if neg then - m else m), rest)
        | None => None
        end
  | _ =>
      match read_decimal false false r with
      | Some (m, _, _, rest) => Some (PyInt (if neg then - m else m), rest)
      | None => None
      end
  end.

Definition read_word (w : string) (v : pyval) (s : list ascii)
    : option (pyval * list ascii) :=
  (fun r => (v, r)) <$> strip_prefix (chars w) s.

Definition read_scalar (s : list ascii) : option (pyval * list ascii) :=
  match read_word "null" PyNone s with Some r => Some r | None =>
  match read_word "true" (PyBool true) s with Some r => Some r | None =>
  match read_word "false" (PyBool false) s with Some r => Some r | None =>
  match read_word "NaN" (PyFloat S754_nan) s with Some r => Some r | None =>
  match read_word "Infinity" (PyFloat (S754_infinity false)) s with
  | Some r => Some r | None =>
  match read_word "-Infinity" (PyFloat (S754_infinity true)) s with
  | Some r => Some r | None => read_number s
  end end end end end end.

Fixpoint read_value (fuel : nat) (s : list ascii) {struct fuel}
    : option (pyval * list ascii) :=
  match fuel with
  | O => None
  | S fuel' =>
      match s with
      | [] => None
      | c :: s1 =>
          if Ascii.eqb c "034" then
            (fun r => (PyStr r.1, r.2)) <$> read_string s1 []
          else if Ascii.eqb c "[" then
            match skip_ws s1 with
            | d :: s2 =>
                if Ascii.eqb d "]" then Some (PyList [], s2)
                else read_elements fuel' (d :: s2) []
            | [] => None
            end
          else if Ascii.eqb c "{" then
            match skip_ws s1 with
            | d :: s2 =>
                if Ascii.eqb d "}" then Some (PyDict ∅, s2)
                else read_members fuel' (d :: s2) ∅
            | [] => None
            end
          else read_scalar s
      end
  end
with read_elements (fuel : nat) (s : list ascii) (acc : list pyval)
    {struct fuel} : option (pyval * list ascii) :=
  match fuel with
  | O => None
  | S fuel' =>
      match read_value fuel' s with
      | None => None
      | Some (v, r) =>
          match skip_ws r with
          | d :: r' =>
              if Ascii.eqb d "]" then Some (PyList (reverse (v :: acc)), r')
              else if Ascii.eqb d ","
              then read_elements fuel' (skip_ws r') (v :: acc)
              else None
          | [] => None
          end
      end
  end
with read_members (fuel : nat) (s : list ascii) (acc : gmap string pyval)
    {struct fuel} : option (pyval * list ascii) :=
  match fuel with
  | O => None
  | S fuel' =>
      match s with
      | q :: s1 =>
          if Ascii.eqb q "034" then
            match read_string s1 [] with
            | None => None
            | Some (key, r) =>
                match skip_ws r with
                | colon :: r1 =>
                    if Ascii.eqb colon ":" then
                      match read_value fuel' (skip_ws r1) with
                      | None => None
                      | Some (v, r2) =>
                          match skip_ws r2 with
                          | d :: r3 =>
                              if Ascii.eqb d "}"
                              then Some (PyDict (<[key := v]> acc), r3)
                              else if Ascii.eqb d ","
                              then read_members fuel' (skip_ws r3)
                                                (<[key := v]> acc)
                              else None
                          | [] => None
                          end
                      end
                    else None
                | [] => None
                end
            end
          else None
      | [] => None
      end
  end.

(** [json.loads(content)]; the message of a decoding error is abridged. *)
Definition loads (content : option string) : outcome pyval :=
  match content with
  | None =>
      Raise (Exn TypeError
               "the JSON object must be str, bytes or bytearray, not NoneType")
  | Some s =>
      match read_value (2 * String.length s + 2) (skip_ws (chars s)) with
      | None => Raise (Exn JSONDecodeError "Expecting value")
      | Some (v, rest) =>
          match skip_ws rest with
          | [] => Ok v
          | _ => Raise (Exn JSONDecodeError "Extra data")
          end
      end
  end.

Definition ascii_lib : PyLib := {|
  str_lower := lower;
  float_of_str := parse_float;
  int_of_str := parse_int;
  json_loads := loads;
  py_str := to_str;
  str_repr := quoted;
  sqlite_real_to_text := real_to_text
|}.

End AsciiLib.

(** ** Sample inputs *)
Module Samples.
Import AsciiLib.

Definition dq : string := String "034"%char EmptyString.

(** A JSON string literal *)
Definition q (s : string) : string := dq +:+ s +:+ dq.

(** A world with the table [t]: no fault is due, nothing was sent, and the
    service answers every text with [reply]. *)
Definition world (t : gmap Z Offer) (seq : Z) (reply : api_reply) : World :=
  {| offers := t; sqlite_sequence := seq; txn := None; faults := [];
     clock := fun _ => "2024-05-01T10:00:00.000000"; ticks := 0;
     openai := fun _ => reply; outbox := [] |}.

Definition no_reply : api_reply := ApiContent None.

Definition scenario_text : string := "RU SBP вход 1.8% курс 98".

Definition update : Update :=
  {| message_text := Some scenario_text; effective_chat_id := 42 |}.

(** [{country: RU, method: SBP, fee: 1.8%, kind: channel, fee_percent: 1.8}] *)
Definition scenario_offer : gmap string pyval :=
  list_to_map
    [("country", PyStr "RU"); ("method", PyStr "SBP"); ("fee", PyStr "1.8%");
     ("kind", PyStr "channel");
     ("fee_percent", PyFloat (float_of_decimal false 18 (-1)))].

Definition offer (c : option string) (p : option float) : Offer :=
  {| raw_text := "offer"; country := c; method := None; fee := None;
     rate := None; limits := None; conditions := None; status := "new";
     created_at := "2024-05-01T09:00:00.000000";
     updated_at := "2024-05-01T09:00:00.000000"; kind := None;
     fee_percent := p |}.

Definition five : float := float_of_decimal false 5 0.
Definition eleven : float := float_of_decimal false 11 0.
Definition twelve : float := float_of_decimal false 12 0.

(** Three offers whose [fee_percent] is 5.0, 12.0 and absent *)
Definition three_offers : gmap Z Offer :=
  list_to_map [(1, offer (Some "RU") (Some five));
               (2, offer (Some "India") (Some twelve));
               (3, offer None None)].

Definition huge : Z := 10 ^ 400.

End Samples.

(** ** [database.py]: [OfferRepository.init] and the schema of the file *)

(** A column as [PRAGMA table_info] describes it *)
Record Column := {
  col_name : string;
  col_type : string;
  col_notnull : bool;
  col_default : option string;
  col_pk : bool
}.

(** The table [offers] of a database file: its columns in the order of
    their declaration, and its rows by key, a value for each column. *)
Record Table := {
  table_columns : list Column;
  table_rows : gmap Z (list sqlval)
}.

(** The database file as [init] finds it: the table [offers] if there is
    one, and the storage faults to come (one entry for each call into the
    database, as in [World]). *)
Record Disk := {
  catalog : option Table;
  disk_faults : list (option exn)
}.

Definition D (A : Type) : Type := Disk -> outcome A * Disk.

#[global] Instance D_ret : MRet D := fun A a d => (Ok a, d).
#[global] Instance D_bind : MBind D := fun A B f m d =>
  match m d with
  | (Ok a, d') => f a d'
  | (Raise e, d') => (Raise e, d')
  end.

Definition lift_d {A} (o : outcome A) : D A := fun d => (o, d).

Definition disk_io : D unit := fun d =>
  match disk_faults d with
  | [] => (Ok tt, d)
  | None :: l => (Ok tt, {| catalog := catalog d; disk_faults := l |})
  | Some e :: l => (Raise e, {| catalog := catalog d; disk_faults := l |})
  end.

Definition set_catalog (t : Table) : D unit := fun d =>
  (Ok tt, {| catalog := Some t; disk_faults := disk_faults d |}).

(** The statements of [init] *)
Definition create_table_sql : string :=
"
                CREATE TABLE IF NOT EXISTS offers (
                    id INTEGER PRIMARY KEY AUTOINCREMENT,
                    raw_text TEXT NOT NULL,
                    country TEXT,
                    method TEXT,
                    fee TEXT,
                    rate TEXT,
                    limits TEXT,
                    conditions TEXT,
                    status TEXT NOT NULL DEFAULT 'new',
                    created_at TEXT NOT NULL,
                    updated_at TEXT NOT NULL
                );
                ".

Definition table_info_sql : string := "PRAGMA table_info(offers);".
Definition add_kind_sql : string := "ALTER TABLE offers ADD COLUMN kind TEXT;".
Definition add_fee_percent_sql : string :=
  "ALTER TABLE offers ADD COLUMN fee_percent REAL;".

Definition text_column (name : string) : Column :=
  {| col_name := name; col_type := "TEXT"; col_notnull := false;
     col_default := None; col_pk := false |}.

Definition required_text_column (name : string) (dflt : option string)
    : Column :=
  {| col_name := name; col_type := "TEXT"; col_notnull := true;
     col_default := dflt; col_pk := false |}.

(** The columns [create_table_sql] declares *)
Definition created_columns : list Column :=
  [{| col_name := "id"; col_type := "INTEGER"; col_notnull := false;
      col_default := None; col_pk := true |};
   required_text_column "raw_text" None;
   text_column "country"; text_column "method"; text_column "fee";
   text_column "rate"; text_column "limits"; text_column "conditions";
   required_text_column "status" (Some "'new'");
   required_text_column "created_at" None;
   required_text_column "updated_at" None].

Definition kind_column : Column := text_column "kind".

Definition fee_percent_column : Column :=
  {| col_name := "fee_percent"; col_type := "REAL"; col_notnull := false;
     col_default := None; col_pk := false |}.

(** The engine compares the names of columns without regard to the case
    of the letters A-Z. *)
Definition same_name (a b : string) : bool :=
  String.eqb (sqlite_lower a) (sqlite_lower b).

Definition has_column (name : string) (t : Table) : bool :=
  existsb (fun c => same_name (col_name c) name) (table_columns t).

(** [CREATE TABLE IF NOT EXISTS offers (...)]: nothing happens when the
    file has a table of this name, whatever its columns. *)
Definition create_table_if_not_exists (cols : list Column) : D unit := fun d =>
  match catalog d with
  | Some _ => (Ok tt, d)
  | None => set_catalog {| table_columns := cols; table_rows := ∅ |} d
  end.

(** [ALTER TABLE offers ADD COLUMN c]: the column is declared last, and
    every row has NULL in it. *)
Definition add_column (c : Column) : D unit := fun d =>
  match catalog d with
  | None => (Raise (sqlite_error "no such table: offers"), d)
  | Some t =>
      if has_column (col_name c) t
      then (Raise (sqlite_error ("duplicate column name: " +:+ col_name c)), d)
      else set_catalog
             {| table_columns := table_columns t ++ [c];
                table_rows := (fun row => row ++ [SNull]) <$> table_rows t |} d
  end.

(** A row of [PRAGMA table_info]: cid, name, type, notnull, dflt_value, pk *)
Definition info_row (cid : nat) (c : Column) : list pyval :=
  [PyInt (Z.of_nat cid); PyStr (col_name c); PyStr (col_type c);
   PyInt (if col_notnull c then 1 else 0); opt_text (col_default c);
   PyInt (if col_pk c then 1 else 0)].

Definition table_info : D Cursor := fun d =>
  (Ok {| lastrowid := 0;
         result_rows := match catalog d with
                        | Some t => imap info_row (table_columns t)
                        | None => []
                        end |}, d).

Definition no_rows : Cursor := {| lastrowid := 0; result_rows := [] |}.

(** [await db.execute(sql)] for the statements of [init].  None of them
    opens a transaction: each takes effect as it runs. *)
Definition execute_schema (sql : string) : D Cursor :=
  disk_io;;
  if String.eqb sql create_table_sql
  then create_table_if_not_exists created_columns;; mret no_rows
  else if String.eqb sql table_info_sql then table_info
  else if String.eqb sql add_kind_sql
  then add_column kind_column;; mret no_rows
  else if String.eqb sql add_fee_percent_sql
  then add_column fee_percent_column;; mret no_rows
  else lift_d (Raise (sqlite_error "syntax error")).

(** [await db.commit()] with no transaction open *)
Definition disk_commit : D unit := disk_io.

Definition disk_fetchall (c : Cursor) : D (list (list pyval)) :=
  disk_io;; mret (result_rows c).

(** [async with aiosqlite.connect(db_path) as db: body] *)
Definition with_disk_connection {A} (body : D A) : D A := disk_io;; body.

(** [row[1]] *)
Definition second (row : list pyval) : outcome pyval :=
  match row !! 1%nat with
  | Some v => Ok v
  | None => Raise (Exn OtherError "tuple index out of range")
  end.

(** [name in columns] for a str literal [name] *)
Definition py_in (name : string) (l : list pyval) : bool :=
  existsb (fun v => py_eq_str v name) l.

Definition init : D unit :=
  with_disk_connection (
    execute_schema create_table_sql;;
    disk_commit;;
    cursor ← execute_schema table_info_sql;
    rows ← disk_fetchall cursor;
    columns ← lift_d (map_outcome second rows);
    (if negb (py_in "kind" columns)
     then execute_schema add_kind_sql;; mret tt
     else mret tt);;
    (if negb (py_in "fee_percent" columns)
     then execute_schema add_fee_percent_sql;; mret tt
     else mret tt);;
    disk_commit).

(** ** [config.py]: [SettingsFactory.load_from_env] *)

(** The dataclass [Settings].  The two required fields hold what
    [os.getenv] returned, a str or [None]. *)
Record Settings := {
  bot_token : option string;
  openai_api_key : option string;
  openai_model : string;
  db_path : string;
  log_level : string
}.

(** The defaults of the dataclass *)
Definition default_openai_model : string := "gpt-4.1".
Definition default_db_path : string := "offers.db".
Definition default_log_level : string := "INFO".

(** [load_dotenv(dotenv_path)]: the variables the file sets join the
    environment of the process; a variable the process has already is not
    overridden.  [dotenv] is the file as parsed (empty when there is no
    file). *)
Definition load_dotenv (dotenv environ : gmap string string)
    : gmap string string :=
  environ ∪ dotenv.

(** [os.getenv(name)] and [os.getenv(name, default)] *)
Definition getenv (environ : gmap string string) (name : string)
    : option string :=
  environ !! name.

Definition getenv_default (environ : gmap string string) (name dflt : string)
    : string :=
  default dflt (environ !! name).

(** [not value] for a value that is a str or [None] *)
Definition not_value (value : option string) : bool :=
  match value with
  | None => true
  | Some s => String.eqb s EmptyString
  end.

Definition missing_variables (names : list string) : exn :=
  Exn RuntimeError
    ("Missing required environment variables: " +:+ String.concat ", " names).

(** The result, and the environment of the process afterwards *)
Definition load_from_env (dotenv environ : gmap string string)
    : outcome Settings * gmap string string :=
  let environ := load_dotenv dotenv environ in
  let bot_token := getenv environ "BOT_TOKEN" in
  let openai_api_key := getenv environ "OPENAI_API_KEY" in
  let openai_model := getenv_default environ "OPENAI_MODEL" default_openai_model in
  let db_path := getenv_default environ "DB_PATH" default_db_path in
  let log_level := getenv_default environ "LOG_LEVEL" default_log_level in
  let missing :=
    (filter (fun item => not_value item.2 = true)
            [("BOT_TOKEN", bot_token); ("OPENAI_API_KEY", openai_api_key)]).*1 in
  match missing with
  | _ :: _ => (Raise (missing_variables missing), environ)
  | [] =>
      (Ok {| bot_token := bot_token; openai_api_key := openai_api_key;
             openai_model := openai_model; db_path := db_path;
             log_level := log_level |}, environ)
  end.

(** ** [service.py]: [handle_start] and [handle_version] *)

(** What [BotService.__init__] keeps for [handle_version]: the time of the
    start and the hash of the commit *)
Record BotService := {
  started_at : string;
  commit_hash : string
}.

Definition start_reply : string :=
  "👋 Привет! Я CRM-бот агрегатора." +:+ nl +:+ nl +:+
  "Я умею:" +:+ nl +:+
  "1) Принимать офферы (каналы/мерчи) и сохранять их в базу." +:+ nl +:+
  "2) Искать по базе простыми фразами." +:+ nl +:+ nl +:+
  "Примеры:" +:+ nl +:+
  "- RU SBP вход 1.8% курс 98 лимиты 10k–300k" +:+ nl +:+
  "- дай все офферы по индии" +:+ nl +:+
  "- дай офферы по сбп рф дешевле 11%" +:+ nl +:+ nl +:+
  "Последние офферы: /offers" +:+ nl +:+
  "Оффер по ID: /offer 10".

Definition handle_start (update : Update) : M unit :=
  reply_text update start_reply None.

Definition version_reply (self : BotService) : string :=
  String.concat nl
    ["ℹ️ *Версия бота*";
     "Commit: `" +:+ commit_hash self +:+ "`";
     "Запущен: " +:+ started_at self].

Definition handle_version (self : BotService) (update : Update) : M unit :=
  reply_text update (version_reply self) Markdown.

(** ** [btc_v37.py]: the phrase hunter *)

(** The functions of [str] and of [bip_utils] the hunter calls *)
Class BipLib := {
  (** [len(phrase.strip().split())] *)
  word_count : string -> nat;
  (** [Bip39MnemonicValidator(phrase).Validate()] *)
  bip39_validate : string -> outcome bool;
  (** [mnemonic_to_address(phrase)] *)
  mnemonic_to_address : string -> outcome string
}.

(** What the hunter does to the outside: a message to the chat, a line of
    the log *)
Inductive event :=
| SendMessage (chat_id text : string)
| LogWarning (line : string)
| LogError (line : string).

Definition is_send (e : event) : bool :=
  match e with SendMessage _ _ => true | _ => false end.

Section Hunter.
Context `{BipLib}.
Variable TELEGRAM_CHAT_ID : string.

(** The [try] block of [check_and_report]: the events it causes, and how
    it ends. *)
Definition check_body (phrase mode : string) : list event * outcome unit :=
  if negb (word_count phrase =? 12)%nat then ([], Ok tt)
  else match bip39_validate phrase with
       | Raise e => ([], Raise e)
       | Ok false =>
           ([LogWarning ("[" +:+ mode +:+ "] invalid mnemonic skipped: '"
                         +:+ phrase +:+ "'")], Ok tt)
       | Ok true =>
           match mnemonic_to_address phrase with
           | Raise e => ([], Raise e)
           | Ok address =>
               let balance := 0 in
               if 0 <? balance
               then ([SendMessage TELEGRAM_CHAT_ID
                        ("💰 Найден адрес с балансом >0!" +:+ nl +:+ address
                         +:+ nl +:+ "Баланс: " +:+ pretty balance +:+ " сатоши")],
                     Ok tt)
               else ([], Ok tt)
           end
       end.

Definition check_and_report (phrase mode : string)
    : list event * outcome unit :=
  match check_body phrase mode with
  | (events, Raise e) =>
      (events ++ [LogError ("[" +:+ mode +:+ "] ошибка в фразе: '" +:+ phrase
                            +:+ "' -> " +:+ exn_msg e)], Ok tt)
  | r => r
  end.

(** [for phrase in phrases: check_and_report(phrase, mode)] *)
Fixpoint check_all (phrases : list string) (mode : string)
    : list event * outcome unit :=
  match phrases with
  | [] => ([], Ok tt)
  | phrase :: rest =>
      match check_and_report phrase mode with
      | (events, Ok _) =>
          let '(events', r) := check_all rest mode in (events ++ events', r)
      | r => r
      end
  end.

(** [process_brain], [process_mnemonic] and [process_broken], which differ
    in the mode and the list of phrases *)
Definition process (mode : string) (phrases : list string)
    : list event * outcome unit :=
  let '(events, r) := check_all phrases mode in
  (SendMessage TELEGRAM_CHAT_ID ("🧵 Стартую режим: " +:+ mode) :: events, r).

End Hunter.

(** ** Vocabulary of the further statements *)

(** The columns [init] has to add to a table: [kind] and [fee_percent],
    each unless the table has it. *)
Definition missing_columns (t : Table) : list Column :=
  (if has_column "kind" t then [] else [kind_column]) ++
  (if has_column "fee_percent" t then [] else [fee_percent_column]).

(** The table with the columns [cols] declared after its own: every row
    has NULL in each of them. *)
Definition widen (cols : list Column) (t : Table) : Table :=
  {| table_columns := table_columns t ++ cols;
     table_rows := (fun row => row ++ replicate (length cols) SNull)
                     <$> table_rows t |}.

(** What [init] starts from: the table of the file, or the one
    [create_table_sql] makes when the file has none. *)
Definition table_or_created (d : Disk) : Table :=
  default {| table_columns := created_columns; table_rows := ∅ |} (catalog d).

(** A column that has the name [name] up to the case of letters has
    exactly this name. *)
Definition exact_case (name : string) (t : Table) : Prop :=
  forall c, c ∈ table_columns t -> same_name (col_name c) name = true ->
            col_name c = name.

(** [d'] has the table of [d], with columns added at the end, if [d] has
    one. *)
Definition keeps_table (d d' : Disk) : Prop :=
  match catalog d with
  | None => True
  | Some t => exists cols, catalog d' = Some (widen cols t)
  end.

(** The file that has the table [t], with no fault to come *)
Definition quiet (t : Table) : Disk := {| catalog := Some t; disk_faults := [] |}.

(** A computation all of whose steps keep the table *)
Definition keeping {A} (m : D A) : Prop := forall d, keeps_table d (m d).2.

(** The part of [init] after the columns are read *)
Definition add_missing (columns : list pyval) : D unit :=
  (if negb (py_in "kind" columns)
   then execute_schema add_kind_sql;; mret tt
   else mret tt);;
  (if negb (py_in "fee_percent" columns)
   then execute_schema add_fee_percent_sql;; mret tt
   else mret tt);;
  disk_commit.

(** The table and its counter are the same in both worlds. *)
Definition same_table (w w' : World) : Prop :=
  offers w' = offers w /\ sqlite_sequence w' = sqlite_sequence w.

(** No message was sent between the two worlds. *)
Definition same_chat (w w' : World) : Prop := outbox w' = outbox w.

(** The worlds differ at most in the faults still to come and the open
    transaction. *)
Definition read_only (w w' : World) : Prop :=
  same_table w w' /\ same_chat w w' /\ ticks w' = ticks w.

(** Every run of [m] relates the world before to the world after. *)
Definition respects {A} (R : relation World) (m : M A) : Prop :=
  forall w, R w (m w).2.

(** The handler [m] answers the update once: when it returns it has sent
    one message, to the chat of the update; when it raises it has sent
    none. *)
Definition replies_once {A} (update : Update) (m : M A) : Prop :=
  forall w,
    match m w with
    | (Ok _, w') =>
        exists text parse_mode,
          outbox w' = {| msg_chat := effective_chat_id update;
                         msg_text := text;
                         msg_parse_mode := parse_mode |} :: outbox w
    | (Raise _, w') => outbox w' = outbox w
    end.

(** The line of a listing for a row of the table *)
Definition line_of `{PyLib} (r : Z * Offer) : string :=
  offer_line (PyInt r.1) (opt_text (kind r.2)) (opt_text (country r.2))
             (opt_text (method r.2)) (opt_text (fee r.2)) (opt_text (rate r.2))
             (PyStr (status r.2)) (opt_real (fee_percent r.2)).

(** [w'] has one row more than [w]: a new row under the next key, with the
    raw text [raw] and the status [new]; the counter is at its key. *)
Definition inserted (raw : string) (w w' : World) : Prop :=
  exists o, offers w' = <[next_rowid w := o]> (offers w) /\
            offers w !! next_rowid w = None /\
            raw_text o = raw /\ status o = "new" /\
            sqlite_sequence w' = next_rowid w.

(** [w'] has the table of [w], or one row more. *)
Definition grew (raw : string) (w w' : World) : Prop :=
  same_table w w' \/ inserted raw w w'.

(** The rows are in the order of their ids, the largest first, and no id
    occurs twice. *)
Definition newest_first (l : list (Z * Offer)) : Prop :=
  StronglySorted (fun x y => y.1 < x.1) l.

(** The card of a row of the table *)
Definition card_of `{PyLib} (r : Z * Offer) : string :=
  String.concat nl
    ["📄 *Оффер ID " +:+ py_str (PyInt r.1) +:+ "*";
     "Тип: _" +:+ py_str (py_or (opt_text (kind r.2)) dash) +:+ "_";
     "Статус: _" +:+ py_str (PyStr (status r.2)) +:+ "_";
     "";
     "*Страна:* " +:+ py_str (py_or (opt_text (country r.2)) dash);
     "*Метод:* " +:+ py_str (py_or (opt_text (method r.2)) dash);
     "*Комиссия:* " +:+ fee_str (opt_text (fee r.2)) (opt_real (fee_percent r.2));
     "*Курс:* " +:+ py_str (py_or (opt_text (rate r.2)) dash);
     "*Лимиты:* " +:+ py_str (py_or (opt_text (limits r.2)) dash);
     "*Условия:* " +:+ py_str (py_or (opt_text (conditions r.2)) dash);
     "";
     "*Создан:* " +:+ py_str (PyStr (created_at r.2));
     "*Обновлён:* " +:+ py_str (PyStr (updated_at r.2));
     "";
     "*Исходный текст:*";
     py_str (PyStr (raw_text r.2))].

Definition recent_heading : string := "📋 *Последние офферы:*".
Definition found_heading : string := "📋 *Результаты поиска:*".

(** What a TEXT column keeps of a field of a well-typed payload *)
Definition stored_text (v : pyval) : option string :=
  match v with PyStr s => Some s | _ => None end.

(** What [fee_percent] keeps of a float of the payload *)
Definition stored_real (v : pyval) : option float :=
  match v with PyFloat f => Some f | _ => None end.

(** The row [save_offer] makes of a well-typed payload *)
Definition stored_row (d : gmap string pyval) (raw now : string) : Offer :=
  {| raw_text := raw;
     country := stored_text (field d "country");
     method := stored_text (field d "method");
     fee := stored_text (field d "fee");
     rate := stored_text (field d "rate");
     limits := stored_text (field d "limits");
     conditions := stored_text (field d "conditions");
     status := "new"; created_at := now; updated_at := now;
     kind := stored_text (field d "kind");
     fee_percent := stored_real (field d "fee_percent") |}.

(** The confirmation of an offer saved under [i] with no field parsed *)
Definition bare_confirmation `{PyLib} (i : Z) : string :=
  String.concat nl
    ["✅ Оффер сохранён. ID: *" +:+ pretty i +:+ "*";
     "";
     "*Тип:* " +:+ py_str dash;
     "*Страна:* " +:+ py_str dash;
     "*Метод:* " +:+ py_str dash;
     "*Комиссия:* " +:+ py_str dash;
     "*Курс:* " +:+ py_str dash;
     "*Лимиты:* " +:+ py_str dash;
     "*Условия:* " +:+ py_str dash].

(** A criterion [search_offers] can lowercase: a falsy value, which it
    skips, or a str *)
Definition lowerable (v : pyval) : Prop :=
  truthy v = false \/ exists s, v = PyStr s.

(** A fee bound [search_offers] can convert: [None], which it skips, or a
    value [float()] accepts *)
Definition convertible `{PyLib} (v : pyval) : Prop :=
  is_None v = true \/ exists f, py_float v = Ok f.

Definition no_offers_reply : string :=
  "Пока офферов нет. Отправь первый текст оффера.".

(** The required variables, in the order [load_from_env] names them *)
Definition required_variables : list string := ["BOT_TOKEN"; "OPENAI_API_KEY"].






(** ** Further sample inputs *)
Module MoreSamples.
Import AsciiLib Samples.

(** A table made before [kind] and [fee_percent] were added, with one row *)
Definition legacy_row : list sqlval :=
  [SInt 1; SText "offer"; SText "RU"; SNull; SNull; SNull; SNull; SNull;
   SText "new"; SText "2024-05-01T09:00:00.000000";
   SText "2024-05-01T09:00:00.000000"].

Definition legacy_table : Table :=
  {| table_columns := created_columns; table_rows := {[1 := legacy_row]} |}.

(** A table whose column [kind] is spelled [KIND] *)
Definition shouting_table : Table :=
  {| table_columns := created_columns ++ [text_column "KIND"];
     table_rows := ∅ |}.

(** What the service answers: [{mode: offer, offer: {country: RU}}],
    [{mode: offer}], [{mode: offer, offer: RU SBP}] and
    [{mode: search, search: {country: india}}] *)
Definition offer_json : string :=
  "{" +:+ q "mode" +:+ ": " +:+ q "offer" +:+ ", " +:+ q "offer" +:+ ": {"
  +:+ q "country" +:+ ": " +:+ q "RU" +:+ "}}".

Definition bare_offer_json : string :=
  "{" +:+ q "mode" +:+ ": " +:+ q "offer" +:+ "}".

Definition text_offer_json : string :=
  "{" +:+ q "mode" +:+ ": " +:+ q "offer" +:+ ", " +:+ q "offer" +:+ ": "
  +:+ q "RU SBP" +:+ "}".

Definition search_json : string :=
  "{" +:+ q "mode" +:+ ": " +:+ q "search" +:+ ", " +:+ q "search" +:+ ": {"
  +:+ q "country" +:+ ": " +:+ q "india" +:+ "}}".

Definition answers (json : string) : api_reply := ApiContent (Some json).

(** A library for which every phrase has twelve words, is valid and has
    an address *)
Definition every_phrase_valid : BipLib :=
  {| word_count := fun _ => 12%nat;
     bip39_validate := fun _ => Ok true;
     mnemonic_to_address := fun _ => Ok "1BoatSLRHtKNngkdXEeobR76b53LETtpyT" |}.

End MoreSamples.

(** * Properties *)

Section Proofs.
Context `{PyLib}.

Lemma M_bind_unfold {A B} (m : M A) (f : A -> M B) (w : World) :
  (m ≫= f) w =
  match m w with
  | (Ok a, w') => f a w'
  | (Raise e, w') => (Raise e, w')
  end.
Proof. reflexivity. Qed.

Lemma M_bind_lift_ok {A B} (a : A) (f : A -> M B) (w : World) :
  (lift (Ok a) ≫= f) w = f a w.
Proof. reflexivity. Qed.

Lemma M_bind_lift_raise {A B} (e : exn) (f : A -> M B) (w : World) :
  (lift (Raise e) ≫= f) w = (Raise e, w).
Proof. reflexivity. Qed.

Lemma db_io_quiet (w : World) : faults w = [] -> db_io w = (Ok tt, w).
Proof. unfold db_io. intros ->. reflexivity. Qed.

Lemma with_connection_quiet {A} (body : M A) (w : World) :
  faults w = [] ->
  with_connection body w = (let '(r, w') := body w in (r, set_txn None w')).
Proof. intros Hf. unfold with_connection. rewrite db_io_quiet by done. reflexivity. Qed.

Lemma sql_texts_differ :
  String.eqb list_last_sql insert_sql = false /\
  String.eqb get_by_id_sql insert_sql = false /\
  String.eqb get_by_id_sql list_last_sql = false.
Proof. vm_compute. auto. Qed.

Lemma execute_insert (params : list pyval) (xs : list sqlval) (w : World) :
  faults w = [] -> bind_params 1 params = Ok xs ->
  execute insert_sql params w = run_insert xs w.
Proof.
  intros Hf Hb. unfold execute. rewrite Hb, M_bind_lift_ok.
  rewrite M_bind_unfold, db_io_quiet by done.
  rewrite String.eqb_refl. reflexivity.
Qed.

Lemma execute_get_by_id (params : list pyval) (xs : list sqlval) (w : World) :
  faults w = [] -> bind_params 1 params = Ok xs ->
  execute get_by_id_sql params w = run_get_by_id xs w.
Proof.
  intros Hf Hb. unfold execute. rewrite Hb, M_bind_lift_ok.
  rewrite M_bind_unfold, db_io_quiet by done.
  destruct sql_texts_differ as (_ & -> & ->).
  rewrite String.eqb_refl. reflexivity.
Qed.


Lemma max_key_nonneg (t : gmap Z Offer) : 0 <= max_key t.
Proof.
  unfold max_key. induction (map fst (map_to_list t)) as [|k l IH]; simpl; lia.
Qed.

Lemma next_rowid_positive (w : World) : 1 <= next_rowid w.
Proof. unfold next_rowid. pose proof (max_key_nonneg (offers w)). lia. Qed.

Lemma text_or_absent_inv (v : pyval) :
  text_or_absent v -> exists o : option string, v = opt_text o.
Proof.
  destruct v; simpl; try contradiction; intros _.
  - by exists None.
  - by exists (Some s).
Qed.


Lemma bind_param_text (i : nat) (o : option string) :
  bind_param i (opt_text o) = Ok (from_option SText SNull o).
Proof. by destruct o. Qed.

Lemma as_text_text (o : option string) : as_text (from_option SText SNull o) = o.
Proof. by destruct o. Qed.

Lemma as_real_real (o : option float) :
  as_real (from_option SReal SNull o) = Ok (plus_zero <$> o).
Proof. by destruct o. Qed.

Lemma safe_float_real (o : option float) : safe_float (opt_real o) = Ok (opt_real o).
Proof. by destruct o. Qed.

Lemma safe_float_shape (v fp : pyval) :
  safe_float v = Ok fp -> exists o : option float, fp = opt_real o.
Proof.
  unfold safe_float. destruct (is_None v).
  - intros [= <-]. by exists None.
  - destruct (py_float v) as [f|e].
    + intros [= <-]. by exists (Some f).
    + destruct (is_TypeError_or_ValueError e); [|discriminate].
      intros [= <-]. by exists None.
Qed.

Lemma bind_param_real_nan (i : nat) (o : option float) :
  bind_param i (opt_real o) = Ok (from_option SReal SNull (drop_nan o)).
Proof. destruct o as [f|]; simpl; [|done]. by destruct (is_nan f). Qed.

(** [save_offer] on a payload whose text fields are well typed, whatever
    [safe_float] makes of its [fee_percent], then [get_offer_by_id]. *)
Lemma save_then_get_coerced (w : World) (d : gmap string pyval) (raw : string)
    (p : option float) :
  faults w = [] -> next_rowid w <= int64_max ->
  text_or_absent (field d "country") -> text_or_absent (field d "method") ->
  text_or_absent (field d "fee") -> text_or_absent (field d "rate") ->
  text_or_absent (field d "limits") -> text_or_absent (field d "conditions") ->
  text_or_absent (field d "kind") ->
  safe_float (field d "fee_percent") = Ok (opt_real p) ->
  exists (w1 w2 : World),
    save_offer (PyDict d) raw w = (Ok (next_rowid w), w1) /\
    get_offer_by_id (next_rowid w) w1 =
      (Ok (Some [PyInt (next_rowid w); PyStr raw; field d "country";
                 field d "method"; field d "fee"; field d "rate";
                 field d "limits"; field d "conditions"; PyStr "new";
                 PyStr (clock w (ticks w)); PyStr (clock w (ticks w));
                 field d "kind"; opt_real (kept_real p)]), w2).
Proof.
  intros Hf Hid Hc Hm Hfe Hr Hl Hcd Hk Hp.
  apply text_or_absent_inv in Hc as [c Hc], Hm as [m Hm], Hfe as [fe Hfe],
    Hr as [r Hr], Hl as [l Hl], Hcd as [cd Hcd], Hk as [k Hk].
  pose proof (next_rowid_positive w) as Hpos.
  set (now := clock w (ticks w)).
  set (w0 := set_ticks (S (ticks w)) w).
  set (o := {| raw_text := raw; country := c; method := m; fee := fe;
               rate := r; limits := l; conditions := cd; status := "new";
               created_at := now; updated_at := now; kind := k;
               fee_percent := kept_real p |}).
  set (i := next_rowid w).
  assert (Hsave : save_offer (PyDict d) raw w =
                  (Ok i, set_txn None (set_txn None
                     (set_offers (<[i := o]> (offers w)) i w0)))).
  { unfold save_offer. rewrite M_bind_unfold. cbn [utcnow_isoformat].
    fold now w0. rewrite with_connection_quiet by done.
    cbn [dict_get]. rewrite !M_bind_lift_ok.
    rewrite Hp, M_bind_lift_ok.
    rewrite Hc, Hm, Hfe, Hr, Hl, Hcd, Hk.
    rewrite M_bind_unfold.
    erewrite execute_insert; [|done|].
    2:{ cbn [bind_params]. rewrite !bind_param_text, bind_param_real_nan.
        cbn [bind_param]. reflexivity. }
    cbn [run_insert]. cbn [as_text not_null]. rewrite !M_bind_lift_ok.
    rewrite as_real_real, M_bind_lift_ok, !as_text_text.
    unfold stage_row. change (next_rowid w0) with i.
    destruct (int64_max <? i) eqn:Hlt; [apply Z.ltb_lt in Hlt; unfold i in *; lia|].
    rewrite M_bind_unfold. unfold commit. rewrite db_io_quiet by done.
    cbn [txn set_txn]. reflexivity. }
  eexists _, _. split; [exact Hsave|].
  unfold get_offer_by_id. rewrite with_connection_quiet by done.
  rewrite M_bind_unfold. erewrite execute_get_by_id; [|done|].
  2:{ cbn [bind_params bind_param].
      destruct ((int64_min <=? i) && (i <=? int64_max)) eqn:Hr';
        [reflexivity|].
      apply andb_false_iff in Hr' as [Hr'|Hr']; apply Z.leb_gt in Hr';
        unfold int64_min, i in *; lia. }
  unfold run_get_by_id, select_rows. cbn [offers set_txn set_offers].
  rewrite lookup_insert_eq. unfold fetchone. rewrite M_bind_unfold.
  rewrite db_io_quiet by done. cbn [mret M_ret result_rows head full_row].
  subst o. cbn [raw_text country method fee rate limits conditions status
                created_at updated_at kind fee_percent].
  rewrite Hc, Hm, Hfe, Hr, Hl, Hcd, Hk. reflexivity.
Qed.


(** X1 (a fee that is not a numeral).  When the [fee_percent] of the
    payload is a str that [float()] refuses, [save_offer] does not raise:
    the row is stored with [fee_percent] absent and every other column as
    in the payload. *)
Theorem save_offer_unparsable_fee (w : World) (d : gmap string pyval)
    (raw s : string) :
  faults w = [] -> next_rowid w <= int64_max ->
  text_or_absent (field d "country") -> text_or_absent (field d "method") ->
  text_or_absent (field d "fee") -> text_or_absent (field d "rate") ->
  text_or_absent (field d "limits") -> text_or_absent (field d "conditions") ->
  text_or_absent (field d "kind") ->
  field d "fee_percent" = PyStr s -> float_of_str s = None ->
  exists (offer_id : Z) (w1 w2 : World),
    save_offer (PyDict d) raw w = (Ok offer_id, w1) /\
    get_offer_by_id offer_id w1 =
      (Ok (Some [PyInt offer_id; PyStr raw; field d "country";
                 field d "method"; field d "fee"; field d "rate";
                 field d "limits"; field d "conditions"; PyStr "new";
                 PyStr (clock w (ticks w)); PyStr (clock w (ticks w));
                 field d "kind"; PyNone]), w2).
Proof.
  intros Hf Hid Hc Hm Hfe Hr Hl Hcd Hk Hp Hs.
  destruct (save_then_get_coerced w d raw None) as (w1 & w2 & Hsv & Hg); try done.
  { rewrite Hp. unfold safe_float. cbn [is_None py_float]. by rewrite Hs. }
  by exists (next_rowid w), w1, w2.
Qed.

(** C8 (the input on which [save_offer] raises for its [fee_percent]).
    When [fee_percent] is an int too large for a float, [float()] raises
    [OverflowError], which [safe_float] does not catch: [save_offer] raises
    it and stores nothing. *)
Theorem save_offer_overflow (w : World) (d : gmap string pyval) (raw : string)
    (n : Z) :
  faults w = [] -> field d "fee_percent" = PyInt n ->
  is_inf (int_to_float n) = true ->
  exists w' : World,
    save_offer (PyDict d) raw w =
      (Raise (Exn OverflowError "int too large to convert to float"), w') /\
    offers w' = offers w /\ sqlite_sequence w' = sqlite_sequence w.
Proof.
  intros Hf Hp Hinf. eexists. split.
  - unfold save_offer. rewrite M_bind_unfold. cbn [utcnow_isoformat].
    rewrite with_connection_quiet by done.
    cbn [dict_get]. rewrite !M_bind_lift_ok. rewrite Hp.
    unfold safe_float. cbn [is_None py_float]. rewrite Hinf.
    cbn [is_TypeError_or_ValueError exn_cls]. rewrite M_bind_lift_raise.
    reflexivity.
  - done.
Qed.


(** *** The statement [search_offers] builds *)

Lemma search_offers_query_clauses (d : gmap string pyval) (limit : Z) :
  search_offers_query (PyDict d) limit =
  match like_clause "LOWER(country) LIKE ?" (field d "country") with
  | Raise e => Raise e
  | Ok c1 =>
  match like_clause "LOWER(method) LIKE ?" (field d "method") with
  | Raise e => Raise e
  | Ok c2 =>
  match eq_clause "status = ?" (field d "status") with
  | Raise e => Raise e
  | Ok c3 =>
  match eq_clause "kind = ?" (field d "kind") with
  | Raise e => Raise e
  | Ok c4 =>
  match fee_clause "fee_percent >= ?" (field d "min_fee_percent") with
  | Raise e => Raise e
  | Ok c5 =>
  match fee_clause "fee_percent <= ?" (field d "max_fee_percent") with
  | Raise e => Raise e
  | Ok c6 =>
      let cs := c1 ++ c2 ++ c3 ++ c4 ++ c5 ++ c6 in
      Ok (search_sql (conds_sql cs), cs.*2 ++ [PyInt limit])
  end end end end end end.
Proof.
  unfold search_offers_query, like_clause, eq_clause, fee_clause.
  cbn [dict_get mbind outcome_bind].
  destruct (truthy (field d "country"));
    [destruct (py_lower (field d "country")); [|reflexivity]|];
  (destruct (truthy (field d "method"));
    [destruct (py_lower (field d "method")); [|reflexivity]|]);
  destruct (truthy (field d "status"));
  destruct (truthy (field d "kind"));
  (destruct (negb (is_None (field d "min_fee_percent")));
    [destruct (py_float (field d "min_fee_percent")); [|reflexivity]|]);
  (destruct (negb (is_None (field d "max_fee_percent")));
    [destruct (py_float (field d "max_fee_percent")); [|reflexivity]|]);
  reflexivity.
Qed.


Lemma like_clause_sql (sql : string) (v : pyval) (c : list (string * pyval)) :
  like_clause sql v = Ok c -> c.*1 = if truthy v then [sql] else [].
Proof.
  unfold like_clause. destruct (truthy v); [|by intros [= <-]].
  destruct (py_lower v); [|discriminate]. by intros [= <-].
Qed.

Lemma eq_clause_sql (sql : string) (v : pyval) (c : list (string * pyval)) :
  eq_clause sql v = Ok c -> c.*1 = if truthy v then [sql] else [].
Proof. unfold eq_clause. destruct (truthy v); by intros [= <-]. Qed.

Lemma fee_clause_sql (sql : string) (v : pyval) (c : list (string * pyval)) :
  fee_clause sql v = Ok c -> c.*1 = if negb (is_None v) then [sql] else [].
Proof.
  unfold fee_clause. destruct (negb (is_None v)); [|by intros [= <-]].
  destruct (py_float v); [|discriminate]. by intros [= <-].
Qed.

Lemma like_clause_length (sql : string) (v : pyval) (c : list (string * pyval)) :
  like_clause sql v = Ok c -> length c = if truthy v then 1%nat else 0%nat.
Proof. intros Hc. apply like_clause_sql in Hc. rewrite <-(length_fmap fst), Hc. by destruct (truthy v). Qed.

Lemma eq_clause_length (sql : string) (v : pyval) (c : list (string * pyval)) :
  eq_clause sql v = Ok c -> length c = if truthy v then 1%nat else 0%nat.
Proof. intros Hc. apply eq_clause_sql in Hc. rewrite <-(length_fmap fst), Hc. by destruct (truthy v). Qed.

Lemma fee_clause_length (sql : string) (v : pyval) (c : list (string * pyval)) :
  fee_clause sql v = Ok c -> length c = if negb (is_None v) then 1%nat else 0%nat.
Proof. intros Hc. apply fee_clause_sql in Hc. rewrite <-(length_fmap fst), Hc. by destruct (negb (is_None v)). Qed.

(** The text of the statement is determined by the criteria taken up, and
    it has one parameter for each of them and one for the limit. *)
Lemma search_offers_query_shape (d : gmap string pyval) (limit : Z)
    (q : string) (p : list pyval) :
  search_offers_query (PyDict d) limit = Ok (q, p) ->
  q = search_sql (where_for (criteria d)) /\
  length p = S (length (predicates_for (criteria d))).
Proof.
  rewrite search_offers_query_clauses.
  destruct (like_clause _ (field d "country")) as [c1|] eqn:H1; [|discriminate].
  destruct (like_clause _ (field d "method")) as [c2|] eqn:H2; [|discriminate].
  destruct (eq_clause _ (field d "status")) as [c3|] eqn:H3; [|discriminate].
  destruct (eq_clause _ (field d "kind")) as [c4|] eqn:H4; [|discriminate].
  destruct (fee_clause _ (field d "min_fee_percent")) as [c5|] eqn:H5; [|discriminate].
  destruct (fee_clause _ (field d "max_fee_percent")) as [c6|] eqn:H6; [|discriminate].
  intros [= <- <-]. split.
  - f_equal. unfold conds_sql, criteria. rewrite !fmap_app.
    rewrite (like_clause_sql _ _ _ H1), (like_clause_sql _ _ _ H2),
      (eq_clause_sql _ _ _ H3), (eq_clause_sql _ _ _ H4),
      (fee_clause_sql _ _ _ H5), (fee_clause_sql _ _ _ H6).
    destruct (truthy (field d "country")), (truthy (field d "method")),
      (truthy (field d "status")), (truthy (field d "kind")),
      (negb (is_None (field d "min_fee_percent"))),
      (negb (is_None (field d "max_fee_percent"))); reflexivity.
  - rewrite length_app, length_fmap, !length_app.
    rewrite (like_clause_length _ _ _ H1), (like_clause_length _ _ _ H2),
      (eq_clause_length _ _ _ H3), (eq_clause_length _ _ _ H4),
      (fee_clause_length _ _ _ H5), (fee_clause_length _ _ _ H6).
    unfold criteria.
    destruct (truthy (field d "country")), (truthy (field d "method")),
      (truthy (field d "status")), (truthy (field d "kind")),
      (negb (is_None (field d "min_fee_percent"))),
      (negb (is_None (field d "max_fee_percent"))); reflexivity.
Qed.

(** C2 (the text of the search statement does not depend on the values of
    the criteria).  If [search_offers] builds a statement for each of two
    filters that take up the same criteria (the same tests of its six
    [if]s pass), the two texts are equal: the text is the one fixed by the
    criteria taken up, and the values travel in the parameter list, one
    parameter per criterion and one for the limit. *)
Theorem search_query_text_noninterference
    (d1 d2 : gmap string pyval) (limit1 limit2 : Z) (q1 q2 : string)
    (p1 p2 : list pyval) :
  search_offers_query (PyDict d1) limit1 = Ok (q1, p1) ->
  search_offers_query (PyDict d2) limit2 = Ok (q2, p2) ->
  criteria d1 = criteria d2 ->
  q1 = q2 /\
  q1 = search_sql (where_for (criteria d1)) /\
  length p1 = S (length (predicates_for (criteria d1))).
Proof.
  intros H1 H2 Hc.
  apply search_offers_query_shape in H1 as [-> Hl], H2 as [-> _].
  rewrite <-Hc. auto.
Qed.

Lemma search_offers_query_raises (d : gmap string pyval) (limit : Z) (e : exn)
    (w : World) :
  search_offers_query (PyDict d) limit = Raise e ->
  search_offers (PyDict d) limit w = (Raise e, w).
Proof. intros Hq. unfold search_offers. by rewrite Hq. Qed.

Lemma fee_clause_unparsable (sql s : string) :
  float_of_str s = None -> fee_clause sql (PyStr s) = Raise (cannot_convert s).
Proof. intros Hs. unfold fee_clause. cbn [is_None negb py_float]. by rewrite Hs. Qed.

(** C10 ([search_offers] raises on a bound that is not a numeral).  For a
    str [s] that [float()] refuses, [search_offers] raises for every filter
    whose [min_fee_percent] or [max_fee_percent] is [s], before it touches
    the database; with no other criterion the exception is the
    [ValueError] of [float(s)].  On the same value [safe_float], the
    coercion of [save_offer], returns [None]. *)
Theorem search_offers_unparsable_bound (w : World) (limit : Z) (s : string) :
  float_of_str s = None ->
  (forall d : gmap string pyval,
     field d "min_fee_percent" = PyStr s \/ field d "max_fee_percent" = PyStr s ->
     exists e, search_offers (PyDict d) limit w = (Raise e, w)) /\
  search_offers (PyDict {["min_fee_percent" := PyStr s]}) limit w =
    (Raise (cannot_convert s), w) /\
  search_offers (PyDict {["max_fee_percent" := PyStr s]}) limit w =
    (Raise (cannot_convert s), w) /\
  safe_float (PyStr s) = Ok PyNone.
Proof.
  intros Hs. split; [|split; [|split]].
  - intros d Hd.
    assert (exists e, search_offers_query (PyDict d) limit = Raise e) as [e He].
    { rewrite search_offers_query_clauses.
      destruct (like_clause _ (field d "country")); [|by eexists].
      destruct (like_clause _ (field d "method")); [|by eexists].
      destruct (eq_clause _ (field d "status")); [|by eexists].
      destruct (eq_clause _ (field d "kind")); [|by eexists].
      destruct Hd as [-> | ->].
      - rewrite fee_clause_unparsable by done. by eexists.
      - destruct (fee_clause _ (field d "min_fee_percent")); [|by eexists].
        rewrite fee_clause_unparsable by done. by eexists. }
    exists e. by apply search_offers_query_raises.
  - apply search_offers_query_raises. rewrite search_offers_query_clauses.
    change (field {["min_fee_percent" := PyStr s]} "min_fee_percent") with (PyStr s).
    rewrite fee_clause_unparsable by done. reflexivity.
  - apply search_offers_query_raises. rewrite search_offers_query_clauses.
    change (field {["max_fee_percent" := PyStr s]} "max_fee_percent") with (PyStr s).
    rewrite fee_clause_unparsable by done. reflexivity.
  - unfold safe_float. cbn [is_None py_float]. by rewrite Hs.
Qed.


(** *** Running a SELECT *)

Lemma search_sql_recognised (b1 b2 b3 b4 b5 b6 : bool) :
  let flags := [b1; b2; b3; b4; b5; b6] in
  let q := search_sql (where_for flags) in
  String.eqb q insert_sql = false /\
  String.eqb q list_last_sql = false /\
  String.eqb q get_by_id_sql = false /\
  read_search_sql q = Some (predicates_for flags).
Proof.
  destruct b1, b2, b3, b4, b5, b6; vm_compute; auto.
Qed.

Lemma criteria_six (d : gmap string pyval) :
  exists b1 b2 b3 b4 b5 b6, criteria d = [b1; b2; b3; b4; b5; b6].
Proof. unfold criteria. by do 6 eexists. Qed.

Lemma execute_search (d : gmap string pyval) (params : list pyval)
    (xs : list sqlval) (w : World) :
  faults w = [] -> bind_params 1 params = Ok xs ->
  execute (search_sql (where_for (criteria d))) params w =
  run_search (predicates_for (criteria d)) xs w.
Proof.
  intros Hf Hb. unfold execute. rewrite Hb, M_bind_lift_ok.
  rewrite M_bind_unfold, db_io_quiet by done.
  destruct (criteria_six d) as (b1 & b2 & b3 & b4 & b5 & b6 & ->).
  destruct (search_sql_recognised b1 b2 b3 b4 b5 b6) as (-> & -> & -> & ->).
  reflexivity.
Qed.

Lemma execute_list_last (params : list pyval) (xs : list sqlval) (w : World) :
  faults w = [] -> bind_params 1 params = Ok xs ->
  execute list_last_sql params w = run_list_last xs w.
Proof.
  intros Hf Hb. unfold execute. rewrite Hb, M_bind_lift_ok.
  rewrite M_bind_unfold, db_io_quiet by done.
  destruct sql_texts_differ as (-> & _ & _).
  rewrite String.eqb_refl. reflexivity.
Qed.


Lemma sql_limit_elem {A} (n : Z) (l : list A) (x : A) :
  x ∈ sql_limit n l -> x ∈ l.
Proof.
  unfold sql_limit. destruct (n <? 0); [done|].
  apply subseteq_take.
Qed.

Lemma sql_limit_all {A} (n : Z) (l : list A) :
  n < 0 \/ Z.of_nat (length l) <= n -> sql_limit n l = l.
Proof.
  unfold sql_limit. intros [Hn|Hn].
  - by apply Z.ltb_lt in Hn as ->.
  - destruct (n <? 0); [done|]. apply take_ge. lia.
Qed.

Lemma selection_elem (t : gmap Z Offer) (P : Z * Offer -> Prop)
    `{!forall r, Decision (P r)} (i : Z) (o : Offer) :
  (i, o) ∈ order_by_id_desc (filter P (map_to_list t)) <->
  t !! i = Some o /\ P (i, o).
Proof.
  unfold order_by_id_desc. rewrite merge_sort_Permutation.
  rewrite list_elem_of_filter, elem_of_map_to_list. tauto.
Qed.

Lemma selection_length (t : gmap Z Offer) (P : Z * Offer -> Prop)
    `{!forall r, Decision (P r)} :
  (length (order_by_id_desc (filter P (map_to_list t))) <= size t)%nat.
Proof.
  unfold order_by_id_desc. rewrite merge_sort_Permutation.
  rewrite <-length_map_to_list. apply length_filter.
Qed.

Lemma SFleb_nan_l (b f : float) : is_nan b = true -> SFleb b f = false.
Proof. by destruct b. Qed.

Lemma SFleb_nan_r (b f : float) : is_nan b = true -> SFleb f b = false.
Proof. destruct b; try discriminate. by destruct f. Qed.

Lemma SFleb_refl (f : float) : is_nan f = false -> SFleb f f = true.
Proof.
  destruct f as [s|s| |s m e]; try done.
  - by destruct s.
  - intros _. unfold SFleb, SFcompare. rewrite Z.compare_refl.
    change (PosDef.Pos.compare_cont Eq m m) with (m ?= m)%positive.
    rewrite Pos.compare_refl. by destruct s.
Qed.


Lemma bind_params_length (i : nat) (vs : list pyval) (xs : list sqlval) :
  bind_params i vs = Ok xs -> length xs = length vs.
Proof.
  revert i xs. induction vs as [|v vs IH]; intros i xs; simpl.
  - by intros [= <-].
  - destruct (bind_param i v); [|discriminate].
    destruct (bind_params (S i) vs) eqn:Hb; [|discriminate].
    intros [= <-]. simpl. f_equal. eauto.
Qed.

(** [search_offers] once its statement is built, on a database without
    faults *)
Lemma search_offers_run (w : World) (d : gmap string pyval) (limit n : Z)
    (q : string) (p : list pyval) (xs : list sqlval) :
  faults w = [] ->
  search_offers_query (PyDict d) limit = Ok (q, p) ->
  bind_params 1 p = Ok xs ->
  as_limit (default SNull (last xs)) = Ok n ->
  search_offers (PyDict d) limit w =
    (Ok (search_row <$>
           sql_limit n
             (order_by_id_desc
                (filter (fun r => where_holds (predicates_for (criteria d))
                                              xs r.2 = true)
                        (map_to_list (offers w))))),
     set_txn None w).
Proof.
  intros Hf Hq Hb Hn. unfold search_offers. rewrite Hq, M_bind_lift_ok.
  rewrite with_connection_quiet by done.
  apply search_offers_query_shape in Hq as [-> Hlen].
  cbn [fst snd]. rewrite M_bind_unfold.
  rewrite (execute_search d p xs) by done.
  unfold run_search.
  rewrite bool_decide_eq_true_2
    by (by rewrite (bind_params_length _ _ _ Hb)).
  rewrite Hn, M_bind_lift_ok. unfold select_rows, fetchall.
  rewrite M_bind_unfold, db_io_quiet by done. reflexivity.
Qed.

Lemma fee_bound_inv (v : pyval) (b : option float) :
  fee_bound v = Ok b ->
  (b = None /\ is_None v = true) \/
  (exists f, b = Some f /\ is_None v = false /\ py_float v = Ok f).
Proof.
  unfold fee_bound. destruct (is_None v).
  - intros [= <-]. by left.
  - destruct (py_float v) as [f|]; [|discriminate].
    intros [= <-]. right. by exists f.
Qed.

Lemma bound_limit (i : nat) (limit : Z) :
  int64_min <= limit <= int64_max ->
  bind_param i (PyInt limit) = Ok (SInt limit).
Proof.
  intros [H1 H2]. cbn [bind_param].
  apply Z.leb_le in H1 as ->. by apply Z.leb_le in H2 as ->.
Qed.

Lemma holds_fee_ge (b : float) (o : Offer) :
  holds FeeGe (if is_nan b then SNull else SReal b) o =
  match fee_percent o with Some f => SFleb b f | None => false end.
Proof.
  unfold holds. destruct (fee_percent o) as [f|]; [|done].
  destruct (is_nan b) eqn:Hn; [|done]. by rewrite SFleb_nan_l.
Qed.

Lemma holds_fee_le (b : float) (o : Offer) :
  holds FeeLe (if is_nan b then SNull else SReal b) o =
  match fee_percent o with Some f => SFleb f b | None => false end.
Proof.
  unfold holds. destruct (fee_percent o) as [f|]; [|done].
  destruct (is_nan b) eqn:Hn; [|done]. by rewrite SFleb_nan_r.
Qed.

(** The rows [search_offers] selects for a filter with fee bounds only *)
Lemma search_offers_fee_bounds (w : World) (d : gmap string pyval) (limit : Z)
    (lo hi : option float) :
  faults w = [] -> int64_min <= limit <= int64_max ->
  truthy (field d "country") = false -> truthy (field d "method") = false ->
  truthy (field d "status") = false -> truthy (field d "kind") = false ->
  fee_bound (field d "min_fee_percent") = Ok lo ->
  fee_bound (field d "max_fee_percent") = Ok hi ->
  is_Some lo \/ is_Some hi ->
  search_offers (PyDict d) limit w =
    (Ok (search_row <$>
           sql_limit limit
             (order_by_id_desc
                (filter (fun r => fee_within lo hi r.2 = true)
                        (map_to_list (offers w))))),
     set_txn None w).
Proof.
  intros Hf Hlim Hc Hm Hs Hk Hlo Hhi Hsome.
  assert (Hq : exists p xs,
    search_offers_query (PyDict d) limit = Ok (search_sql (where_for (criteria d)), p) /\
    bind_params 1 p = Ok xs /\ as_limit (default SNull (last xs)) = Ok limit /\
    forall o, where_holds (predicates_for (criteria d)) xs o = fee_within lo hi o).
  { unfold criteria. rewrite Hc, Hm, Hs, Hk.
    rewrite search_offers_query_clauses.
    unfold like_clause, eq_clause, fee_clause. rewrite Hc, Hm, Hs, Hk.
    apply fee_bound_inv in Hlo as [[-> ->]|(l & -> & -> & ->)];
    apply fee_bound_inv in Hhi as [[-> ->]|(h & -> & -> & ->)];
    cbn [negb app fmap list_fmap fst snd].
    - destruct Hsome as [[? [=]]|[? [=]]].
    - eexists _, _. split; [reflexivity|]. split.
      { cbn [bind_params]. rewrite bound_limit by exact Hlim. reflexivity. }
      split; [reflexivity|]. intros o.
      cbn [predicates_for select_by all_predicates where_holds].
      rewrite holds_fee_le, andb_true_r. unfold fee_within.
      by destruct (fee_percent o).
    - eexists _, _. split; [reflexivity|]. split.
      { cbn [bind_params]. rewrite bound_limit by exact Hlim. reflexivity. }
      split; [reflexivity|]. intros o.
      cbn [predicates_for select_by all_predicates where_holds].
      rewrite holds_fee_ge, andb_true_r. unfold fee_within.
      destruct (fee_percent o); [|done]. cbn. by rewrite andb_true_r.
    - eexists _, _. split; [reflexivity|]. split.
      { cbn [bind_params]. rewrite bound_limit by exact Hlim. reflexivity. }
      split; [reflexivity|]. intros o.
      cbn [predicates_for select_by all_predicates where_holds].
      rewrite holds_fee_ge, holds_fee_le, andb_true_r. unfold fee_within.
      by destruct (fee_percent o). }
  destruct Hq as (p & xs & Hq & Hb & Hn & Hw).
  rewrite (search_offers_run w d limit limit _ p xs) by done.
  erewrite list_filter_iff; [reflexivity|].
  intros [i o]. cbn [snd]. by rewrite Hw.
Qed.


(** C5 (fee bounds).  On a database without faults, for a filter whose
    only criteria are fee bounds that [float()] accepts, [search_offers]
    returns, in descending order of id and cut to [limit], exactly the rows
    whose [fee_percent] is present and lies within the bounds given, both
    inclusive: every row returned is such a row of the table; when the
    limit does not cut, every such row is returned; a row whose
    [fee_percent] equals a bound is within; a row without [fee_percent] is
    not. *)
Theorem search_fee_bounds_exact (w : World) (d : gmap string pyval) (limit : Z)
    (lo hi : option float) :
  faults w = [] -> int64_min <= limit <= int64_max ->
  truthy (field d "country") = false -> truthy (field d "method") = false ->
  truthy (field d "status") = false -> truthy (field d "kind") = false ->
  fee_bound (field d "min_fee_percent") = Ok lo ->
  fee_bound (field d "max_fee_percent") = Ok hi ->
  is_Some lo \/ is_Some hi ->
  let selected :=
    sql_limit limit
      (order_by_id_desc
         (filter (fun r => fee_within lo hi r.2 = true)
                 (map_to_list (offers w)))) in
  search_offers (PyDict d) limit w =
    (Ok (search_row <$> selected), set_txn None w) /\
  (forall i o, (i, o) ∈ selected ->
     offers w !! i = Some o /\ fee_within lo hi o = true) /\
  (limit < 0 \/ Z.of_nat (size (offers w)) <= limit ->
   forall i o, offers w !! i = Some o -> fee_within lo hi o = true ->
     (i, o) ∈ selected) /\
  (forall o b, fee_percent o = Some b -> is_nan b = false ->
     lo = None \/ lo = Some b -> hi = None \/ hi = Some b ->
     fee_within lo hi o = true) /\
  (forall o, fee_percent o = None -> fee_within lo hi o = false).
Proof.
  intros Hf Hlim Hc Hm Hs Hk Hlo Hhi Hsome selected.
  split; [by apply search_offers_fee_bounds|].
  split; [|split; [|split]].
  - intros i o Hin. apply sql_limit_elem in Hin.
    by apply (selection_elem _ (fun r => fee_within lo hi r.2 = true)) in Hin.
  - intros Hcut i o Hio Hin. unfold selected. rewrite sql_limit_all.
    + by apply (selection_elem _ (fun r => fee_within lo hi r.2 = true)).
    + destruct Hcut as [?|Hcut]; [by left|right].
      pose proof (selection_length (offers w)
                    (fun r => fee_within lo hi r.2 = true)). lia.
  - intros o b Hb Hn Hl Hh. unfold fee_within. rewrite Hb.
    destruct Hl as [-> | ->], Hh as [-> | ->]; cbn;
      rewrite ?SFleb_refl by done; done.
  - intros o Ho. unfold fee_within. by rewrite Ho.
Qed.


(** *** A filter without criteria *)

Lemma execute_search_any (d : gmap string pyval) (params : list pyval)
    (w : World) :
  execute (search_sql (where_for (criteria d))) params w =
  (xs ← lift (bind_params 1 params); db_io;;
   run_search (predicates_for (criteria d)) xs) w.
Proof.
  unfold execute. rewrite !M_bind_unfold.
  destruct (lift (bind_params 1 params) w) as [[xs|e] w1]; [|done].
  rewrite !M_bind_unfold. destruct (db_io w1) as [[[]|e] w2]; [|done].
  destruct (criteria_six d) as (b1 & b2 & b3 & b4 & b5 & b6 & ->).
  destruct (search_sql_recognised b1 b2 b3 b4 b5 b6) as (-> & -> & -> & ->).
  reflexivity.
Qed.

Lemma execute_list_last_any (params : list pyval) (w : World) :
  execute list_last_sql params w =
  (xs ← lift (bind_params 1 params); db_io;; run_list_last xs) w.
Proof.
  unfold execute. rewrite !M_bind_unfold.
  destruct (lift (bind_params 1 params) w) as [[xs|e] w1]; [|done].
  rewrite !M_bind_unfold. destruct (db_io w1) as [[[]|e] w2]; [|done].
  destruct sql_texts_differ as (-> & _ & _).
  rewrite String.eqb_refl. reflexivity.
Qed.

Lemma with_connection_select (g : gmap Z Offer -> list (list pyval))
    (w : World) :
  with_connection (cursor ← (db_io;; select_rows g); fetchall cursor) w =
  match select_calls w with
  | (Ok _, w') => (Ok (g (offers w)), w')
  | (Raise e, w') => (Raise e, w')
  end.
Proof.
  unfold select_calls, with_connection, fetchall, select_rows, db_io,
    mbind, M_bind, mret, M_ret.
  destruct (faults w) as [|[e1|] [|[e2|] [|[e3|] l]]] eqn:Hf;
    cbn; rewrite ?Hf; cbn; reflexivity.
Qed.

Lemma filter_all {A} (P : A -> Prop) `{!forall x, Decision (P x)}
    (l : list A) :
  (forall x, P x) -> filter P l = l.
Proof.
  intros HP. induction l as [|x l IH]; [done|].
  rewrite filter_cons_True by done. by rewrite IH.
Qed.

Lemma row_ids_search (l : list (Z * Offer)) :
  row_id <$> (search_row <$> l) = (fun r => Some (PyInt r.1)) <$> l.
Proof. rewrite <-list_fmap_compose. apply list_fmap_ext. by intros ? [i o]. Qed.

Lemma row_ids_recent (l : list (Z * Offer)) :
  row_id <$> (recent_row <$> l) = (fun r => Some (PyInt r.1)) <$> l.
Proof. rewrite <-list_fmap_compose. apply list_fmap_ext. by intros ? [i o]. Qed.

#[local] Instance by_id_desc_total : Total by_id_desc.
Proof. intros x y. unfold by_id_desc. lia. Qed.

#[local] Instance by_id_desc_trans : Transitive by_id_desc.
Proof. intros x y z. unfold by_id_desc. lia. Qed.

Lemma sql_limit_sorted {A} (R : relation A) (n : Z) (l : list A) :
  StronglySorted R l -> StronglySorted R (sql_limit n l).
Proof.
  unfold sql_limit. destruct (n <? 0); [done|].
  intros Hl. revert l Hl. induction (Z.to_nat n) as [|k IH]; intros l Hl.
  - constructor.
  - destruct Hl as [|x l Hl Hx]; [constructor|]. cbn. constructor; [eauto|].
    eapply Forall_forall. intros y Hy. eapply Forall_forall in Hx; [exact Hx|].
    by apply subseteq_take in Hy.
Qed.

(** C7 (a filter without criteria).  For a filter none of whose criteria
    is taken up, [search_offers] and [list_last_offers] with the same limit
    fail alike or return the same rows of the table, each under its own
    projection: the same ids in the same descending order, all of them
    rows of the table; without faults and with a limit of 64 bits they
    return. *)
Theorem search_without_criteria (w : World) (d : gmap string pyval) (limit : Z) :
  criteria d = no_criteria ->
  let selected :=
    sql_limit limit (order_by_id_desc (map_to_list (offers w))) in
  exists (r : outcome unit) (w' : World),
    search_offers (PyDict d) limit w =
      (match r with Ok _ => Ok (search_row <$> selected) | Raise e => Raise e end, w') /\
    list_last_offers limit w =
      (match r with Ok _ => Ok (recent_row <$> selected) | Raise e => Raise e end, w') /\
    row_id <$> (search_row <$> selected) = row_id <$> (recent_row <$> selected) /\
    StronglySorted by_id_desc selected /\
    (forall i o, (i, o) ∈ selected -> offers w !! i = Some o) /\
    (faults w = [] -> int64_min <= limit <= int64_max -> r = Ok tt).
Proof.
  intros Hc selected.
  assert (Hq : search_offers_query (PyDict d) limit =
               Ok (search_sql (where_for (criteria d)), [PyInt limit])).
  { rewrite search_offers_query_clauses. rewrite Hc.
    unfold criteria, no_criteria in Hc.
    injection Hc as Hc1 Hc2 Hc3 Hc4 Hc5 Hc6.
    unfold like_clause, eq_clause, fee_clause.
    rewrite Hc1, Hc2, Hc3, Hc4, Hc5, Hc6. reflexivity. }
  assert (Hs : search_offers (PyDict d) limit w =
    with_connection
      (cursor ← (xs ← lift (bind_params 1 [PyInt limit]); db_io;;
                 run_search (predicates_for (criteria d)) xs);
       fetchall cursor) w).
  { unfold search_offers. rewrite Hq, M_bind_lift_ok. cbn [fst snd].
    unfold with_connection. destruct (db_io w) as [[[]|e] w1]; [|done].
    rewrite !M_bind_unfold. by rewrite execute_search_any. }
  assert (Hl : list_last_offers limit w =
    with_connection
      (cursor ← (xs ← lift (bind_params 1 [PyInt limit]); db_io;;
                 run_list_last xs);
       fetchall cursor) w).
  { unfold list_last_offers.
    unfold with_connection. destruct (db_io w) as [[[]|e] w1]; [|done].
    rewrite !M_bind_unfold. by rewrite execute_list_last_any. }
  assert (Hsorted : StronglySorted by_id_desc selected).
  { apply sql_limit_sorted. apply (StronglySorted_merge_sort by_id_desc). }
  assert (Hin : forall i o, (i, o) ∈ selected -> offers w !! i = Some o).
  { intros i o Hio. apply sql_limit_elem in Hio.
    unfold order_by_id_desc in Hio. rewrite merge_sort_Permutation in Hio.
    by apply elem_of_map_to_list. }
  assert (Hids : row_id <$> (search_row <$> selected)
                 = row_id <$> (recent_row <$> selected)).
  { by rewrite row_ids_search, row_ids_recent. }
  rewrite Hs, Hl, Hc. cbn [bind_params].
  destruct (bind_param 1 (PyInt limit)) as [x|e] eqn:Hb.
  - assert (x = SInt limit) as ->.
    { cbn in Hb. by destruct (_ && _); simplify_eq. }
    cbn [predicates_for no_criteria select_by].
    change (with_connection (cursor ← (lift (Ok [SInt limit]) ≫= _); fetchall cursor) w)
      with (with_connection (cursor ← (db_io;; select_rows (fun t =>
              search_row <$> sql_limit limit (order_by_id_desc
                (filter (fun r : Z * Offer => where_holds [] [SInt limit] r.2 = true) (map_to_list t))))); fetchall cursor) w) at 1.
    change (with_connection (cursor ← (lift (Ok [SInt limit]) ≫= _); fetchall cursor) w)
      with (with_connection (cursor ← (db_io;; select_rows (fun t =>
              recent_row <$> sql_limit limit (order_by_id_desc (map_to_list t)))); fetchall cursor) w).
    rewrite !with_connection_select.
    rewrite (filter_all _ (map_to_list (offers w))) by done.
    destruct (select_calls w) as [[[]|e] w'] eqn:Hcalls.
    + by exists (Ok tt), w'.
    + exists (Raise e), w'. repeat (split; [done|]). intros Hf _.
      unfold select_calls in Hcalls.
      rewrite with_connection_quiet in Hcalls by done.
      rewrite M_bind_unfold, db_io_quiet in Hcalls by done.
      rewrite db_io_quiet in Hcalls by done. discriminate.
  - assert (Hrange : int64_min <= limit <= int64_max -> False).
    { intros Hr. by rewrite bound_limit in Hb. }
    unfold with_connection. destruct (db_io w) as [[[]|e'] w1].
    + by exists (Raise e), (set_txn None w1).
    + by exists (Raise e'), w1.
Qed.


(** *** LIKE with a pattern [%...%] *)














(** *** The interpreter *)

(** C3, amended ([interpret] validates that the content is an object).
    When the service returns a content, [interpret] raises its
    [RuntimeError], carrying the reason and the content, if the content
    does not decode or decodes to a value that is not an object; an object
    is returned as decoded, whichever keys it has. *)
Theorem interpret_validates_object (w : World) (text : string)
    (content : option string) :
  openai w text = ApiContent content ->
  match json_loads content with
  | Ok (PyDict d) => interpret text w = (Ok (PyDict d), w)
  | Ok _ =>
      interpret text w = (Raise (parse_failure "JSON is not an object" content), w)
  | Raise exc =>
      interpret text w = (Raise (parse_failure (exn_msg exc) content), w)
  end.
Proof.
  intros Hc. unfold interpret, parse_content. rewrite Hc.
  destruct (json_loads content) as [v|exc]; [|reflexivity].
  destruct v; reflexivity.
Qed.

(** *** The dispatch service *)

Lemma interpret_world (text : string) (w : World) : (interpret text w).2 = w.
Proof.
  unfold interpret. destruct (openai w text); [done|].
  by destruct (parse_content content).
Qed.





(** *** The command [/offer] *)

(** C9 (the input on which [handle_offer] raises).  When the argument is
    an integer outside the 64-bit range, binding it raises
    [OverflowError]: [handle_offer] raises and sends no reply. *)
Theorem handle_offer_overflow (update : Update) (arg : string)
    (rest : list string) (n : Z) (w : World) :
  int_of_str arg = Some n -> n < int64_min \/ int64_max < n ->
  (exists e w', handle_offer update (arg :: rest) w = (Raise e, w') /\
                outbox w' = outbox w) /\
  (faults w = [] ->
   handle_offer update (arg :: rest) w = (Raise int_too_large, set_txn None w)).
Proof.
  intros Harg Hn.
  assert (Hb : bind_params 1 [PyInt n] = Raise int_too_large).
  { cbn [bind_params bind_param].
    destruct ((int64_min <=? n) && (n <=? int64_max)) eqn:Hr; [|reflexivity].
    apply andb_true_iff in Hr as [H1%Z.leb_le H2%Z.leb_le]. lia. }
  assert (Hrun : handle_offer update (arg :: rest) w =
                 match db_io w with
                 | (Ok _, w') => (Raise int_too_large, set_txn None w')
                 | (Raise e, w') => (Raise e, w')
                 end).
  { unfold handle_offer, parse_id. rewrite Harg. rewrite M_bind_unfold.
    unfold get_offer_by_id, with_connection.
    destruct (db_io w) as [[[]|e] w1]; [|reflexivity].
    rewrite M_bind_unfold. unfold execute. rewrite Hb. reflexivity. }
  split.
  - rewrite Hrun. unfold db_io.
    destruct (faults w) as [|[e|] l]; by eexists _, _.
  - intros Hf. rewrite Hrun, db_io_quiet by done. reflexivity.
Qed.

(** X2 (the replies of [/offer]).  Without an argument [handle_offer]
    sends the usage reply, and with an argument [int()] refuses the
    not-a-number reply, in both cases without a call into the database;
    for an id of 64 bits that no row has, on a database without faults, it
    sends the not-found reply; a fault of the database is raised, not
    answered. *)
Theorem handle_offer_replies (update : Update) (w : World) :
  handle_offer update [] w = (Ok tt, sent update usage_reply None w) /\
  (forall arg rest, int_of_str arg = None ->
     handle_offer update (arg :: rest) w =
       (Ok tt, sent update not_a_number_reply None w)) /\
  (forall arg rest n, int_of_str arg = Some n ->
     int64_min <= n <= int64_max -> faults w = [] -> offers w !! n = None ->
     handle_offer update (arg :: rest) w =
       (Ok tt, sent update (not_found_reply n) None (set_txn None w))) /\
  (forall arg rest n e l, int_of_str arg = Some n ->
     faults w = Some e :: l ->
     handle_offer update (arg :: rest) w = (Raise e, set_faults l w)).
Proof.
  split; [reflexivity|]. split; [|split].
  - intros arg rest Harg. unfold handle_offer, parse_id. by rewrite Harg.
  - intros arg rest n Harg Hn Hf Hrow.
    unfold handle_offer, parse_id. rewrite Harg. rewrite M_bind_unfold.
    unfold get_offer_by_id. rewrite with_connection_quiet by done.
    rewrite M_bind_unfold. erewrite execute_get_by_id; [|done|].
    2:{ cbn [bind_params]. rewrite bound_limit by exact Hn. reflexivity. }
    unfold run_get_by_id, select_rows. rewrite Hrow.
    unfold fetchone. rewrite M_bind_unfold, db_io_quiet by done.
    reflexivity.
  - intros arg rest n e l Harg Hf.
    unfold handle_offer, parse_id. rewrite Harg. rewrite M_bind_unfold.
    unfold get_offer_by_id, with_connection, db_io. rewrite Hf. reflexivity.
Qed.

(** *** Creation is all or nothing; the negative replies *)

Lemma max_key_bound (t : gmap Z Offer) (j : Z) :
  is_Some (t !! j) -> j <= max_key t.
Proof.
  intros [o Ho]. apply elem_of_map_to_list in Ho.
  unfold max_key. induction (map_to_list t) as [|[k x] l IH]; [by apply elem_of_nil in Ho|].
  apply elem_of_cons in Ho as [Ho|Ho]; cbn.
  - injection Ho as -> _. lia.
  - specialize (IH Ho). lia.
Qed.

Lemma lift_bind {A B} (o : outcome A) (f : A -> M B) (w : World) :
  (lift o ≫= f) w = match o with Ok a => f a w | Raise e => (Raise e, w) end.
Proof. by destruct o. Qed.

Lemma db_io_frame (w w' : World) (r : outcome unit) :
  db_io w = (r, w') ->
  offers w' = offers w /\ sqlite_sequence w' = sqlite_sequence w /\
  txn w' = txn w.
Proof.
  unfold db_io. destruct (faults w) as [|[e|] l]; by intros [= <- <-].
Qed.

(** Facts about the table and its counter across setters *)
Ltac frame :=
  cbn [offers sqlite_sequence txn set_txn set_offers set_faults set_ticks
       set_outbox] in *;
  repeat split; congruence.

(** X3 ([save_offer] is all or nothing).  In every world and for every
    payload, [save_offer] either raises and leaves the table and its
    counter as they were, or returns an id that is new (greater than every
    id of the table and than every id used before) and adds under it
    exactly one row, which has the raw text, the status [new] and
    [created_at] equal to [updated_at]; the other rows are as before. *)
Theorem save_offer_atomic (w : World) (parsed : pyval) (raw : string) :
  match save_offer parsed raw w with
  | (Raise e, w') =>
      offers w' = offers w /\ sqlite_sequence w' = sqlite_sequence w
  | (Ok i, w') =>
      i = next_rowid w /\
      (forall j, is_Some (offers w !! j) -> j < i) /\
      sqlite_sequence w < i /\
      sqlite_sequence w' = i /\
      exists o, offers w' = <[i := o]> (offers w) /\
                raw_text o = raw /\ status o = "new" /\
                created_at o = updated_at o
  end.
Proof.
  unfold save_offer. rewrite M_bind_unfold. cbn [utcnow_isoformat].
  set (now := clock w (ticks w)).
  unfold with_connection.
  destruct (db_io (set_ticks _ w)) as [[[]|e] w1] eqn:Hio;
    apply db_io_frame in Hio as (Ho1 & Hs1 & _); [|frame].
  destruct parsed as [|b|n|f|s|l|d];
    try (cbn [dict_get]; rewrite lift_bind; frame).
  cbn [dict_get]. rewrite !lift_bind.
  destruct (safe_float (field d "fee_percent")) as [fp|]; [|frame].
  rewrite M_bind_unfold. unfold execute. rewrite lift_bind.
  destruct (bind_params 1 _) as [xs|] eqn:Hb; [|frame].
  cbn [bind_params bind_param] in Hb.
  destruct (bind_param 2 _) as [x2|]; [|discriminate].
  destruct (bind_param 3 _) as [x3|]; [|discriminate].
  destruct (bind_param 4 _) as [x4|]; [|discriminate].
  destruct (bind_param 5 _) as [x5|]; [|discriminate].
  destruct (bind_param 6 _) as [x6|]; [|discriminate].
  destruct (bind_param 7 _) as [x7|]; [|discriminate].
  destruct (bind_param 11 _) as [x11|]; [|discriminate].
  destruct (bind_param 12 _) as [x12|]; [|discriminate].
  injection Hb as <-.
  rewrite M_bind_unfold.
  destruct (db_io w1) as [[[]|e] w2] eqn:Hio2;
    apply db_io_frame in Hio2 as (Ho2 & Hs2 & _); [|frame].
  rewrite String.eqb_refl. cbn [run_insert not_null as_text].
  rewrite !lift_bind.
  destruct (as_real x12) as [p|]; [|frame].
  unfold stage_row.
  assert (Hnext : next_rowid w2 = next_rowid w).
  { unfold next_rowid. rewrite Ho2, Hs2, Ho1, Hs1. reflexivity. }
  rewrite Hnext.
  destruct (int64_max <? next_rowid w); [frame|].
  rewrite M_bind_unfold. unfold commit.
  destruct (db_io (set_txn _ w2)) as [[[]|e] w3] eqn:Hio3;
    apply db_io_frame in Hio3 as (Ho3 & Hs3 & Ht3); [|frame].
  rewrite Ht3. cbn [txn set_txn]. cbn [mret M_ret lastrowid].
  cbn [offers sqlite_sequence set_txn set_offers].
  split; [done|]. split.
  { intros j Hj. apply max_key_bound in Hj. unfold next_rowid. lia. }
  split; [unfold next_rowid; lia|]. split; [done|].
  eexists. split.
  { rewrite Ho3. cbn [offers set_txn]. rewrite Ho2, Ho1. reflexivity. }
  done.
Qed.


(** X4 (the negative replies of [handle_text]).  When the object the
    interpreter returns has a mode that is neither offer nor search,
    [handle_text] sends the clarification reply and makes no call into the
    database; when a search returns no row it sends the nothing-found
    reply, which is not the error reply. *)
Theorem handle_text_negative_replies (update : Update) (w : World) :
  let user_text := default "" (message_text update) in
  let w0 := sent update thinking_reply None w in
  (forall data mode,
     (interpret user_text w0).1 = Ok data ->
     dict_get data "mode" = Ok mode ->
     py_eq_str mode "offer" = false -> py_eq_str mode "search" = false ->
     handle_text update w = (Ok tt, sent update unrecognized_reply None w0)) /\
  (forall data search w1,
     (interpret user_text w0).1 = Ok data ->
     dict_get data "mode" = Ok (PyStr "search") ->
     dict_get data "search" = Ok search ->
     search_offers (py_or search (PyDict ∅)) 20 w0 = (Ok [], w1) ->
     handle_text update w = (Ok tt, sent update nothing_found_reply None w1)).
Proof.
  intros user_text w0. split.
  - intros data mode Hi Hmode Ho Hs.
    unfold handle_text. rewrite M_bind_unfold.
    cbn [reply_text send_message]. fold (sent update thinking_reply None w).
    fold w0. unfold try_except, dispatch. rewrite M_bind_unfold.
    fold user_text. pose proof (interpret_world user_text w0) as Hw.
    destruct (interpret user_text w0) as [r w2]. cbn in Hi, Hw. subst.
    rewrite Hmode, M_bind_lift_ok, Ho, Hs. reflexivity.
  - intros data search w1 Hi Hmode Hsearch Hrun.
    unfold handle_text. rewrite M_bind_unfold.
    cbn [reply_text send_message]. fold (sent update thinking_reply None w).
    fold w0. unfold try_except, dispatch. rewrite M_bind_unfold.
    fold user_text. pose proof (interpret_world user_text w0) as Hw.
    destruct (interpret user_text w0) as [r w2]. cbn in Hi, Hw. subst.
    rewrite Hmode, M_bind_lift_ok. cbn [py_eq_str String.eqb Ascii.eqb Bool.eqb].
    unfold _handle_search_mode. rewrite Hsearch, M_bind_lift_ok.
    rewrite M_bind_unfold, Hrun. reflexivity.
Qed.

End Proofs.

(** ** Further properties *)

Section MoreProofs.
Context `{PyLib}.

#[local] Instance same_table_refl : Reflexive same_table.
Proof. by intros w. Qed.
#[local] Instance same_table_trans : Transitive same_table.
Proof. intros a b c [? ?] [? ?]. split; congruence. Qed.
#[local] Instance same_chat_refl : Reflexive same_chat.
Proof. by intros w. Qed.
#[local] Instance same_chat_trans : Transitive same_chat.
Proof. unfold same_chat. intros a b c ? ?. congruence. Qed.
#[local] Instance read_only_refl : Reflexive read_only.
Proof. by intros w. Qed.
#[local] Instance read_only_trans : Transitive read_only.
Proof.
  intros a b c (? & ? & ?) (? & ? & ?).
  split; [by etrans|]. split; [by etrans|congruence].
Qed.

Section Respects.
Context (R : relation World) `{!Reflexive R, !Transitive R}.

Lemma respects_bind {A B} (m : M A) (f : A -> M B) :
  respects R m -> (forall a, respects R (f a)) -> respects R (m ≫= f).
Proof.
  intros Hm Hf w. rewrite M_bind_unfold. specialize (Hm w).
  destruct (m w) as [[a|e] w']; cbn in *; [|done].
  etrans; [exact Hm|apply Hf].
Qed.

Lemma respects_ret {A} (a : A) : respects R (mret a : M A).
Proof. intros w. reflexivity. Qed.

Lemma respects_lift {A} (o : outcome A) : respects R (lift o).
Proof. intros w. reflexivity. Qed.

Lemma respects_raise {A} (e : exn) : respects R (raise e : M A).
Proof. intros w. reflexivity. Qed.

Lemma respects_try {A} (body : M A) (catches : exn -> bool)
    (handler : exn -> M A) :
  respects R body -> (forall e, respects R (handler e)) ->
  respects R (try_except body catches handler).
Proof.
  intros Hb Hh w. unfold try_except. specialize (Hb w).
  destruct (body w) as [[a|e] w']; cbn in *; [done|].
  destruct (catches e); [|done]. etrans; [exact Hb|apply Hh].
Qed.

(** What the parts of a call into the database need of [R] *)
Hypothesis R_faults : forall l w, R w (set_faults l w).
Hypothesis R_txn : forall t w, R w (set_txn t w).

Lemma respects_db_io : respects R db_io.
Proof.
  intros w. unfold db_io. destruct (faults w) as [|[e|] l]; cbn;
    [reflexivity|apply R_faults..].
Qed.

Lemma respects_with_connection {A} (body : M A) :
  respects R body -> respects R (with_connection body).
Proof.
  intros Hb w. unfold with_connection.
  pose proof (respects_db_io w) as Hio.
  destruct (db_io w) as [[[]|e] w1]; cbn in *; [|done].
  specialize (Hb w1). destruct (body w1) as [r w2]; cbn in *.
  etrans; [exact Hio|]. etrans; [exact Hb|apply R_txn].
Qed.

Lemma respects_stage_row (o : Offer) : respects R (stage_row o).
Proof.
  intros w. unfold stage_row. case_match; cbn; [reflexivity|apply R_txn].
Qed.

Lemma respects_select_rows (g : gmap Z Offer -> list (list pyval)) :
  respects R (select_rows g).
Proof. intros w. reflexivity. Qed.

Lemma respects_run_insert (xs : list sqlval) : respects R (run_insert xs).
Proof.
  unfold run_insert.
  repeat first [ apply respects_raise | apply respects_lift
               | apply respects_stage_row
               | apply respects_bind; [|intros ?]
               | case_match ].
Qed.

Lemma respects_execute (sql : string) (params : list pyval) :
  respects R (execute sql params).
Proof.
  unfold execute, run_list_last, run_get_by_id, run_search.
  repeat first [ apply respects_raise | apply respects_lift
               | apply respects_db_io | apply respects_select_rows
               | apply respects_run_insert
               | apply respects_bind; [|intros ?]
               | case_match ].
Qed.

Lemma respects_fetchall (c : Cursor) : respects R (fetchall c).
Proof.
  unfold fetchall. apply respects_bind; [apply respects_db_io|].
  intros _. apply respects_ret.
Qed.

Lemma respects_fetchone (c : Cursor) : respects R (fetchone c).
Proof.
  unfold fetchone. apply respects_bind; [apply respects_db_io|].
  intros _. apply respects_ret.
Qed.

Lemma respects_list_last_offers (limit : Z) :
  respects R (list_last_offers limit).
Proof.
  unfold list_last_offers. apply respects_with_connection.
  apply respects_bind; [apply respects_execute|]. intros c.
  apply respects_fetchall.
Qed.

Lemma respects_get_offer_by_id (offer_id : Z) :
  respects R (get_offer_by_id offer_id).
Proof.
  unfold get_offer_by_id. apply respects_with_connection.
  apply respects_bind; [apply respects_execute|]. intros c.
  apply respects_fetchone.
Qed.

Lemma respects_search_offers (filters : pyval) (limit : Z) :
  respects R (search_offers filters limit).
Proof.
  unfold search_offers. apply respects_bind; [apply respects_lift|].
  intros q. apply respects_with_connection.
  apply respects_bind; [apply respects_execute|]. intros c.
  apply respects_fetchall.
Qed.

Lemma respects_interpret (text : string) : respects R (interpret text).
Proof.
  intros w. rewrite interpret_world. reflexivity.
Qed.

End Respects.

Lemma read_only_faults (l : list (option exn)) (w : World) :
  read_only w (set_faults l w).
Proof. done. Qed.

Lemma read_only_txn (t : option (Z * Offer)) (w : World) :
  read_only w (set_txn t w).
Proof. done. Qed.

Lemma same_chat_faults (l : list (option exn)) (w : World) :
  same_chat w (set_faults l w).
Proof. done. Qed.

Lemma same_chat_txn (t : option (Z * Offer)) (w : World) :
  same_chat w (set_txn t w).
Proof. done. Qed.

(** X5 (the reads change nothing).  In every world, whatever the
    arguments and whatever faults are due, [list_last_offers],
    [get_offer_by_id] and [search_offers] leave the table, its counter, the
    chat and the clock as they were: they use up faults and close the
    connection, nothing else. *)
Theorem reads_change_nothing (w : World) (limit offer_id : Z) (filters : pyval) :
  read_only w (list_last_offers limit w).2 /\
  read_only w (get_offer_by_id offer_id w).2 /\
  read_only w (search_offers filters limit w).2.
Proof.
  split; [|split].
  - apply (respects_list_last_offers read_only read_only_faults read_only_txn).
  - apply (respects_get_offer_by_id read_only read_only_faults read_only_txn).
  - apply (respects_search_offers read_only read_only_faults read_only_txn).
Qed.

Lemma same_chat_commit : respects same_chat commit.
Proof.
  intros w. unfold commit.
  pose proof (respects_db_io same_chat same_chat_faults w) as Hio.
  destruct (db_io w) as [[[]|e] w1]; cbn in *; [|done].
  destruct (txn w1) as [[i o]|]; cbn; [|done]. exact Hio.
Qed.

Lemma same_chat_save_offer (parsed : pyval) (raw : string) :
  respects same_chat (save_offer parsed raw).
Proof.
  unfold save_offer.
  apply respects_bind; [apply _|by intros w|]. intros now.
  apply respects_with_connection;
    [apply _|apply _|apply same_chat_faults|apply same_chat_txn|].
  repeat first [ apply respects_lift; apply _
               | apply (respects_execute same_chat same_chat_faults same_chat_txn)
               | apply same_chat_commit
               | apply respects_ret; apply _
               | apply respects_bind; [apply _| |intros ?] ].
Qed.


(** *** One reply for a command, two for a text *)

Lemma replies_once_bind {A B} (update : Update) (m : M A) (f : A -> M B) :
  respects same_chat m -> (forall a, replies_once update (f a)) ->
  replies_once update (m ≫= f).
Proof.
  intros Hm Hf w. rewrite M_bind_unfold. specialize (Hm w).
  destruct (m w) as [[a|e] w']; cbn in *; [|done].
  specialize (Hf a w'). destruct (f a w') as [[b|e] w'']; by rewrite <- Hm.
Qed.

Lemma replies_once_send (update : Update) (text : string)
    (parse_mode : option string) :
  replies_once update (send_message (effective_chat_id update) text parse_mode).
Proof. intros w. cbn. by eexists _, _. Qed.

Lemma replies_once_reply (update : Update) (text : string)
    (parse_mode : option string) :
  replies_once update (reply_text update text parse_mode).
Proof. apply replies_once_send. Qed.

Lemma replies_once_raise {A} (update : Update) (e : exn) :
  replies_once update (raise e : M A).
Proof. by intros w. Qed.

Lemma same_chat_lift {A} (o : outcome A) : respects same_chat (lift o).
Proof. by apply respects_lift, _. Qed.

Lemma same_chat_search_offers (filters : pyval) (limit : Z) :
  respects same_chat (search_offers filters limit).
Proof.
  apply respects_search_offers; try apply _;
    [apply same_chat_faults|apply same_chat_txn].
Qed.

Lemma replies_once_offer_mode (update : Update) (data : pyval) (text : string) :
  replies_once update (_handle_offer_mode data text (effective_chat_id update)).
Proof.
  unfold _handle_offer_mode.
  repeat first [ apply replies_once_send
               | apply replies_once_bind;
                 [first [apply same_chat_lift|apply same_chat_save_offer]
                 |intros ?] ].
Qed.

Lemma replies_once_search_mode (update : Update) (data : pyval) :
  replies_once update (_handle_search_mode data update).
Proof.
  unfold _handle_search_mode.
  apply replies_once_bind; [apply same_chat_lift|]. intros search.
  apply replies_once_bind; [apply same_chat_search_offers|]. intros rows.
  destruct rows; [apply replies_once_reply|].
  apply replies_once_bind; [apply same_chat_lift|]. intros found.
  apply replies_once_reply.
Qed.

Lemma replies_once_dispatch (update : Update) :
  replies_once update (dispatch update).
Proof.
  unfold dispatch.
  apply replies_once_bind; [apply respects_interpret, _|]. intros data.
  apply replies_once_bind; [apply same_chat_lift|]. intros mode.
  repeat case_match;
    [apply replies_once_offer_mode|apply replies_once_search_mode
    |apply replies_once_reply].
Qed.

Lemma replies_once_handle_offers (update : Update) :
  replies_once update (handle_offers update).
Proof.
  unfold handle_offers.
  apply replies_once_bind.
  { apply respects_list_last_offers; try apply _;
      [apply same_chat_faults|apply same_chat_txn]. }
  intros rows. destruct rows; [apply replies_once_reply|].
  apply replies_once_bind; [apply same_chat_lift|]. intros shown.
  apply replies_once_reply.
Qed.

Lemma replies_once_handle_offer (update : Update) (args : list string) :
  replies_once update (handle_offer update args).
Proof.
  unfold handle_offer. destruct args as [|arg rest]; [apply replies_once_reply|].
  destruct (parse_id arg) as [offer_id|e].
  2:{ case_match; [apply replies_once_reply|apply replies_once_raise]. }
  apply replies_once_bind.
  { apply respects_get_offer_by_id; try apply _;
      [apply same_chat_faults|apply same_chat_txn]. }
  intros [[|v row]|]; try apply replies_once_reply.
  apply replies_once_bind; [apply same_chat_lift|]. intros card.
  apply replies_once_reply.
Qed.

(** X6 (one reply for a command, two for a text).  [handle_start],
    [handle_version], [handle_offers] and [handle_offer] have sent exactly
    one message, to the chat of the update, when they return, and none
    when they raise; [handle_text] always returns and has sent exactly
    two: the notice that it is thinking, then one reply. *)
Theorem handlers_reply_once (self : BotService) (update : Update)
    (args : list string) (w : World) :
  replies_once update (handle_start update) /\
  replies_once update (handle_version self update) /\
  replies_once update (handle_offers update) /\
  replies_once update (handle_offer update args) /\
  exists text parse_mode w',
    handle_text update w = (Ok tt, w') /\
    outbox w' =
      [{| msg_chat := effective_chat_id update; msg_text := text;
          msg_parse_mode := parse_mode |};
       {| msg_chat := effective_chat_id update; msg_text := thinking_reply;
          msg_parse_mode := None |}] ++ outbox w.
Proof.
  split; [apply replies_once_reply|]. split; [apply replies_once_reply|].
  split; [apply replies_once_handle_offers|].
  split; [apply replies_once_handle_offer|].
  unfold handle_text. rewrite M_bind_unfold. cbn [reply_text send_message].
  fold (sent update thinking_reply None w). unfold try_except.
  pose proof (replies_once_dispatch update (sent update thinking_reply None w))
    as Hd.
  destruct (dispatch update _) as [[[]|e] w1].
  - destruct Hd as (text & pm & Hd). exists text, pm, w1. split; [done|].
    rewrite Hd. reflexivity.
  - cbn [any_Exception send_message]. eexists _, _, _. split; [reflexivity|].
    cbn [outbox set_outbox]. by rewrite Hd.
Qed.


(** *** What a text does to the table *)

(** Facts about the table and its counter across setters *)
Ltac framed :=
  cbn [offers sqlite_sequence txn set_txn set_offers set_faults set_ticks
       set_outbox] in *;
  repeat split; congruence.

Lemma save_offer_effect (w : World) (parsed : pyval) (raw : string) :
  match save_offer parsed raw w with
  | (Raise e, w') => same_table w w'
  | (Ok i, w') => i = next_rowid w /\ inserted raw w w'
  end.
Proof.
  unfold same_table, inserted.
  unfold save_offer. rewrite M_bind_unfold. cbn [utcnow_isoformat].
  set (now := clock w (ticks w)).
  unfold with_connection.
  destruct (db_io (set_ticks _ w)) as [[[]|e] w1] eqn:Hio;
    apply db_io_frame in Hio as (Ho1 & Hs1 & _); [|framed].
  destruct parsed as [|b|n|f|s|l|d];
    try (cbn [dict_get]; rewrite lift_bind; framed).
  cbn [dict_get]. rewrite !lift_bind.
  destruct (safe_float (field d "fee_percent")) as [fp|]; [|framed].
  rewrite M_bind_unfold. unfold execute. rewrite lift_bind.
  destruct (bind_params 1 _) as [xs|] eqn:Hb; [|framed].
  cbn [bind_params bind_param] in Hb.
  destruct (bind_param 2 _) as [x2|]; [|discriminate].
  destruct (bind_param 3 _) as [x3|]; [|discriminate].
  destruct (bind_param 4 _) as [x4|]; [|discriminate].
  destruct (bind_param 5 _) as [x5|]; [|discriminate].
  destruct (bind_param 6 _) as [x6|]; [|discriminate].
  destruct (bind_param 7 _) as [x7|]; [|discriminate].
  destruct (bind_param 11 _) as [x11|]; [|discriminate].
  destruct (bind_param 12 _) as [x12|]; [|discriminate].
  injection Hb as <-.
  rewrite M_bind_unfold.
  destruct (db_io w1) as [[[]|e] w2] eqn:Hio2;
    apply db_io_frame in Hio2 as (Ho2 & Hs2 & _); [|framed].
  rewrite String.eqb_refl. cbn [run_insert not_null as_text].
  rewrite !lift_bind.
  destruct (as_real x12) as [p|]; [|framed].
  unfold stage_row.
  assert (Hnext : next_rowid w2 = next_rowid w).
  { unfold next_rowid. rewrite Ho2, Hs2, Ho1, Hs1. reflexivity. }
  rewrite Hnext.
  destruct (int64_max <? next_rowid w); [framed|].
  rewrite M_bind_unfold. unfold commit.
  destruct (db_io (set_txn _ w2)) as [[[]|e] w3] eqn:Hio3;
    apply db_io_frame in Hio3 as (Ho3 & Hs3 & Ht3); [|framed].
  rewrite Ht3. cbn [txn set_txn]. cbn [mret M_ret lastrowid].
  cbn [offers sqlite_sequence set_txn set_offers].
  split; [done|]. eexists. split.
  { rewrite Ho3. cbn [offers set_txn]. rewrite Ho2, Ho1. reflexivity. }
  split.
  { destruct (offers w !! next_rowid w) eqn:Hl; [|done].
    assert (Hj : is_Some (offers w !! next_rowid w)) by done.
    apply max_key_bound in Hj. unfold next_rowid in Hj. lia. }
  done.
Qed.


Lemma inserted_before (raw : string) (w w1 w2 : World) :
  inserted raw w w1 -> same_table w1 w2 -> inserted raw w w2.
Proof.
  intros (o & Ho & Hn & Hr & Hs & Hq) [Ho2 Hs2]. exists o.
  rewrite Ho2, Hs2. done.
Qed.

Lemma inserted_after (raw : string) (w w1 w2 : World) :
  same_table w w1 -> inserted raw w1 w2 -> inserted raw w w2.
Proof.
  intros [Ho1 Hs1] (o & Ho & Hn & Hr & Hs & Hq).
  assert (Hnext : next_rowid w1 = next_rowid w).
  { unfold next_rowid. by rewrite Ho1, Hs1. }
  exists o. rewrite <- Hnext, <- Ho1. done.
Qed.

Lemma grew_before (raw : string) (w w1 w2 : World) :
  grew raw w w1 -> same_table w1 w2 -> grew raw w w2.
Proof.
  intros [Hs|Hi] H2; [left; by etrans|right; by eapply inserted_before].
Qed.

Lemma grew_after (raw : string) (w w1 w2 : World) :
  same_table w w1 -> grew raw w1 w2 -> grew raw w w2.
Proof.
  intros H1 [Hs|Hi]; [left; by etrans|right; by eapply inserted_after].
Qed.

Lemma same_table_send (chat_id : Z) (text : string) (parse_mode : option string) :
  respects same_table (send_message chat_id text parse_mode).
Proof. by intros w. Qed.

Lemma same_table_search_offers (filters : pyval) (limit : Z) :
  respects same_table (search_offers filters limit).
Proof. by apply respects_search_offers; try apply _. Qed.

Lemma offer_mode_grew (data : pyval) (text : string) (chat_id : Z) :
  respects (grew text) (_handle_offer_mode data text chat_id).
Proof.
  intros w. unfold _handle_offer_mode. rewrite lift_bind.
  destruct (dict_get data "offer") as [offer|e]; [|by left].
  rewrite M_bind_unfold.
  pose proof (save_offer_effect w (py_or offer (PyDict ∅)) text) as Hs.
  destruct (save_offer _ text w) as [[i|e] w1]; [|by left].
  destruct Hs as [_ Hs]. eapply grew_before; [by right|].
  refine ((_ : respects same_table _) w1).
  repeat first [ apply same_table_send | apply respects_lift; apply _
               | apply respects_bind; [apply _| |intros ?] ].
Qed.

Lemma search_mode_same_table (data : pyval) (update : Update) :
  respects same_table (_handle_search_mode data update).
Proof.
  unfold _handle_search_mode.
  apply respects_bind; [apply _|apply respects_lift, _|]. intros search.
  apply respects_bind; [apply _|apply same_table_search_offers|]. intros rows.
  destruct rows; [apply same_table_send|].
  apply respects_bind; [apply _|apply respects_lift, _|]. intros found.
  apply same_table_send.
Qed.

Lemma py_eq_str_inv (v : pyval) (s : string) :
  py_eq_str v s = true -> v = PyStr s.
Proof.
  destruct v; try done. cbn. by intros ->%String.eqb_eq.
Qed.

Lemma handle_text_dispatch (update : Update) (w : World) :
  let w0 := sent update thinking_reply None w in
  (handle_text update w).1 = Ok tt /\
  same_table (dispatch update w0).2 (handle_text update w).2 /\
  same_table w w0.
Proof.
  intros w0. unfold handle_text. rewrite M_bind_unfold.
  cbn [reply_text send_message]. fold (sent update thinking_reply None w).
  fold w0. unfold try_except.
  destruct (dispatch update w0) as [[[]|e] w1]; done.
Qed.

(** X7 (a text writes at most one row, and only as an offer).  In every
    world [handle_text] leaves the table and its counter as they were, or
    adds exactly one row, under the next key, with the text of the message
    as raw text and the status [new].  The table is as it was whenever the
    interpreter raises, the object it returns has a mode other than
    [offer], or reading the mode raises. *)
Theorem handle_text_store (update : Update) (w : World) :
  let user_text := default "" (message_text update) in
  let w0 := sent update thinking_reply None w in
  let w' := (handle_text update w).2 in
  (same_table w w' \/ inserted user_text w w') /\
  (forall e, (interpret user_text w0).1 = Raise e -> same_table w w') /\
  (forall data mode,
     (interpret user_text w0).1 = Ok data -> dict_get data "mode" = Ok mode ->
     mode <> PyStr "offer" -> same_table w w') /\
  (forall data e,
     (interpret user_text w0).1 = Ok data -> dict_get data "mode" = Raise e ->
     same_table w w').
Proof.
  intros user_text w0 w'.
  destruct (handle_text_dispatch update w) as (_ & Hd & H0).
  fold w0 w' in Hd, H0.
  assert (Hdisp : forall w1,
    (dispatch update w0).2 = w1 ->
    match (interpret user_text w0).1 with
    | Raise _ => same_table w0 w1
    | Ok data =>
        match dict_get data "mode" with
        | Raise _ => same_table w0 w1
        | Ok mode =>
            if py_eq_str mode "offer" then grew user_text w0 w1
            else same_table w0 w1
        end
    end).
  { intros w1 <-. unfold dispatch. fold user_text. rewrite M_bind_unfold.
    pose proof (interpret_world user_text w0) as Hw.
    destruct (interpret user_text w0) as [[data|e] w2]; cbn in Hw; subst w2;
      cbn [fst]; [|done].
    rewrite lift_bind. destruct (dict_get data "mode") as [mode|e]; [|done].
    destruct (py_eq_str mode "offer").
    - apply offer_mode_grew.
    - destruct (py_eq_str mode "search");
        [apply search_mode_same_table|done]. }
  specialize (Hdisp _ eq_refl).
  split; [|split; [|split]].
  - destruct (interpret user_text w0).1 as [data|e].
    + destruct (dict_get data "mode") as [mode|e].
      * destruct (py_eq_str mode "offer").
        -- eapply grew_before; [|exact Hd]. eapply grew_after; [exact H0|done].
        -- left. etrans; [exact H0|]. by etrans.
      * left. etrans; [exact H0|]. by etrans.
    + left. etrans; [exact H0|]. by etrans.
  - intros e He. rewrite He in Hdisp. etrans; [exact H0|]. by etrans.
  - intros data mode Hi Hm Hne. rewrite Hi, Hm in Hdisp.
    destruct (py_eq_str mode "offer") eqn:Ho.
    + by apply py_eq_str_inv in Ho.
    + etrans; [exact H0|]. by etrans.
  - intros data e Hi Hm. rewrite Hi, Hm in Hdisp.
    etrans; [exact H0|]. by etrans.
Qed.


(** *** What the reads return *)

Lemma with_connection_ext {A} (b1 b2 : M A) (w : World) :
  (forall w', b1 w' = b2 w') -> with_connection b1 w = with_connection b2 w.
Proof.
  intros Hb. unfold with_connection. destruct (db_io w) as [[[]|e] w1]; [|done].
  by rewrite Hb.
Qed.

Lemma bind_params_snoc (vs : list pyval) (v : pyval) (xs : list sqlval) (i : nat) :
  bind_params i (vs ++ [v]) = Ok xs ->
  exists xs0 x, xs = xs0 ++ [x] /\ bind_params i vs = Ok xs0 /\
                bind_param (i + length vs) v = Ok x.
Proof.
  revert i xs. induction vs as [|u vs IH]; intros i xs; cbn [app bind_params].
  - destruct (bind_param i v) as [x|] eqn:Hx; [|done]. intros [= <-].
    exists [], x. by rewrite Nat.add_0_r.
  - destruct (bind_param i u) as [y|]; [|done].
    destruct (bind_params (S i) (vs ++ [v])) as [ys|] eqn:Hys; [|done].
    intros [= <-]. destruct (IH _ _ Hys) as (xs0 & x & -> & -> & Hx).
    exists (y :: xs0), x. repeat split. cbn [length].
    by rewrite Nat.add_succ_r.
Qed.

Lemma bind_param_int (i : nat) (n : Z) (x : sqlval) :
  bind_param i (PyInt n) = Ok x -> x = SInt n /\ int64_min <= n <= int64_max.
Proof.
  cbn. destruct (int64_min <=? n) eqn:H1, (n <=? int64_max) eqn:H2;
    cbn; try done. intros [= <-]. split; [done|lia].
Qed.

Lemma search_offers_query_last (d : gmap string pyval) (limit : Z) (q : string)
    (p : list pyval) :
  search_offers_query (PyDict d) limit = Ok (q, p) ->
  exists p0, p = p0 ++ [PyInt limit].
Proof.
  rewrite search_offers_query_clauses.
  repeat (case_match; [|done]). intros [= _ <-]. by eexists.
Qed.

Lemma list_last_offers_inv (limit : Z) (w w1 : World) (rows : list (list pyval)) :
  list_last_offers limit w = (Ok rows, w1) ->
  int64_min <= limit <= int64_max /\
  rows = recent_row <$>
           sql_limit limit (order_by_id_desc (map_to_list (offers w))).
Proof.
  unfold list_last_offers.
  destruct (bind_param 1 (PyInt limit)) as [x|e] eqn:Hb.
  - apply bind_param_int in Hb as [-> Hr].
    rewrite (with_connection_ext _
      (cursor ← (db_io;; select_rows (fun t =>
         recent_row <$> sql_limit limit (order_by_id_desc (map_to_list t))));
       fetchall cursor)).
    2:{ intros w'. rewrite !(M_bind_unfold (execute _ _)).
        rewrite execute_list_last_any. cbn [bind_params].
        rewrite bound_limit by done. reflexivity. }
    rewrite with_connection_select.
    destruct (select_calls w) as [[[]|e] w']; [|done]. by intros [= <- <-].
  - unfold with_connection. destruct (db_io w) as [[[]|e'] w']; [|done].
    rewrite M_bind_unfold, execute_list_last_any. cbn [bind_params].
    rewrite Hb. done.
Qed.

Lemma search_offers_inv (filters : pyval) (limit : Z) (w w1 : World)
    (rows : list (list pyval)) :
  search_offers filters limit w = (Ok rows, w1) ->
  exists d xs,
    filters = PyDict d /\ int64_min <= limit <= int64_max /\
    rows = search_row <$>
      sql_limit limit
        (order_by_id_desc
           (filter (fun r => where_holds (predicates_for (criteria d)) xs r.2
                             = true)
                   (map_to_list (offers w)))).
Proof.
  destruct filters as [|b|n|f|s|l|d]; try done. intros Hs. exists d.
  destruct (search_offers_query (PyDict d) limit) as [[q p]|e] eqn:Hq.
  2:{ by rewrite (search_offers_query_raises _ _ _ _ Hq) in Hs. }
  destruct (search_offers_query_shape _ _ _ _ Hq) as [-> Hlen].
  destruct (search_offers_query_last _ _ _ _ Hq) as [p0 ->].
  unfold search_offers in Hs. rewrite Hq, M_bind_lift_ok in Hs. cbn [fst snd] in Hs.
  destruct (bind_params 1 (p0 ++ [PyInt limit])) as [xs|e] eqn:Hb.
  2:{ unfold with_connection in Hs. destruct (db_io w) as [[[]|e'] w']; [|done].
      rewrite M_bind_unfold, execute_search_any, lift_bind, Hb in Hs. done. }
  exists xs.
  destruct (bind_params_snoc _ _ _ _ Hb) as (xs0 & x & -> & Hb0 & Hx).
  apply bind_param_int in Hx as [-> Hr].
  rewrite (with_connection_ext _
    (cursor ← (db_io;; select_rows (fun t =>
       search_row <$> sql_limit limit (order_by_id_desc
         (filter (fun r : Z * Offer =>
                    where_holds (predicates_for (criteria d))
                                (xs0 ++ [SInt limit]) r.2 = true)
                 (map_to_list t)))));
     fetchall cursor)) in Hs.
  2:{ intros w'. rewrite !(M_bind_unfold (execute _ _)).
      rewrite execute_search_any, lift_bind, Hb.
      rewrite !M_bind_unfold.
      destruct (db_io w') as [[[]|e] w2]; [|done].
      unfold run_search.
      apply bind_params_length in Hb. rewrite Hb, Hlen.
      rewrite bool_decide_eq_true_2 by done.
      rewrite last_snoc. reflexivity. }
  rewrite with_connection_select in Hs.
  destruct (select_calls w) as [[[]|e] w']; [|done].
  by injection Hs as <- <-.
Qed.

#[local] Instance id_desc_total : Total by_id_desc.
Proof. intros x y. unfold by_id_desc. lia. Qed.

#[local] Instance id_desc_trans : Transitive by_id_desc.
Proof. intros x y z. unfold by_id_desc. lia. Qed.

Lemma order_by_id_desc_newest_first (l : list (Z * Offer)) :
  NoDup l.*1 -> newest_first (order_by_id_desc l).
Proof.
  intros Hnd. unfold newest_first, order_by_id_desc.
  assert (Hnd' : NoDup (merge_sort by_id_desc l).*1).
  { by rewrite merge_sort_Permutation. }
  pose proof (StronglySorted_merge_sort by_id_desc l) as Hs.
  induction Hs as [|x l' Hs IH Hx]; [constructor|].
  cbn in Hnd'. apply NoDup_cons in Hnd' as [Hnx Hnd'].
  constructor; [by apply IH|].
  apply Forall_forall. intros y Hy.
  rewrite Forall_forall in Hx. specialize (Hx y Hy). unfold by_id_desc in Hx.
  assert (y.1 <> x.1).
  { intros Heq. apply Hnx. rewrite <- Heq. by apply list_elem_of_fmap_2. }
  lia.
Qed.

Lemma selection_newest_first (t : gmap Z Offer) (P : Z * Offer -> Prop)
    `{!forall r, Decision (P r)} (n : Z) :
  newest_first (sql_limit n (order_by_id_desc (filter P (map_to_list t)))).
Proof.
  apply sql_limit_sorted, order_by_id_desc_newest_first.
  eapply sublist_NoDup; [apply (NoDup_fst_map_to_list t)|].
  apply fmap_sublist, sublist_filter.
Qed.

Lemma sql_limit_length {A} (n : Z) (l : list A) :
  0 <= n -> Z.of_nat (length (sql_limit n l)) <= n.
Proof.
  intros Hn. unfold sql_limit. destruct (n <? 0) eqn:Hlt; [lia|].
  rewrite length_take. lia.
Qed.

(** X8 (what the reads return).  Whenever [list_last_offers] or
    [search_offers] returns, whatever the filter and the faults, its rows
    are the projection of rows of the table, their ids strictly descending
    (so none twice), and at most [limit] of them when [limit] is not
    negative. *)
Theorem reads_return_rows (w w1 : World) (limit : Z) (filters : pyval)
    (rows : list (list pyval)) :
  (list_last_offers limit w = (Ok rows, w1) ->
   exists l, rows = recent_row <$> l /\ newest_first l /\
             (forall i o, (i, o) ∈ l -> offers w !! i = Some o) /\
             (0 <= limit -> Z.of_nat (length rows) <= limit)) /\
  (search_offers filters limit w = (Ok rows, w1) ->
   exists l, rows = search_row <$> l /\ newest_first l /\
             (forall i o, (i, o) ∈ l -> offers w !! i = Some o) /\
             (0 <= limit -> Z.of_nat (length rows) <= limit)).
Proof.
  split.
  - intros [_ ->]%list_last_offers_inv. eexists. split; [reflexivity|].
    split; [|split].
    + rewrite <- (filter_all (fun _ => True) (map_to_list (offers w))) by done.
      apply selection_newest_first.
    + intros i o Hio. apply sql_limit_elem in Hio.
      unfold order_by_id_desc in Hio. rewrite merge_sort_Permutation in Hio.
      by apply elem_of_map_to_list.
    + intros Hn. rewrite length_fmap. by apply sql_limit_length.
  - intros (d & xs & -> & _ & ->)%search_offers_inv.
    eexists. split; [reflexivity|]. split; [|split].
    + apply selection_newest_first.
    + intros i o Hio. apply sql_limit_elem in Hio.
      by apply selection_elem in Hio as [Hio _].
    + intros Hn. rewrite length_fmap. by apply sql_limit_length.
Qed.


(** *** The listings and the card *)

Lemma select_calls_quiet (w : World) :
  faults w = [] -> select_calls w = (Ok tt, set_txn None w).
Proof.
  intros Hf. unfold select_calls. rewrite with_connection_quiet by done.
  rewrite M_bind_unfold, db_io_quiet by done. by rewrite db_io_quiet.
Qed.

Lemma list_last_offers_run (limit : Z) (w : World) :
  faults w = [] -> int64_min <= limit <= int64_max ->
  list_last_offers limit w =
    (Ok (recent_row <$>
           sql_limit limit (order_by_id_desc (map_to_list (offers w)))),
     set_txn None w).
Proof.
  intros Hf Hr. unfold list_last_offers.
  rewrite (with_connection_ext _
    (cursor ← (db_io;; select_rows (fun t =>
       recent_row <$> sql_limit limit (order_by_id_desc (map_to_list t))));
     fetchall cursor)).
  2:{ intros w'. rewrite !(M_bind_unfold (execute _ _)).
      rewrite execute_list_last_any. cbn [bind_params].
      rewrite bound_limit by done. reflexivity. }
  by rewrite with_connection_select, select_calls_quiet.
Qed.

Lemma get_offer_by_id_run (i : Z) (w : World) :
  faults w = [] -> int64_min <= i <= int64_max ->
  get_offer_by_id i w =
    (Ok ((fun o => full_row (i, o)) <$> offers w !! i), set_txn None w).
Proof.
  intros Hf Hr. unfold get_offer_by_id. rewrite with_connection_quiet by done.
  rewrite M_bind_unfold.
  rewrite (execute_get_by_id _ [SInt i]) by (done || (cbn [bind_params]; by rewrite bound_limit)).
  cbn [run_get_by_id select_rows]. unfold fetchone. rewrite M_bind_unfold.
  rewrite db_io_quiet by done. cbn [result_rows mret M_ret].
  by destruct (offers w !! i).
Qed.

Lemma recent_lines (l : list (Z * Offer)) :
  map_outcome recent_line (recent_row <$> l) = Ok (line_of <$> l).
Proof.
  induction l as [|[i o] l IH]; [done|]. cbn [fmap list_fmap map_outcome].
  change (list_fmap _ _ recent_row l) with (recent_row <$> l).
  by rewrite IH.
Qed.

Lemma search_lines (l : list (Z * Offer)) :
  map_outcome search_line (search_row <$> l) = Ok (line_of <$> l).
Proof.
  induction l as [|[i o] l IH]; [done|]. cbn [fmap list_fmap map_outcome].
  change (list_fmap _ _ search_row l) with (search_row <$> l).
  by rewrite IH.
Qed.

(** X9 (the listing of /offers).  On a database without faults
    [handle_offers] replies with the no-offers text when the table is
    empty, and else, in Markdown, with the heading, an empty line and one
    line for each of the [min 10 size] rows of largest id, the largest
    first; a line shows the id, kind, country, method, fee, rate and status
    of the row it stands for. *)
Theorem handle_offers_listing (update : Update) (w : World) :
  faults w = [] ->
  let l := sql_limit 10 (order_by_id_desc (map_to_list (offers w))) in
  handle_offers update w =
    (Ok tt,
     match l with
     | [] => sent update no_offers_reply None (set_txn None w)
     | _ => sent update
              (String.concat nl ([recent_heading; ""] ++ (line_of <$> l)))
              Markdown (set_txn None w)
     end) /\
  length l = (10 `min` size (offers w))%nat /\
  newest_first l /\
  (forall i o, (i, o) ∈ l -> offers w !! i = Some o).
Proof.
  intros Hf l. split; [|split; [|split]].
  - unfold handle_offers. rewrite M_bind_unfold.
    rewrite list_last_offers_run by done. fold l.
    destruct l as [|r l']; [done|].
    change (recent_row <$> r :: l') with (recent_row r :: (recent_row <$> l')).
    cbv iota. change (recent_row r :: (recent_row <$> l'))
      with (recent_row <$> r :: l').
    rewrite recent_lines, M_bind_lift_ok. reflexivity.
  - unfold l, sql_limit, order_by_id_desc. cbn [Z.ltb Z.compare].
    rewrite length_take, merge_sort_Permutation, length_map_to_list.
    reflexivity.
  - unfold l.
    rewrite <- (filter_all (fun _ => True) (map_to_list (offers w))) by done.
    apply selection_newest_first.
  - intros i o Hio. apply sql_limit_elem in Hio.
    unfold order_by_id_desc in Hio. rewrite merge_sort_Permutation in Hio.
    by apply elem_of_map_to_list.
Qed.

(** X10 (the card of /offer).  On a database without faults, for an
    argument that [int()] reads as an id of 64 bits under which the table
    has a row, [handle_offer] replies in Markdown with the card of that
    row: every label is followed by the column it names, and the raw text
    comes last. *)
Theorem handle_offer_card (update : Update) (arg : string)
    (rest : list string) (n : Z) (o : Offer) (w : World) :
  faults w = [] -> int_of_str arg = Some n ->
  int64_min <= n <= int64_max -> offers w !! n = Some o ->
  handle_offer update (arg :: rest) w =
    (Ok tt, sent update (card_of (n, o)) Markdown (set_txn None w)).
Proof.
  intros Hf Harg Hr Hn. unfold handle_offer, parse_id. rewrite Harg.
  rewrite M_bind_unfold, get_offer_by_id_run by done. rewrite Hn.
  reflexivity.
Qed.

(** X11 (the listing of a search).  When the interpreter returns the mode
    [search] and [search_offers] returns rows, [handle_text] replies in
    Markdown with the heading, an empty line and one line for each row
    returned, in the same order; the rows are at most 20 rows of the
    table, the largest id first, and unpacking them never fails. *)
Theorem search_mode_listing (update : Update) (w w1 : World) (data search : pyval)
    (rows : list (list pyval)) :
  let user_text := default "" (message_text update) in
  let w0 := sent update thinking_reply None w in
  (interpret user_text w0).1 = Ok data ->
  dict_get data "mode" = Ok (PyStr "search") ->
  dict_get data "search" = Ok search ->
  search_offers (py_or search (PyDict ∅)) 20 w0 = (Ok rows, w1) ->
  rows <> [] ->
  exists l,
    rows = search_row <$> l /\
    handle_text update w =
      (Ok tt, sent update
                (String.concat nl ([found_heading; ""] ++ (line_of <$> l)))
                Markdown w1) /\
    (length l <= 20)%nat /\ newest_first l /\
    (forall i o, (i, o) ∈ l -> offers w !! i = Some o).
Proof.
  intros user_text w0 Hi Hmode Hsearch Hrun Hne.
  destruct (search_offers_inv _ _ _ _ _ Hrun) as (d & xs & Hd & _ & Hrows).
  eexists. split; [exact Hrows|]. split; [|split; [|split]].
  - unfold handle_text. rewrite M_bind_unfold.
    cbn [reply_text send_message]. fold (sent update thinking_reply None w).
    fold w0. unfold try_except, dispatch. rewrite M_bind_unfold.
    fold user_text. pose proof (interpret_world user_text w0) as Hw.
    destruct (interpret user_text w0) as [r w2]. cbn in Hi, Hw. subst r w2.
    rewrite Hmode, M_bind_lift_ok. cbn [py_eq_str String.eqb Ascii.eqb Bool.eqb].
    unfold _handle_search_mode. rewrite Hsearch, M_bind_lift_ok.
    rewrite M_bind_unfold, Hrun.
    destruct rows as [|row rows']; [done|].
    rewrite Hrows, search_lines, M_bind_lift_ok. reflexivity.
  - pose proof (sql_limit_length 20
      (order_by_id_desc
         (filter (fun r : Z * Offer =>
                    where_holds (predicates_for (criteria d)) xs r.2 = true)
                 (map_to_list (offers w0)))) ltac:(lia)). lia.
  - apply selection_newest_first.
  - intros i o Hio. apply sql_limit_elem in Hio.
    by apply selection_elem in Hio as [Hio _].
Qed.


(** *** Creation, then the reads *)

Lemma stored_text_inv (v : pyval) :
  text_or_absent v -> v = opt_text (stored_text v).
Proof. by destruct v. Qed.

Lemma stored_real_inv (v : pyval) :
  number_or_absent v ->
  v = opt_real (stored_real v) /\ kept_real (stored_real v) = stored_real v.
Proof.
  destruct v as [| | |f| | |]; try done. intros [Hn Hz]. split; [done|].
  cbn. rewrite Hn. cbn. unfold plus_zero. by destruct f as [[]| | |].
Qed.

(** [save_offer] of a well-typed payload on a database without faults *)
Lemma save_offer_run (w : World) (d : gmap string pyval) (raw : string) :
  faults w = [] -> next_rowid w <= int64_max -> well_typed_offer d ->
  exists w1,
    save_offer (PyDict d) raw w = (Ok (next_rowid w), w1) /\
    offers w1 =
      <[next_rowid w := stored_row d raw (clock w (ticks w))]> (offers w) /\
    sqlite_sequence w1 = next_rowid w /\
    faults w1 = [] /\ outbox w1 = outbox w /\ openai w1 = openai w.
Proof.
  intros Hf Hid (Hc & Hm & Hfe & Hr & Hl & Hcd & Hk & Hp).
  apply stored_text_inv in Hc, Hm, Hfe, Hr, Hl, Hcd, Hk.
  apply stored_real_inv in Hp as [Hp Hkept].
  pose proof (next_rowid_positive w) as Hpos.
  set (now := clock w (ticks w)).
  set (w0 := set_ticks (S (ticks w)) w).
  set (i := next_rowid w).
  exists (set_txn None (set_txn None
            (set_offers (<[i := stored_row d raw now]> (offers w)) i w0))).
  split; [|done].
  unfold save_offer. rewrite M_bind_unfold. cbn [utcnow_isoformat].
  fold now w0. rewrite with_connection_quiet by done.
  cbn [dict_get]. rewrite !M_bind_lift_ok.
  rewrite Hp, safe_float_real, M_bind_lift_ok.
  rewrite Hc, Hm, Hfe, Hr, Hl, Hcd, Hk.
  rewrite M_bind_unfold.
  erewrite execute_insert; [|done|].
  2:{ cbn [bind_params]. rewrite !bind_param_text, bind_param_real_nan.
      cbn [bind_param]. reflexivity. }
  cbn [run_insert]. cbn [as_text not_null]. rewrite !M_bind_lift_ok.
  rewrite as_real_real, M_bind_lift_ok, !as_text_text.
  unfold stage_row. change (next_rowid w0) with i.
  destruct (int64_max <? i) eqn:Hlt; [apply Z.ltb_lt in Hlt; unfold i in *; lia|].
  rewrite M_bind_unfold. unfold commit. rewrite db_io_quiet by done.
  cbn [txn set_txn]. unfold stored_row.
  fold (kept_real (stored_real (field d "fee_percent"))). rewrite Hkept.
  reflexivity.
Qed.

Lemma newest_heads (l : list (Z * Offer)) (i : Z) (o : Offer) :
  (i, o) ∈ l -> NoDup l.*1 -> (forall j o', (j, o') ∈ l -> j <= i) ->
  exists rest, order_by_id_desc l = (i, o) :: rest.
Proof.
  intros Hin Hnd Hmax. unfold order_by_id_desc.
  pose proof (StronglySorted_merge_sort by_id_desc l) as Hs.
  pose proof (merge_sort_Permutation by_id_desc l) as Hp.
  rewrite <- Hp in Hin, Hnd.
  assert (Hmax' : forall j o', (j, o') ∈ merge_sort by_id_desc l -> j <= i).
  { intros j o' Hj. rewrite Hp in Hj. by eapply Hmax. }
  destruct (merge_sort by_id_desc l) as [|[j o'] rest]; [by apply elem_of_nil in Hin|].
  exists rest. apply elem_of_cons in Hin as [Heq|Hin]; [by rewrite Heq|].
  exfalso. apply StronglySorted_inv in Hs as [_ Hx].
  rewrite Forall_forall in Hx. specialize (Hx _ Hin). unfold by_id_desc in Hx.
  cbn in Hx. specialize (Hmax' j o' ltac:(by left)).
  assert (j = i) as -> by lia.
  cbn in Hnd. apply NoDup_cons in Hnd as [Hni _]. apply Hni.
  by apply (list_elem_of_fmap_2 fst) in Hin.
Qed.

Lemma sql_limit_head {A} (n : Z) (x : A) (l : list A) :
  1 <= n -> exists rest, sql_limit n (x :: l) = x :: rest.
Proof.
  intros Hn. unfold sql_limit. destruct (n <? 0); [by eexists|].
  destruct (Z.to_nat n) as [|k] eqn:Hk; [lia|]. by eexists.
Qed.

Lemma newest_selected (t : gmap Z Offer) (P : Z * Offer -> Prop)
    `{!forall r, Decision (P r)} (i n : Z) (o : Offer) :
  1 <= n -> P (i, o) -> (forall j, is_Some (t !! j) -> j < i) ->
  exists rest,
    sql_limit n (order_by_id_desc (filter P (map_to_list (<[i := o]> t))))
    = (i, o) :: rest.
Proof.
  intros Hn HP Hmax.
  destruct (newest_heads (filter P (map_to_list (<[i := o]> t))) i o)
    as [rest ->].
  - apply list_elem_of_filter. split; [done|].
    apply elem_of_map_to_list. apply lookup_insert_eq.
  - eapply sublist_NoDup; [apply (NoDup_fst_map_to_list (<[i := o]> t))|].
    apply fmap_sublist, sublist_filter.
  - intros j o' [_ Hj%elem_of_map_to_list]%list_elem_of_filter.
    destruct (decide (j = i)) as [->|Hne]; [lia|].
    rewrite lookup_insert_ne in Hj by done.
    specialize (Hmax j ltac:(by eexists)). lia.
  - by apply sql_limit_head.
Qed.

Lemma next_rowid_above (w : World) (j : Z) :
  is_Some (offers w !! j) -> j < next_rowid w.
Proof. intros Hj%max_key_bound. unfold next_rowid. lia. Qed.

(** X12 (a saved offer heads the listing).  On a database without faults
    and with a key left, after [save_offer] of a well-typed payload the
    first row [list_last_offers] returns, for a limit of at least 1, is the
    one of the new offer: its id, the fields of the payload as given, the
    status [new] and the time of creation; at most [limit - 1] rows
    follow. *)
Theorem save_then_list (w : World) (d : gmap string pyval) (raw : string)
    (limit : Z) :
  faults w = [] -> next_rowid w <= int64_max -> well_typed_offer d ->
  1 <= limit <= int64_max ->
  exists (offer_id : Z) (w1 w2 : World) (rest : list (list pyval)),
    save_offer (PyDict d) raw w = (Ok offer_id, w1) /\
    list_last_offers limit w1 =
      (Ok ([PyInt offer_id; field d "country"; field d "method";
            field d "fee"; field d "rate"; PyStr "new";
            PyStr (clock w (ticks w)); field d "kind";
            field d "fee_percent"] :: rest), w2) /\
    Z.of_nat (length rest) < limit.
Proof.
  intros Hf Hid Hwt Hlim.
  destruct (save_offer_run w d raw Hf Hid Hwt)
    as (w1 & Hsave & Ho & Hseq & Hf1 & _).
  destruct Hwt as (Hc & Hm & Hfe & Hr & Hl & Hcd & Hk & Hp).
  apply stored_text_inv in Hc, Hm, Hfe, Hr, Hl, Hcd, Hk.
  apply stored_real_inv in Hp as [Hp _].
  pose proof (list_last_offers_run limit w1 Hf1
                ltac:(unfold int64_min; lia)) as Hlist.
  rewrite Ho in Hlist.
  pose proof (newest_selected (offers w) (fun _ => True) (next_rowid w) limit
                (stored_row d raw (clock w (ticks w))) ltac:(lia) I
                (next_rowid_above w)) as [rest Hsel].
  rewrite (filter_all (fun _ => True)) in Hsel by done.
  pose proof (sql_limit_length limit
    (order_by_id_desc
       (map_to_list (<[next_rowid w := stored_row d raw (clock w (ticks w))]>
                       (offers w)))) ltac:(lia)) as Hlen.
  rewrite Hsel in Hlist, Hlen. cbn [length] in Hlen.
  eexists _, _, _, (recent_row <$> rest). split; [exact Hsave|]. split.
  - rewrite Hlist.
    cbn [fmap list_fmap recent_row stored_row country method fee rate status
           created_at kind fee_percent].
    by rewrite <- Hc, <- Hm, <- Hfe, <- Hr, <- Hk, <- Hp.
  - rewrite length_fmap. lia.
Qed.




(** *** A text classified as an offer *)

Lemma save_offer_dict (w w1 : World) (parsed : pyval) (raw : string) (i : Z) :
  save_offer parsed raw w = (Ok i, w1) -> exists d, parsed = PyDict d.
Proof.
  destruct parsed as [|b|n|f|s|l|d]; [..|by eexists];
    unfold save_offer; rewrite M_bind_unfold; cbn [utcnow_isoformat];
    unfold with_connection;
    (destruct (db_io _) as [[[]|e] w']; [|done]);
    cbn [dict_get]; by rewrite lift_bind.
Qed.

(** X14 (the confirmation names the id of the row).  When the interpreter
    returns the mode [offer] and [save_offer] returns an id, [handle_text]
    replies in Markdown with a confirmation whose first line carries that
    id, and the id is the key under which exactly one row was added, with
    the text of the message as its raw text. *)
Theorem handle_text_offer_saved (update : Update) (w w1 : World)
    (data offer : pyval) (i : Z) :
  let user_text := default "" (message_text update) in
  let w0 := sent update thinking_reply None w in
  (interpret user_text w0).1 = Ok data ->
  dict_get data "mode" = Ok (PyStr "offer") ->
  dict_get data "offer" = Ok offer ->
  save_offer (py_or offer (PyDict ∅)) user_text w0 = (Ok i, w1) ->
  exists rest,
    handle_text update w =
      (Ok tt,
       sent update
         (String.concat nl
            (("✅ Оффер сохранён. ID: *" +:+ pretty i +:+ "*") :: rest))
         Markdown w1) /\
    i = next_rowid w /\ inserted user_text w w1.
Proof.
  intros user_text w0 Hi Hmode Hoffer Hsave.
  pose proof (save_offer_effect w0 (py_or offer (PyDict ∅)) user_text) as He.
  rewrite Hsave in He. destruct He as [Hnext Hins].
  destruct (save_offer_dict _ _ _ _ _ Hsave) as [d Hd].
  assert (Hrun : exists rest,
    _handle_offer_mode data user_text (effective_chat_id update) w0 =
      (Ok tt,
       sent update
         (String.concat nl
            (("✅ Оффер сохранён. ID: *" +:+ pretty i +:+ "*") :: rest))
         Markdown w1)).
  { unfold _handle_offer_mode. rewrite Hoffer, M_bind_lift_ok.
    rewrite M_bind_unfold, Hsave. rewrite Hd. cbn [dict_get].
    rewrite !M_bind_lift_ok.
    destruct (negb (is_None (field d "fee_percent")));
      destruct (truthy (field d "short_summary")); by eexists. }
  destruct Hrun as [rest Hrun]. exists rest. split; [|split].
  - unfold handle_text. rewrite M_bind_unfold.
    cbn [reply_text send_message]. fold (sent update thinking_reply None w).
    fold w0. unfold try_except, dispatch. rewrite M_bind_unfold.
    fold user_text. pose proof (interpret_world user_text w0) as Hw.
    destruct (interpret user_text w0) as [r w2]. cbn in Hi, Hw. subst r w2.
    rewrite Hmode, M_bind_lift_ok. cbn [py_eq_str String.eqb Ascii.eqb Bool.eqb].
    by rewrite Hrun.
  - exact Hnext.
  - exact Hins.
Qed.


Lemma handle_text_offer_mode (update : Update) (w : World) (data : pyval) :
  let user_text := default "" (message_text update) in
  let w0 := sent update thinking_reply None w in
  (interpret user_text w0).1 = Ok data ->
  dict_get data "mode" = Ok (PyStr "offer") ->
  handle_text update w =
    match _handle_offer_mode data user_text (effective_chat_id update) w0 with
    | (Raise e, w1) => (Ok tt, sent update (error_reply e) None w1)
    | r => r
    end.
Proof.
  intros user_text w0 Hi Hmode.
  unfold handle_text. rewrite M_bind_unfold.
  cbn [reply_text send_message]. fold (sent update thinking_reply None w).
  fold w0. unfold try_except, dispatch. rewrite M_bind_unfold.
  fold user_text. pose proof (interpret_world user_text w0) as Hw.
  destruct (interpret user_text w0) as [r w2]. cbn in Hi, Hw. subst r w2.
  rewrite Hmode, M_bind_lift_ok. cbn [py_eq_str String.eqb Ascii.eqb Bool.eqb].
  by destruct (_handle_offer_mode _ _ _ _) as [[[]|e] w1].
Qed.

Lemma well_typed_empty : well_typed_offer ∅.
Proof. by repeat split. Qed.

(** X15 (an offer without an object).  On a database without faults, when
    the interpreter returns the mode [offer] with an [offer] entry that is
    missing, [None] or empty, [handle_text] stores the text of the message
    alone, every other field NULL, and confirms with a dash for each
    field; when the entry is a non-empty value that is not an object,
    nothing is stored and the reply is the error reply of the
    [AttributeError]. *)
Theorem handle_text_offer_without_object (update : Update) (w : World)
    (data offer : pyval) :
  let user_text := default "" (message_text update) in
  let w0 := sent update thinking_reply None w in
  faults w = [] ->
  (interpret user_text w0).1 = Ok data ->
  dict_get data "mode" = Ok (PyStr "offer") ->
  dict_get data "offer" = Ok offer ->
  (truthy offer = false -> next_rowid w <= int64_max ->
   exists w1,
     handle_text update w =
       (Ok tt, sent update (bare_confirmation (next_rowid w)) Markdown w1) /\
     offers w1 =
       <[next_rowid w := stored_row ∅ user_text (clock w (ticks w))]>
         (offers w)) /\
  (truthy offer = true -> (forall d, offer <> PyDict d) ->
   exists w1,
     handle_text update w =
       (Ok tt, sent update (error_reply (no_attribute offer "get")) None w1) /\
     same_table w w1).
Proof.
  intros user_text w0 Hf Hi Hmode Hoffer. split.
  - intros Ht Hid.
    destruct (save_offer_run w0 ∅ user_text Hf Hid well_typed_empty)
      as (w1 & Hsave & Ho & _).
    exists w1. split; [|exact Ho].
    rewrite (handle_text_offer_mode update w data Hi Hmode).
    fold user_text w0. unfold _handle_offer_mode.
    rewrite Hoffer, M_bind_lift_ok. unfold py_or. rewrite Ht.
    rewrite M_bind_unfold. change (next_rowid w0) with (next_rowid w) in Hsave.
    rewrite Hsave. reflexivity.
  - intros Ht Hnd.
    rewrite (handle_text_offer_mode update w data Hi Hmode).
    fold user_text w0. unfold _handle_offer_mode.
    rewrite Hoffer, M_bind_lift_ok. unfold py_or. rewrite Ht.
    rewrite M_bind_unfold. unfold save_offer. rewrite M_bind_unfold.
    cbn [utcnow_isoformat]. rewrite with_connection_quiet by done.
    assert (Hg : dict_get offer "country" = Raise (no_attribute offer "get")).
    { destruct offer; try done. by destruct (Hnd d). }
    rewrite Hg, lift_bind. eexists. split; [reflexivity|]. done.
Qed.

(** *** Where the coercions fail *)

(** X16 ([safe_float] raises for an int out of range only).  For every
    value, [safe_float] returns [None] (for [None] and for what [float()]
    refuses with a [TypeError] or [ValueError]) or the float [float()]
    gives; it raises only the [OverflowError] of an int too large for a
    float. *)
Theorem safe_float_raises_only_overflow (v : pyval) :
  match safe_float v with
  | Raise e =>
      e = Exn OverflowError "int too large to convert to float" /\
      exists n, v = PyInt n /\ is_inf (int_to_float n) = true
  | Ok r =>
      (r = PyNone /\ (v = PyNone \/ exists e, py_float v = Raise e)) \/
      (exists f, r = PyFloat f /\ py_float v = Ok f)
  end.
Proof.
  unfold safe_float. destruct v as [|b|n|f|s|l|d]; cbn [is_None py_float].
  - left. split; [done|by left].
  - right. by eexists.
  - destruct (is_inf (int_to_float n)) eqn:Hinf; cbn.
    + split; [done|by exists n].
    + right. by eexists.
  - right. by eexists.
  - destruct (float_of_str s); cbn.
    + right. by eexists.
    + left. split; [done|]. right. by eexists.
  - cbn. left. split; [done|]. right. by eexists.
  - cbn. left. split; [done|]. right. by eexists.
Qed.

Lemma like_clause_ok (sql : string) (v : pyval) :
  (exists c, like_clause sql v = Ok c) <-> lowerable v.
Proof.
  unfold like_clause, lowerable. destruct (truthy v) eqn:Ht.
  - destruct v; cbn [py_lower];
      (split; [intros [c Hc]|intros [Hf|[s0 Hs]]]); try done; eauto.
  - split; eauto.
Qed.

Lemma fee_clause_ok (sql : string) (v : pyval) :
  (exists c, fee_clause sql v = Ok c) <-> convertible v.
Proof.
  unfold fee_clause, convertible. destruct (is_None v) eqn:Hn; cbn.
  - split; eauto.
  - destruct (py_float v) as [f|e]; split.
    + eauto.
    + eauto.
    + by intros [? ?].
    + by intros [?|[? ?]].
Qed.

(** X17 (when the statement of a search is built).  [search_offers]
    builds its statement exactly when the country and the method are each
    falsy or a str and each fee bound is [None] or accepted by [float()];
    a truthy country that is not a str raises the [AttributeError] of its
    missing [lower], and a filter that is not a dict raises the one of its
    missing [get], in both cases before the database is opened. *)
Theorem search_query_builds (d : gmap string pyval) (limit : Z) :
  ((exists q, search_offers_query (PyDict d) limit = Ok q) <->
   lowerable (field d "country") /\ lowerable (field d "method") /\
   convertible (field d "min_fee_percent") /\
   convertible (field d "max_fee_percent")) /\
  (forall v, truthy v = true -> (forall s, v <> PyStr s) ->
     field d "country" = v ->
     search_offers_query (PyDict d) limit = Raise (no_attribute v "lower")) /\
  (forall filters w, (forall d', filters <> PyDict d') ->
     search_offers filters limit w = (Raise (no_attribute filters "get"), w)).
Proof.
  split; [|split].
  - rewrite search_offers_query_clauses.
    rewrite <- (like_clause_ok "LOWER(country) LIKE ?"),
            <- (like_clause_ok "LOWER(method) LIKE ?"),
            <- (fee_clause_ok "fee_percent >= ?"),
            <- (fee_clause_ok "fee_percent <= ?").
    unfold eq_clause.
    destruct (like_clause _ (field d "country")) as [c1|];
      [|split; [by intros [? ?]|by intros [[? ?] _]]].
    destruct (like_clause _ (field d "method")) as [c2|];
      [|split; [by intros [? ?]|by intros (_ & [? ?] & _)]].
    destruct (truthy (field d "status")), (truthy (field d "kind"));
      (destruct (fee_clause _ (field d "min_fee_percent")) as [c5|];
       [|split; [by intros [? ?]|by intros (_ & _ & [? ?] & _)]]);
      (destruct (fee_clause _ (field d "max_fee_percent")) as [c6|];
       [|split; [by intros [? ?]|by intros (_ & _ & _ & [? ?])]]);
      split; eauto 10.
  - intros v Ht Hns Hv. rewrite search_offers_query_clauses, Hv.
    unfold like_clause. rewrite Ht.
    destruct v; cbn; try done. by destruct (Hns s).
  - intros filters w Hnd. unfold search_offers.
    destruct filters; try done. by destruct (Hnd d0).
Qed.

(** *** Several criteria at once *)










End MoreProofs.

(** *** The schema *)


Lemma D_bind_unfold {A B} (m : D A) (f : A -> D B) (d : Disk) :
  (m ≫= f) d =
  match m d with
  | (Ok a, d') => f a d'
  | (Raise e, d') => (Raise e, d')
  end.
Proof. reflexivity. Qed.

Lemma disk_io_quiet (d : Disk) : disk_faults d = [] -> disk_io d = (Ok tt, d).
Proof. unfold disk_io. by intros ->. Qed.

Lemma widen_nil (t : Table) : widen [] t = t.
Proof.
  destruct t as [cols rows]. unfold widen; cbn. f_equal.
  - apply app_nil_r.
  - rewrite <- (map_fmap_id rows) at 2. apply map_fmap_ext.
    intros i row _. apply app_nil_r.
Qed.

Lemma widen_widen (a b : list Column) (t : Table) :
  widen b (widen a t) = widen (a ++ b) t.
Proof.
  unfold widen; cbn. f_equal.
  - by rewrite app_assoc.
  - rewrite <- map_fmap_compose. apply map_fmap_ext.
    intros i row _. cbn. rewrite length_app, replicate_add. by rewrite app_assoc.
Qed.

#[local] Instance keeps_table_refl : Reflexive keeps_table.
Proof.
  intros d. unfold keeps_table. destruct (catalog d) as [t|]; [|done].
  exists []. by rewrite widen_nil.
Qed.

#[local] Instance keeps_table_trans : Transitive keeps_table.
Proof.
  intros d1 d2 d3. unfold keeps_table.
  destruct (catalog d1) as [t|]; [|done].
  intros [a ->] [b ->]. exists (a ++ b). by rewrite widen_widen.
Qed.

Lemma keeping_bind {A B} (m : D A) (f : A -> D B) :
  keeping m -> (forall a, keeping (f a)) -> keeping (m ≫= f).
Proof.
  intros Hm Hf d. rewrite D_bind_unfold. specialize (Hm d).
  destruct (m d) as [[a|e] d']; cbn in *; [|done].
  etrans; [exact Hm|apply Hf].
Qed.

Lemma keeping_ret {A} (a : A) : keeping (mret a : D A).
Proof. intros d. reflexivity. Qed.

Lemma keeping_lift {A} (o : outcome A) : keeping (lift_d o).
Proof. intros d. reflexivity. Qed.

Lemma keeping_io : keeping disk_io.
Proof.
  intros d. unfold disk_io.
  destruct (disk_faults d) as [|[e|] l]; cbn; try reflexivity;
    unfold keeps_table; cbn; destruct (catalog d) as [t|]; try done;
    exists []; by rewrite widen_nil.
Qed.

Lemma keeping_create (cols : list Column) :
  keeping (create_table_if_not_exists cols).
Proof.
  intros d. unfold create_table_if_not_exists, keeps_table.
  destruct (catalog d) as [t|] eqn:Hd; cbn; [|done].
  rewrite Hd. exists []. by rewrite widen_nil.
Qed.

Lemma keeping_add (c : Column) : keeping (add_column c).
Proof.
  intros d. unfold add_column, keeps_table.
  destruct (catalog d) as [t|] eqn:Hd; cbn; [|done].
  destruct (has_column _ t); cbn.
  - rewrite Hd. exists []. by rewrite widen_nil.
  - by exists [c].
Qed.

Lemma keeping_table_info : keeping table_info.
Proof. intros d. reflexivity. Qed.

Lemma keeping_execute (sql : string) : keeping (execute_schema sql).
Proof.
  unfold execute_schema. apply keeping_bind; [apply keeping_io|]. intros _.
  repeat case_match;
    repeat first [ apply keeping_ret | apply keeping_create | apply keeping_add
                 | apply keeping_table_info | apply keeping_lift
                 | apply keeping_bind; [|intros ?] ].
Qed.

Lemma init_keeping : keeping init.
Proof.
  unfold init, with_disk_connection, disk_commit, disk_fetchall.
  repeat first [ apply keeping_io | apply keeping_execute | apply keeping_ret
               | apply keeping_lift | apply keeping_bind; [|intros ?]
               | case_match ].
Qed.

Lemma second_info_rows (cols : list Column) (k : nat) :
  map_outcome second (imap (fun i => info_row (k + i)) cols) =
  Ok ((fun c => PyStr (col_name c)) <$> cols).
Proof.
  revert k. induction cols as [|c cols IH]; intros k; [done|].
  cbn [imap map_outcome second info_row lookup list_lookup].
  cbn. erewrite imap_ext; [rewrite (IH (S k)); reflexivity|].
  intros i x _. cbn. f_equal. lia.
Qed.

Lemma names_of_table_info (cols : list Column) :
  map_outcome second (imap info_row cols) =
  Ok ((fun c => PyStr (col_name c)) <$> cols).
Proof. exact (second_info_rows cols 0). Qed.

Lemma py_in_names (name : string) (cols : list Column) :
  py_in name ((fun c => PyStr (col_name c)) <$> cols) =
  existsb (fun c => String.eqb (col_name c) name) cols.
Proof. unfold py_in. induction cols as [|c cols IH]; [done|]. cbn. by rewrite IH. Qed.

Lemma same_name_refl (a : string) : same_name a a = true.
Proof. apply String.eqb_refl. Qed.

Lemma has_column_exact (name : string) (t : Table) :
  exact_case name t ->
  existsb (fun c => String.eqb (col_name c) name) (table_columns t) =
  has_column name t.
Proof.
  unfold exact_case, has_column. induction (table_columns t) as [|c l IH];
    intros Hx; [done|]. cbn.
  rewrite IH by (intros c' Hc'; apply Hx; by right).
  f_equal. destruct (same_name (col_name c) name) eqn:Hs.
  - rewrite (Hx c); [apply String.eqb_refl|by left|done].
  - apply String.eqb_neq. intros Heq. rewrite Heq, same_name_refl in Hs. done.
Qed.

Lemma sql_schema_texts_differ :
  String.eqb table_info_sql create_table_sql = false /\
  String.eqb add_kind_sql create_table_sql = false /\
  String.eqb add_kind_sql table_info_sql = false /\
  String.eqb add_fee_percent_sql create_table_sql = false /\
  String.eqb add_fee_percent_sql table_info_sql = false /\
  String.eqb add_fee_percent_sql add_kind_sql = false.
Proof. by vm_compute. Qed.

Lemma has_column_widen (name : string) (cols : list Column) (t : Table) :
  has_column name (widen cols t) =
  has_column name t || existsb (fun c => same_name (col_name c) name) cols.
Proof. unfold has_column, widen; cbn. apply existsb_app. Qed.

Lemma exact_case_widen (name : string) (cols : list Column) (t : Table) :
  exact_case name t ->
  Forall (fun c => same_name (col_name c) name = true -> col_name c = name) cols ->
  exact_case name (widen cols t).
Proof.
  intros Ht Hc c. unfold widen; cbn. rewrite elem_of_app. intros [Hin|Hin].
  - by apply Ht.
  - rewrite Forall_forall in Hc. by apply Hc.
Qed.

Lemma D_bind_ok {A B} (m : D A) (f : A -> D B) (d d' : Disk) (a : A) :
  m d = (Ok a, d') -> (m ≫= f) d = f a d'.
Proof. intros Hm. by rewrite D_bind_unfold, Hm. Qed.

Lemma D_bind_raise {A B} (m : D A) (f : A -> D B) (d d' : Disk) (e : exn) :
  m d = (Raise e, d') -> (m ≫= f) d = (Raise e, d').
Proof. intros Hm. by rewrite D_bind_unfold, Hm. Qed.

Lemma execute_create_quiet (t : Table) :
  execute_schema create_table_sql (quiet t) = (Ok no_rows, quiet t).
Proof.
  unfold execute_schema. erewrite D_bind_ok by (by apply disk_io_quiet).
  by rewrite String.eqb_refl.
Qed.

Lemma execute_table_info_quiet (t : Table) :
  execute_schema table_info_sql (quiet t) =
  (Ok {| lastrowid := 0; result_rows := imap info_row (table_columns t) |},
   quiet t).
Proof.
  destruct sql_schema_texts_differ as (E1 & _).
  unfold execute_schema. erewrite D_bind_ok by (by apply disk_io_quiet).
  by rewrite E1, String.eqb_refl.
Qed.

Lemma execute_add_kind_quiet (t : Table) :
  has_column "kind" t = false ->
  execute_schema add_kind_sql (quiet t) =
  (Ok no_rows, quiet (widen [kind_column] t)).
Proof.
  intros Hk. destruct sql_schema_texts_differ as (_ & E2 & E3 & _).
  unfold execute_schema. erewrite D_bind_ok by (by apply disk_io_quiet).
  rewrite E2, E3, String.eqb_refl. rewrite D_bind_unfold.
  unfold add_column. cbn [catalog quiet col_name kind_column text_column].
  by rewrite Hk.
Qed.

Lemma execute_add_fee_percent_quiet (t : Table) :
  has_column "fee_percent" t = false ->
  execute_schema add_fee_percent_sql (quiet t) =
  (Ok no_rows, quiet (widen [fee_percent_column] t)).
Proof.
  intros Hk. destruct sql_schema_texts_differ as (_ & _ & _ & E4 & E5 & E6).
  unfold execute_schema. erewrite D_bind_ok by (by apply disk_io_quiet).
  rewrite E4, E5, E6, String.eqb_refl. rewrite D_bind_unfold.
  unfold add_column. cbn [catalog quiet col_name fee_percent_column].
  by rewrite Hk.
Qed.

Lemma execute_add_quiet_duplicate (t : Table) :
  (has_column "kind" t = true ->
   execute_schema add_kind_sql (quiet t) =
   (Raise (sqlite_error "duplicate column name: kind"), quiet t)) /\
  (has_column "fee_percent" t = true ->
   execute_schema add_fee_percent_sql (quiet t) =
   (Raise (sqlite_error "duplicate column name: fee_percent"), quiet t)).
Proof.
  destruct sql_schema_texts_differ as (_ & E2 & E3 & E4 & E5 & E6).
  split; intros Hk; unfold execute_schema;
    (erewrite D_bind_ok by (by apply disk_io_quiet)).
  - rewrite E2, E3, String.eqb_refl. rewrite D_bind_unfold.
    unfold add_column. cbn [catalog quiet col_name kind_column text_column].
    by rewrite Hk.
  - rewrite E4, E5, E6, String.eqb_refl. rewrite D_bind_unfold.
    unfold add_column. cbn [catalog quiet col_name fee_percent_column].
    by rewrite Hk.
Qed.

Lemma init_add_missing (t : Table) :
  init (quiet t) =
  add_missing ((fun c => PyStr (col_name c)) <$> table_columns t) (quiet t).
Proof.
  unfold init, with_disk_connection, disk_commit, disk_fetchall.
  erewrite D_bind_ok by (by apply disk_io_quiet).
  erewrite D_bind_ok by apply execute_create_quiet.
  erewrite D_bind_ok by (by apply disk_io_quiet).
  erewrite D_bind_ok by apply execute_table_info_quiet.
  erewrite (D_bind_ok (disk_io ≫= _)).
  2:{ erewrite D_bind_ok by (by apply disk_io_quiet). reflexivity. }
  cbn [result_rows]. rewrite D_bind_unfold. unfold lift_d at 1.
  rewrite names_of_table_info. reflexivity.
Qed.

(** One run of [init] with no fault, on a file that has the table [t] *)
Lemma init_run (t : Table) :
  exact_case "kind" t -> exact_case "fee_percent" t ->
  init (quiet t) = (Ok tt, quiet (widen (missing_columns t) t)).
Proof.
  intros Hk Hf. rewrite init_add_missing. unfold add_missing.
  rewrite !py_in_names, !has_column_exact by done.
  unfold missing_columns.
  destruct (has_column "kind" t) eqn:Hhk; cbn [negb].
  - erewrite D_bind_ok by reflexivity.
    destruct (has_column "fee_percent" t) eqn:Hhf; cbn [negb].
    + erewrite D_bind_ok by reflexivity.
      cbn [app]. rewrite widen_nil. by apply disk_io_quiet.
    + erewrite (D_bind_ok (execute_schema _ ≫= _)).
      2:{ erewrite D_bind_ok by (by apply execute_add_fee_percent_quiet).
          reflexivity. }
      by apply disk_io_quiet.
  - erewrite (D_bind_ok (execute_schema _ ≫= _)).
    2:{ erewrite D_bind_ok by (by apply execute_add_kind_quiet). reflexivity. }
    destruct (has_column "fee_percent" t) eqn:Hhf; cbn [negb].
    + erewrite D_bind_ok by reflexivity. by apply disk_io_quiet.
    + erewrite (D_bind_ok (execute_schema _ ≫= _)).
      2:{ erewrite D_bind_ok; [reflexivity|].
          apply execute_add_fee_percent_quiet.
          rewrite has_column_widen, Hhf. by vm_compute. }
      rewrite widen_widen. by apply disk_io_quiet.
Qed.

Lemma init_run_fresh :
  init {| catalog := None; disk_faults := [] |} =
  (Ok tt, quiet {| table_columns :=
                     created_columns ++ [kind_column; fee_percent_column];
                   table_rows := ∅ |}).
Proof. by vm_compute. Qed.

Lemma has_column_missing (t : Table) :
  has_column "kind" (widen (missing_columns t) t) = true /\
  has_column "fee_percent" (widen (missing_columns t) t) = true.
Proof.
  rewrite !has_column_widen. unfold missing_columns.
  destruct (has_column "kind" t), (has_column "fee_percent" t); by vm_compute.
Qed.

Lemma exact_case_missing (name : string) (t : Table) :
  name = "kind" \/ name = "fee_percent" ->
  exact_case name t -> exact_case name (widen (missing_columns t) t).
Proof.
  intros Hn Ht. apply exact_case_widen; [done|]. unfold missing_columns.
  apply Forall_app. split; case_match; constructor; try constructor;
    destruct Hn as [-> | ->]; by vm_compute.
Qed.

(** X18 ([init] creates or migrates the table).  On a file without
    faults whose table, if any, names [kind] and [fee_percent] in exactly
    this case or not at all, [init] returns and leaves the table with
    those of the two columns it lacked declared last and NULL in every
    row, the rest as it was; a file without a table gets the thirteen
    columns [get_offer_by_id] selects, in that order, and no row.  A
    second run changes nothing. *)
Theorem init_migrates (d : Disk) :
  disk_faults d = [] ->
  (forall t, catalog d = Some t ->
     exact_case "kind" t /\ exact_case "fee_percent" t) ->
  let t := table_or_created d in
  let d' := quiet (widen (missing_columns t) t) in
  init d = (Ok tt, d') /\
  has_column "kind" (widen (missing_columns t) t) = true /\
  has_column "fee_percent" (widen (missing_columns t) t) = true /\
  init d' = (Ok tt, d') /\
  (catalog d = None ->
   col_name <$> table_columns (widen (missing_columns t) t) =
     ["id"; "raw_text"; "country"; "method"; "fee"; "rate"; "limits";
      "conditions"; "status"; "created_at"; "updated_at"; "kind";
      "fee_percent"] /\
   table_rows (widen (missing_columns t) t) = ∅).
Proof.
  intros Hf Hx t d'.
  assert (Hxt : exact_case "kind" t /\ exact_case "fee_percent" t).
  { unfold t, table_or_created. destruct (catalog d) as [t0|] eqn:Hd; cbn.
    - by apply Hx.
    - split; intros c Hc; cbn in Hc;
        repeat (apply elem_of_cons in Hc as [-> | Hc]; [by vm_compute|]);
        by apply elem_of_nil in Hc. }
  destruct Hxt as [Hk Hp].
  pose proof (has_column_missing t) as [Hhk Hhp].
  split; [|split; [done|split; [done|split]]].
  - destruct d as [[t0|] l]; cbn in Hf; subst l.
    + by apply init_run.
    + unfold d', t, table_or_created; cbn [catalog default].
      rewrite init_run_fresh. by vm_compute.
  - unfold d'. rewrite init_run by (apply exact_case_missing; auto).
    unfold missing_columns at 1. rewrite Hhk, Hhp. cbn [app].
    by rewrite widen_nil.
  - intros Hd. unfold t, table_or_created. rewrite Hd. by vm_compute.
Qed.

(** X19 ([init] keeps what the file has).  Whatever faults occur, and
    whether [init] returns or raises, a table the file had is still there
    afterwards with its columns in place and its rows under their keys;
    columns are only ever added at the end, with NULL in every row. *)
Theorem init_keeps_table (d : Disk) :
  match catalog d with
  | None => True
  | Some t => exists cols, catalog (init d).2 = Some (widen cols t)
  end.
Proof. exact (init_keeping d). Qed.

(** X20 (a column that differs in case).  [init] looks for the names
    [kind] and [fee_percent] as they are written, the engine compares the
    names of columns without regard to case: on a table that has one of
    the two under another spelling (such as [KIND]), [init] raises the
    error of the duplicate column, on every run. *)
Theorem init_case_variant (t : Table) :
  (has_column "kind" t = true ->
   existsb (fun c => String.eqb (col_name c) "kind") (table_columns t) = false ->
   init (quiet t) =
     (Raise (sqlite_error "duplicate column name: kind"), quiet t)) /\
  (exact_case "kind" t -> has_column "fee_percent" t = true ->
   existsb (fun c => String.eqb (col_name c) "fee_percent") (table_columns t)
     = false ->
   exists cols,
     init (quiet t) =
       (Raise (sqlite_error "duplicate column name: fee_percent"),
        quiet (widen cols t))).
Proof.
  split.
  - intros Hh Hn. rewrite init_add_missing. unfold add_missing.
    rewrite !py_in_names, Hn. cbn [negb].
    apply D_bind_raise, D_bind_raise.
    by apply execute_add_quiet_duplicate.
  - intros Hk Hh Hn. rewrite init_add_missing. unfold add_missing.
    rewrite !py_in_names, Hn, has_column_exact by done. cbn [negb].
    destruct (has_column "kind" t) eqn:Hhk; cbn [negb].
    + exists []. rewrite widen_nil. erewrite D_bind_ok by reflexivity.
      apply D_bind_raise, D_bind_raise.
      by apply execute_add_quiet_duplicate.
    + exists [kind_column].
      erewrite (D_bind_ok (execute_schema _ ≫= _)).
      2:{ erewrite D_bind_ok by (by apply execute_add_kind_quiet). reflexivity. }
      apply D_bind_raise, D_bind_raise.
      apply (execute_add_quiet_duplicate (widen [kind_column] t)).
      by rewrite has_column_widen, Hh.
Qed.

(** *** Configuration *)

Lemma not_value_false (v : option string) :
  not_value v = false <-> exists s, v = Some s /\ s <> "".
Proof.
  destruct v as [s|]; cbn.
  - rewrite String.eqb_neq. split; [by eauto|]. by intros (? & [= <-] & ?).
  - split; [done|]. by intros (? & ? & ?).
Qed.

(** X21 (the required variables).  [load_from_env] returns exactly when
    BOT_TOKEN and OPENAI_API_KEY are both set, in the process or in the
    file, to a text that is not empty; the settings then hold these two
    and, for the three others, the value set or the default.  Otherwise
    it raises a [RuntimeError] whose message names the missing ones, and
    only them, in this order. *)
Theorem load_from_env_required (dotenv environ : gmap string string) :
  let env := environ ∪ dotenv in
  let missing :=
    filter (fun name => not_value (env !! name) = true) required_variables in
  match (load_from_env dotenv environ).1 with
  | Ok s =>
      missing = [] /\
      (exists b k, bot_token s = Some b /\ b <> "" /\ env !! "BOT_TOKEN" = Some b /\
                   openai_api_key s = Some k /\ k <> "" /\
                   env !! "OPENAI_API_KEY" = Some k) /\
      openai_model s = default "gpt-4.1" (env !! "OPENAI_MODEL") /\
      db_path s = default "offers.db" (env !! "DB_PATH") /\
      log_level s = default "INFO" (env !! "LOG_LEVEL")
  | Raise e =>
      missing <> [] /\
      e = Exn RuntimeError
            ("Missing required environment variables: "
             +:+ String.concat ", " missing)
  end.
Proof.
  intros env missing. unfold load_from_env, load_dotenv, getenv, getenv_default.
  fold env. unfold missing, required_variables.
  rewrite !filter_cons, filter_nil.
  destruct (env !! "BOT_TOKEN") as [b|] eqn:Hb;
    destruct (env !! "OPENAI_API_KEY") as [k|] eqn:Hk; cbn [not_value snd].
  - destruct (String.eqb_spec b ""), (String.eqb_spec k "");
      repeat (rewrite decide_True by done || rewrite decide_False by done);
      cbn; try done.
    split; [done|]. split; [|done]. by exists b, k.
  - destruct (String.eqb_spec b "");
      repeat (rewrite decide_True by done || rewrite decide_False by done);
      cbn; done.
  - destruct (String.eqb_spec k "");
      repeat (rewrite decide_True by done || rewrite decide_False by done);
      cbn; done.
  - repeat (rewrite decide_True by done || rewrite decide_False by done);
      cbn; done.
Qed.

(** The environment after [load_from_env], and what a result says of the
    variables *)
Lemma load_from_env_token (dotenv environ : gmap string string) :
  (load_from_env dotenv environ).2 = environ ∪ dotenv /\
  match (load_from_env dotenv environ).1 with
  | Ok s =>
      not_value ((environ ∪ dotenv) !! "BOT_TOKEN") = false /\
      not_value ((environ ∪ dotenv) !! "OPENAI_API_KEY") = false /\
      openai_model s = default "gpt-4.1" ((environ ∪ dotenv) !! "OPENAI_MODEL")
  | Raise _ => True
  end.
Proof.
  unfold load_from_env, load_dotenv, getenv, getenv_default.
  rewrite !filter_cons, filter_nil. cbn [snd].
  destruct (not_value ((environ ∪ dotenv) !! "BOT_TOKEN")) eqn:Hb;
    destruct (not_value ((environ ∪ dotenv) !! "OPENAI_API_KEY")) eqn:Hk;
    repeat (rewrite decide_True by done || rewrite decide_False by done);
    cbn; done.
Qed.

(** X22 (the process environment comes first).  After [load_from_env] a
    variable of the process has the value it had, and one the process
    lacked has the value of the file.  So a required variable the process
    sets to the empty text makes [load_from_env] raise even when the file
    has a value for it, and an optional one set to the empty text is
    empty in the settings, not the default. *)
Theorem load_from_env_precedence (dotenv environ : gmap string string)
    (name value : string) :
  (environ !! name = Some value ->
   (load_from_env dotenv environ).2 !! name = Some value) /\
  (environ !! name = None ->
   (load_from_env dotenv environ).2 !! name = dotenv !! name) /\
  (environ !! "BOT_TOKEN" = Some "" \/ environ !! "OPENAI_API_KEY" = Some "" ->
   exists e, (load_from_env dotenv environ).1 = Raise e) /\
  (forall s, (load_from_env dotenv environ).1 = Ok s ->
     environ !! "OPENAI_MODEL" = Some "" -> openai_model s = "").
Proof.
  destruct (load_from_env_token dotenv environ) as [Henv Hr].
  split; [|split; [|split]].
  - intros Hn. rewrite Henv. by apply lookup_union_Some_l.
  - intros Hn. rewrite Henv. by apply lookup_union_r.
  - intros Hempty.
    destruct (load_from_env dotenv environ).1 as [s|e]; [|by eexists].
    destruct Hr as (Hb & Hk & _).
    destruct Hempty as [He|He];
      apply (lookup_union_Some_l _ dotenv) in He;
      [rewrite He in Hb|rewrite He in Hk]; done.
  - intros s Hs Hm. rewrite Hs in Hr. destruct Hr as (_ & _ & ->).
    by rewrite (lookup_union_Some_l _ dotenv _ _ Hm).
Qed.

(** *** The hunter *)

Section HunterProofs.
Context `{BipLib}.
Variable chat : string.

Lemma check_and_report_quiet (phrase mode : string) :
  exists events,
    check_and_report chat phrase mode = (events, Ok tt) /\
    filter (fun e => is_send e = true) events = [] /\
    (length events <= 1)%nat.
Proof.
  unfold check_and_report, check_body.
  destruct (negb (word_count phrase =? 12)%nat);
    [eexists; split; [reflexivity|]; split; [done|cbn; lia]|].
  destruct (bip39_validate phrase) as [[|]|e];
    [|eexists; split; [reflexivity|]; split; [done|cbn; lia]..].
  destruct (mnemonic_to_address phrase) as [a|e];
    eexists; (split; [reflexivity|]); split; done || (cbn; lia).
Qed.

Lemma check_all_quiet (phrases : list string) (mode : string) :
  exists events,
    check_all chat phrases mode = (events, Ok tt) /\
    filter (fun e => is_send e = true) events = [] /\
    (length events <= length phrases)%nat.
Proof.
  induction phrases as [|phrase rest IH];
    [eexists; split; [reflexivity|]; split; [done|cbn; lia]|].
  cbn [check_all].
  destruct (check_and_report_quiet phrase mode) as (ev1 & -> & Hs1 & Hl1).
  destruct IH as (ev2 & -> & Hs2 & Hl2).
  exists (ev1 ++ ev2). split; [done|]. split.
  - by rewrite filter_app, Hs1, Hs2.
  - rewrite length_app. cbn [length]. lia.
Qed.

(** X23 (the hunter never reports).  Whatever the phrases and whatever
    the validator and the derivation of addresses return or raise,
    [process_brain], [process_mnemonic] and [process_broken] return having
    sent one message, the notice of the start: the balance is the constant
    0, so no phrase is ever reported; each phrase leaves at most one line
    in the log. *)
Theorem hunter_never_reports (mode : string) (phrases : list string) :
  exists events,
    process chat mode phrases = (events, Ok tt) /\
    filter (fun e => is_send e = true) events =
      [SendMessage chat ("🧵 Стартую режим: " +:+ mode)] /\
    (length events <= 1 + length phrases)%nat.
Proof.
  unfold process.
  destruct (check_all_quiet phrases mode) as (ev & -> & Hs & Hl).
  eexists. split; [reflexivity|]. split.
  - rewrite filter_cons_True by done. by rewrite Hs.
  - cbn [length]. lia.
Qed.

End HunterProofs.


(** ** Runs on sample inputs *)

Import AsciiLib Samples.


(** The same run, computed: the id is 1. *)
Example scenario_create_then_get :
  let r := save_offer (H := ascii_lib) (PyDict scenario_offer) scenario_text
                      (world ∅ 0 no_reply) in
  r.1 = Ok 1 /\
  (get_offer_by_id (H := ascii_lib) 1 r.2).1 =
    Ok (Some [PyInt 1; PyStr scenario_text; PyStr "RU"; PyStr "SBP";
              PyStr "1.8%"; PyNone; PyNone; PyNone; PyStr "new";
              PyStr "2024-05-01T10:00:00.000000";
              PyStr "2024-05-01T10:00:00.000000"; PyStr "channel";
              PyFloat (S754_finite false 8106479329266893 (-52))]).
Proof. vm_compute. split; reflexivity. Qed.

(** Two filters with a country each get the same text. *)
Lemma search_query_text_noninterference_witness :
  let q := search_sql "LOWER(country) LIKE ?" in
  let ru : gmap string pyval := {["country" := PyStr "RU"]} in
  q = q /\
  q = search_sql (where_for (criteria ru)) /\
  length [PyStr "%ru%"; PyInt 20] = S (length (predicates_for (criteria ru))).
Proof.
  apply (search_query_text_noninterference (H := ascii_lib)
           {["country" := PyStr "RU"]} {["country" := PyStr "India"]} 20 5
           _ _ [PyStr "%ru%"; PyInt 20] [PyStr "%india%"; PyInt 5]);
    vm_compute; reflexivity.
Defined.

(** C3 as stated fails: the content [{}] is an object without [mode];
    [interpret] returns it, and [handle_text] answers with the
    clarification reply. *)
Lemma interpret_object_without_mode :
  (interpret (H := ascii_lib) scenario_text
             (world ∅ 0 (ApiContent (Some "{}")))).1 = Ok (PyDict ∅) /\
  dict_get (PyDict ∅) "mode" = Ok PyNone /\
  map msg_text
      (outbox (handle_text (H := ascii_lib) update
                           (world ∅ 0 (ApiContent (Some "{}")))).2)
  = [unrecognized_reply; thinking_reply].
Proof. vm_compute. repeat split; reflexivity. Qed.

(** A content that decodes to a list is refused. *)
Lemma interpret_validates_object_witness :
  interpret (H := ascii_lib) scenario_text
            (world ∅ 0 (ApiContent (Some "[1]")))
  = (Raise (parse_failure "JSON is not an object" (Some "[1]")),
     world ∅ 0 (ApiContent (Some "[1]"))).
Proof.
  exact (interpret_validates_object (H := ascii_lib)
           (world ∅ 0 (ApiContent (Some "[1]"))) scenario_text (Some "[1]")
           eq_refl).
Defined.


(** The scenario of the specification: of the fees 5.0, 12.0 and absent,
    the bound [max_fee_percent = 11.0] selects the first. *)
Lemma search_fee_bounds_exact_witness :
  (search_offers (H := ascii_lib)
     (PyDict {["max_fee_percent" := PyFloat eleven]}) 20
     (world three_offers 3 no_reply)).1
  = Ok [search_row (1, offer (Some "RU") (Some five))].
Proof.
  destruct (search_fee_bounds_exact (H := ascii_lib)
              (world three_offers 3 no_reply)
              {["max_fee_percent" := PyFloat eleven]} 20 None (Some eleven))
    as [Hrun _].
  - reflexivity.
  - vm_compute. split; discriminate.
  - reflexivity.
  - reflexivity.
  - reflexivity.
  - reflexivity.
  - reflexivity.
  - reflexivity.
  - right. by eexists.
  - rewrite Hrun. vm_compute. reflexivity.
Defined.



(** The empty filter with limit 2 on three offers *)
Lemma search_without_criteria_witness :
  let w := world three_offers 3 no_reply in
  let selected :=
    sql_limit 2 (order_by_id_desc (map_to_list (offers w))) in
  exists (r : outcome unit) (w' : World),
    search_offers (H := ascii_lib) (PyDict ∅) 2 w =
      (match r with Ok _ => Ok (search_row <$> selected) | Raise e => Raise e end, w') /\
    list_last_offers (H := ascii_lib) 2 w =
      (match r with Ok _ => Ok (recent_row <$> selected) | Raise e => Raise e end, w') /\
    row_id <$> (search_row <$> selected) = row_id <$> (recent_row <$> selected) /\
    StronglySorted by_id_desc selected /\
    (forall i o, (i, o) ∈ selected -> offers w !! i = Some o) /\
    (faults w = [] -> int64_min <= 2 <= int64_max -> r = Ok tt).
Proof.
  apply (search_without_criteria (H := ascii_lib)). reflexivity.
Defined.

(** The same run, computed: the ids 3 and 2. *)
Example search_without_criteria_run :
  let w := world three_offers 3 no_reply in
  row_id <$> default [] (match (search_offers (H := ascii_lib) (PyDict ∅) 2 w).1 with Ok l => Some l | Raise _ => None end)
  = [Some (PyInt 3); Some (PyInt 2)].
Proof. vm_compute. reflexivity. Qed.

(** A [fee_percent] of [10 ^ 400] *)
Lemma save_offer_overflow_witness :
  exists w' : World,
    save_offer (H := ascii_lib) (PyDict {["fee_percent" := PyInt huge]})
               scenario_text (world three_offers 3 no_reply) =
      (Raise (Exn OverflowError "int too large to convert to float"), w') /\
    offers w' = offers (world three_offers 3 no_reply) /\
    sqlite_sequence w' = sqlite_sequence (world three_offers 3 no_reply).
Proof.
  apply (save_offer_overflow (H := ascii_lib) _ _ _ huge).
  - reflexivity.
  - reflexivity.
  - vm_compute. reflexivity.
Defined.

(** The argument [2 ^ 63] *)
Lemma handle_offer_overflow_witness :
  let w := world three_offers 3 no_reply in
  (exists e w', handle_offer (H := ascii_lib) update ["9223372036854775808"] w
                = (Raise e, w') /\ outbox w' = outbox w) /\
  (faults w = [] ->
   handle_offer (H := ascii_lib) update ["9223372036854775808"] w
   = (Raise int_too_large, set_txn None w)).
Proof.
  apply (handle_offer_overflow (H := ascii_lib) update "9223372036854775808"
           [] (2 ^ 63)).
  - vm_compute. reflexivity.
  - right. vm_compute. reflexivity.
Defined.

(** The bound [cheap] *)
Lemma search_offers_unparsable_bound_witness :
  let w := world three_offers 3 no_reply in
  (forall d : gmap string pyval,
     field d "min_fee_percent" = PyStr "cheap" \/
     field d "max_fee_percent" = PyStr "cheap" ->
     exists e, search_offers (H := ascii_lib) (PyDict d) 20 w = (Raise e, w)) /\
  search_offers (H := ascii_lib) (PyDict {["min_fee_percent" := PyStr "cheap"]}) 20 w =
    (Raise (cannot_convert (H := ascii_lib) "cheap"), w) /\
  search_offers (H := ascii_lib) (PyDict {["max_fee_percent" := PyStr "cheap"]}) 20 w =
    (Raise (cannot_convert (H := ascii_lib) "cheap"), w) /\
  safe_float (H := ascii_lib) (PyStr "cheap") = Ok PyNone.
Proof.
  apply (search_offers_unparsable_bound (H := ascii_lib)).
  vm_compute. reflexivity.
Defined.

(** The [fee_percent] [unknown] *)
Lemma save_offer_unparsable_fee_witness :
  let d : gmap string pyval :=
    list_to_map [("country", PyStr "RU"); ("fee_percent", PyStr "unknown")] in
  let w := world ∅ 0 no_reply in
  exists (offer_id : Z) (w1 w2 : World),
    save_offer (H := ascii_lib) (PyDict d) scenario_text w = (Ok offer_id, w1) /\
    get_offer_by_id (H := ascii_lib) offer_id w1 =
      (Ok (Some [PyInt offer_id; PyStr scenario_text; field d "country";
                 field d "method"; field d "fee"; field d "rate";
                 field d "limits"; field d "conditions"; PyStr "new";
                 PyStr (clock w (ticks w)); PyStr (clock w (ticks w));
                 field d "kind"; PyNone]), w2).
Proof.
  apply (save_offer_unparsable_fee (H := ascii_lib) _ _ _ "unknown");
    vm_compute; try reflexivity; try exact I. discriminate.
Defined.

(** No argument, the argument [abc], and the id 999 that no row has *)
Lemma handle_offer_replies_witness :
  let w := world three_offers 3 no_reply in
  handle_offer (H := ascii_lib) update [] w
    = (Ok tt, sent update usage_reply None w) /\
  handle_offer (H := ascii_lib) update ["abc"] w
    = (Ok tt, sent update not_a_number_reply None w) /\
  handle_offer (H := ascii_lib) update ["999"] w
    = (Ok tt, sent update (not_found_reply 999) None (set_txn None w)).
Proof.
  intros w.
  destruct (handle_offer_replies (H := ascii_lib) update w)
    as (H1 & H2 & H3 & _).
  split; [exact H1|]. split.
  - apply H2. vm_compute. reflexivity.
  - apply (H3 "999" [] 999).
    + vm_compute. reflexivity.
    + vm_compute. split; discriminate.
    + reflexivity.
    + vm_compute. reflexivity.
Defined.

(** The scenario of the specification: id 999 in an empty table *)
Example get_by_id_missing :
  (get_offer_by_id (H := ascii_lib) 999 (world ∅ 0 no_reply)).1 = Ok None.
Proof. vm_compute. reflexivity. Qed.

(** An object without mode *)
Lemma handle_text_negative_replies_witness :
  let w := world three_offers 3 (ApiContent (Some "{}")) in
  handle_text (H := ascii_lib) update w
  = (Ok tt, sent update unrecognized_reply None
              (sent update thinking_reply None w)).
Proof.
  apply (proj1 (handle_text_negative_replies (H := ascii_lib) update
                  (world three_offers 3 (ApiContent (Some "{}"))))
           (PyDict ∅) PyNone); reflexivity.
Defined.
(** ** Further runs on sample inputs *)

Import MoreSamples.

(** A table made before the two columns were added, with one row: [init]
    adds both, the row gets two NULLs, and a second run changes nothing. *)
Lemma init_migrates_witness :
  init (quiet legacy_table) =
    (Ok tt, quiet (widen [kind_column; fee_percent_column] legacy_table)) /\
  table_rows (widen [kind_column; fee_percent_column] legacy_table) !! 1 =
    Some (legacy_row ++ [SNull; SNull]) /\
  init (quiet (widen [kind_column; fee_percent_column] legacy_table)) =
    (Ok tt, quiet (widen [kind_column; fee_percent_column] legacy_table)).
Proof.
  destruct (init_migrates (quiet legacy_table)) as (H1 & _ & _ & H4 & _).
  - reflexivity.
  - intros t [= <-]. split; intros c Hc;
      repeat (apply elem_of_cons in Hc as [-> | Hc]; [by vm_compute|]);
      by apply elem_of_nil in Hc.
  - split; [exact H1|]. split; [by vm_compute|exact H4].
Defined.

(** A table whose column is spelled [KIND] *)
Lemma init_case_variant_witness :
  init (quiet shouting_table) =
    (Raise (sqlite_error "duplicate column name: kind"), quiet shouting_table).
Proof.
  apply (proj1 (init_case_variant shouting_table)); by vm_compute.
Defined.

(** The offer of the scenario, saved into a table of three, heads the two
    latest offers. *)
Lemma save_then_list_witness :
  exists (offer_id : Z) (w1 w2 : World) (rest : list (list pyval)),
    save_offer (H := ascii_lib) (PyDict scenario_offer) scenario_text
               (world three_offers 3 no_reply) = (Ok offer_id, w1) /\
    list_last_offers (H := ascii_lib) 2 w1 =
      (Ok ([PyInt offer_id; field scenario_offer "country";
            field scenario_offer "method"; field scenario_offer "fee";
            field scenario_offer "rate"; PyStr "new";
            PyStr (clock (world three_offers 3 no_reply)
                         (ticks (world three_offers 3 no_reply)));
            field scenario_offer "kind";
            field scenario_offer "fee_percent"] :: rest), w2) /\
    Z.of_nat (length rest) < 2.
Proof.
  apply (save_then_list (H := ascii_lib)).
  - reflexivity.
  - vm_compute. discriminate.
  - vm_compute. tauto.
  - vm_compute. split; discriminate.
Defined.


(** The listing of the three offers, and the line of the first of them *)
Lemma handle_offers_listing_witness :
  let w := world three_offers 3 no_reply in
  let l := [(3, offer None None); (2, offer (Some "India") (Some twelve));
            (1, offer (Some "RU") (Some five))] in
  handle_offers (H := ascii_lib) update w =
    (Ok tt, sent update
              (String.concat nl
                 ([recent_heading; ""] ++ (line_of (H := ascii_lib) <$> l)))
              Markdown (set_txn None w)) /\
  line_of (H := ascii_lib) (1, offer (Some "RU") (Some five)) =
    "ID *1* — [—] RU / — / 5.0% / курс ? — _new_".
Proof.
  intros w l.
  destruct (handle_offers_listing (H := ascii_lib) update w eq_refl)
    as [Hrun _].
  split; [|by vm_compute].
  rewrite Hrun. by vm_compute.
Defined.

(** The card of the offer with id 2 *)
Lemma handle_offer_card_witness :
  let w := world three_offers 3 no_reply in
  handle_offer (H := ascii_lib) update ["2"] w =
    (Ok tt, sent update
              (card_of (H := ascii_lib) (2, offer (Some "India") (Some twelve)))
              Markdown (set_txn None w)).
Proof.
  intros w. apply (handle_offer_card (H := ascii_lib)).
  - reflexivity.
  - by vm_compute.
  - vm_compute. split; discriminate.
  - by vm_compute.
Defined.

(** A search for the country [india] lists the offer with id 2. *)
Lemma search_mode_listing_witness :
  let w := world three_offers 3 (answers search_json) in
  let w0 := sent update thinking_reply None w in
  exists l,
    [search_row (2, offer (Some "India") (Some twelve))] = search_row <$> l /\
    handle_text (H := ascii_lib) update w =
      (Ok tt, sent update
                (String.concat nl
                   ([found_heading; ""] ++ (line_of (H := ascii_lib) <$> l)))
                Markdown (set_txn None w0)) /\
    (length l <= 20)%nat /\ newest_first l /\
    (forall i o, (i, o) ∈ l -> offers w !! i = Some o).
Proof.
  intros w w0.
  apply (search_mode_listing (H := ascii_lib) update w (set_txn None w0)
           (PyDict (list_to_map
              [("mode", PyStr "search");
               ("search", PyDict {["country" := PyStr "india"]})]))
           (PyDict {["country" := PyStr "india"]})).
  - by vm_compute.
  - by vm_compute.
  - by vm_compute.
  - by vm_compute.
  - discriminate.
Defined.

(** An offer with the country [RU], saved into a table of three, is
    confirmed under the id 4. *)
Lemma handle_text_offer_saved_witness :
  let w := world three_offers 3 (answers offer_json) in
  let w0 := sent update thinking_reply None w in
  let w1 := (save_offer (H := ascii_lib) (PyDict {["country" := PyStr "RU"]})
                        scenario_text w0).2 in
  exists rest,
    handle_text (H := ascii_lib) update w =
      (Ok tt,
       sent update
         (String.concat nl
            (("✅ Оффер сохранён. ID: *" +:+ pretty 4 +:+ "*") :: rest))
         Markdown w1) /\
    4 = next_rowid w /\ inserted scenario_text w w1.
Proof.
  intros w w0 w1.
  apply (handle_text_offer_saved (H := ascii_lib) update w w1
           (PyDict (list_to_map
              [("mode", PyStr "offer");
               ("offer", PyDict {["country" := PyStr "RU"]})]))
           (PyDict {["country" := PyStr "RU"]}) 4).
  - by vm_compute.
  - by vm_compute.
  - by vm_compute.
  - by vm_compute.
Defined.

(** An object with the mode [offer] alone, and one whose [offer] is a
    text *)
Lemma handle_text_offer_without_object_witness :
  (let w := world three_offers 3 (answers bare_offer_json) in
   exists w1,
     handle_text (H := ascii_lib) update w =
       (Ok tt, sent update (bare_confirmation (H := ascii_lib) 4) Markdown w1) /\
     offers w1 =
       <[4 := stored_row ∅ scenario_text "2024-05-01T10:00:00.000000"]>
         three_offers) /\
  (let w := world three_offers 3 (answers text_offer_json) in
   exists w1,
     handle_text (H := ascii_lib) update w =
       (Ok tt, sent update
                 (error_reply (no_attribute (PyStr "RU SBP") "get")) None w1) /\
     same_table w w1).
Proof.
  split; intros w.
  - apply (proj1 (handle_text_offer_without_object (H := ascii_lib) update w
                    (PyDict {["mode" := PyStr "offer"]}) PyNone
                    eq_refl ltac:(by vm_compute) ltac:(by vm_compute)
                    ltac:(by vm_compute))).
    + reflexivity.
    + vm_compute. discriminate.
  - apply (proj2 (handle_text_offer_without_object (H := ascii_lib) update w
                    (PyDict (list_to_map [("mode", PyStr "offer");
                                          ("offer", PyStr "RU SBP")]))
                    (PyStr "RU SBP")
                    eq_refl ltac:(by vm_compute) ltac:(by vm_compute)
                    ltac:(by vm_compute))).
    + reflexivity.
    + discriminate.
Defined.

(** A token from the process and a key from the file; and a token the
    process sets to the empty text, which hides the one of the file. *)
Lemma load_from_env_required_witness :
  (load_from_env {["OPENAI_API_KEY" := "sk-1"]} {["BOT_TOKEN" := "1:a"]}).1 =
    Ok {| bot_token := Some "1:a"; openai_api_key := Some "sk-1";
          openai_model := "gpt-4.1"; db_path := "offers.db";
          log_level := "INFO" |} /\
  (load_from_env {["BOT_TOKEN" := "1:a"]} {["BOT_TOKEN" := ""]}).1 =
    Raise (Exn RuntimeError
             "Missing required environment variables: BOT_TOKEN, OPENAI_API_KEY").
Proof.
  split.
  - pose proof (load_from_env_required {["OPENAI_API_KEY" := "sk-1"]}
                                       {["BOT_TOKEN" := "1:a"]}) as Hr.
    cbn zeta in Hr.
    destruct (load_from_env _ _).1 as [s|e].
    + destruct Hr as (_ & (b & k & Hb & _ & Hb' & Hk & _ & Hk') & Hm & Hd & Hl).
      destruct s as [t a m p l]. cbn in *.
      rewrite Hb, Hk, Hm, Hd, Hl. vm_compute in Hb', Hk'.
      by injection Hb' as <-; injection Hk' as <-.
    + destruct Hr as [Hr _]. by vm_compute in Hr.
  - pose proof (load_from_env_required {["BOT_TOKEN" := "1:a"]}
                                       {["BOT_TOKEN" := ""]}) as Hr.
    cbn zeta in Hr.
    destruct (load_from_env _ _).1 as [s|e].
    + destruct Hr as [Hr _]. by vm_compute in Hr.
    + destruct Hr as [_ ->]. by vm_compute.
Defined.

(** Two phrases, both taken to be valid and to have an address *)
Lemma hunter_never_reports_witness :
  exists events,
    process (H := every_phrase_valid) "42" "brain" ["correct horse"; "hunter2"]
      = (events, Ok tt) /\
    filter (fun e => is_send e = true) events =
      [SendMessage "42" ("🧵 Стартую режим: " +:+ "brain")] /\
    (length events <= 1 + 2)%nat.
Proof. apply (hunter_never_reports (H := every_phrase_valid)). Defined.

